(** * The FTP RTU downloader: a shallow embedding of [downloader.py] and of
    the worker of [main.py], with the properties of its specification.

    Definitions come first:
    - [PyStr]: the Python string and [os.path] operations the code calls;
    - exceptions and results; [Calendar]: dates, [datetime] values, their
      validation, their [strftime] fields and the arithmetic on days;
    - the world a run lives in: an environment of replies (server, local
      file system, signals of the other threads), the local files, and the
      trace of what the run did;
    - [downloader.py]: path candidates, matcher, connection, resolution,
      transfer of one file, orchestrator;
    - [main.py]: [int], the single timestamp and the loop of the worker
      over the stations;
    - the predicates the specification speaks with, and how a trace is
      read;
    - the rest of [downloader.py] ([list_files],
      [download_single_by_path]) and, from [main.py], the parameters of a
      start and the port of the settings tab.
    The properties follow: a section for each claim of the specification,
    then further properties of the code, numbered X1, X2, ...

    Conventions. Strings are byte strings and [str.lower] is modelled on
    the ASCII range. Paths follow [posixpath]. Python integers are [Z].
    A loop over a list is a [Fixpoint] on the list; [break] returns the
    accumulator, [continue] goes on with the rest. *)

From Stdlib Require Import ZArith Lia Bool Ascii String.
From Stdlib Require DecimalString DecimalPos.
From stdpp Require Import base list gmap strings.

Local Open Scope Z_scope.

(** stdpp freezes string concatenation under [simpl]; the proofs below
    compute with it. *)
#[local] Arguments String.append !_ _ / : simpl nomatch.

(* ===================================================================== *)
(** ** Python strings and paths *)
(* ===================================================================== *)

Module PyStr.

Definition slash : ascii := "/"%char.

(** [c.lower()] for one ASCII character: ['A'..'Z'] move to ['a'..'z']. *)
Definition lower_ascii (c : ascii) : ascii :=
  let n := nat_of_ascii c in
  if ((65 <=? n) && (n <=? 90))%nat then ascii_of_nat (n + 32) else c.

(** [s.lower()]. *)
Fixpoint lower (s : string) : string :=
  match s with
  | EmptyString => EmptyString
  | String c r => String (lower_ascii c) (lower r)
  end.

(** [s.startswith(p)]. *)
Fixpoint startswith (s p : string) {struct p} : bool :=
  match p, s with
  | EmptyString, _ => true
  | String _ _, EmptyString => false
  | String b p', String a s' => Ascii.eqb a b && startswith s' p'
  end.

(** [s.endswith(suf)]: [suf] is one of the tails of [s]. *)
Fixpoint endswith (s suf : string) : bool :=
  String.eqb s suf ||
  match s with
  | EmptyString => false
  | String _ r => endswith r suf
  end.

(** [s.rstrip("/")]: every trailing slash goes. *)
Fixpoint rstrip_slash (s : string) : string :=
  match s with
  | EmptyString => EmptyString
  | String c r =>
      match rstrip_slash r with
      | EmptyString =>
          if Ascii.eqb c slash then EmptyString else String c EmptyString
      | String _ _ as r' => String c r'
      end
  end.

(** [posixpath.basename(p)]: what follows the last slash. *)
Fixpoint basename (p : string) : string :=
  match p with
  | EmptyString => EmptyString
  | String c r =>
      if existsb (Ascii.eqb slash) (list_ascii_of_string r) then basename r
      else if Ascii.eqb c slash then r else p
  end.

(** [posixpath.join(a, b)] for two components. *)
Definition join2 (a b : string) : string :=
  if startswith b "/" then b
  else if String.eqb a "" || endswith a "/" then a +:+ b
  else a +:+ "/" +:+ b.

(** [posixpath.join(a, *ps)]. *)
Definition join (a : string) (ps : list string) : string :=
  fold_left join2 ps a.

(** Python's ASCII white space, what [str.strip()] and [int()] drop. *)
Definition is_space (c : ascii) : bool :=
  let n := nat_of_ascii c in
  ((9 <=? n) && (n <=? 13) || (28 <=? n) && (n <=? 32))%nat.

Fixpoint lstrip (s : string) : string :=
  match s with
  | EmptyString => EmptyString
  | String c r => if is_space c then lstrip r else s
  end.

Fixpoint rstrip (s : string) : string :=
  match s with
  | EmptyString => EmptyString
  | String c r =>
      match rstrip r with
      | EmptyString => if is_space c then EmptyString else String c EmptyString
      | String _ _ as r' => String c r'
      end
  end.

(** [s.strip()]. *)
Definition strip (s : string) : string := rstrip (lstrip s).

(** [s[i:j]] for [0 <= i <= j]: out-of-range slices are cut, not errors. *)
Definition slice (i j : nat) (s : string) : string :=
  String.substring i (j - i) s.

(** The decimal digit of [n mod 10]. *)
Definition digit_char (n : Z) : ascii :=
  ascii_of_nat (48 + Z.to_nat (n mod 10)).

(** ["%02d" % n] and ["%04d" % n] for [n] of at most two and four digits. *)
Definition fmt2 (n : Z) : string :=
  String (digit_char (n / 10)) (String (digit_char n) "").

Definition fmt4 (n : Z) : string :=
  String (digit_char (n / 1000)) (String (digit_char (n / 100)) (fmt2 n)).

End PyStr.

Import PyStr.

(* ===================================================================== *)
(** ** Exceptions and results *)
(* ===================================================================== *)

(** The exceptions the two modules raise or catch. Every one of them is a
    subclass of Python's [Exception], so a bare [except Exception] catches
    them all. [ConnectionError] keeps the two values its message is
    formatted from: the number of attempts and the last error, if any. *)
#[warnings="-register-all"]
Inductive exn : Type :=
  | ValueError (msg : string)
  | OverflowError
  | MemoryError
  | FtpError (msg : string)
  | OSError (msg : string)
  | Cancelled
  | ConnectionError (attempts : Z) (last : option exn).

Inductive result (A : Type) : Type :=
  | Ok (a : A)
  | Raise (e : exn).
Arguments Ok {A} a.
Arguments Raise {A} e.

Definition is_ok {A} (r : result A) : bool :=
  match r with Ok _ => true | Raise _ => false end.

(* ===================================================================== *)
(** ** Calendar values *)
(* ===================================================================== *)

Module Calendar.

(** A [datetime.date]. *)
Record date : Type := mk_date { dyear : Z; dmonth : Z; dday : Z }.

(** A naive [datetime.datetime], to the minute. *)
Record datetime : Type :=
  mk_datetime { year : Z; month : Z; day : Z; hour : Z; minute : Z }.

Definition is_leap (y : Z) : bool :=
  (y mod 4 =? 0) && (negb (y mod 100 =? 0) || (y mod 400 =? 0)).

Definition days_in_month (y m : Z) : Z :=
  if m =? 2 then (if is_leap y then 29 else 28)
  else if (m =? 4) || (m =? 6) || (m =? 9) || (m =? 11) then 30
  else 31.

Definition valid_date (d : date) : bool :=
  (1 <=? dyear d) && (dyear d <=? 9999) &&
  (1 <=? dmonth d) && (dmonth d <=? 12) &&
  (1 <=? dday d) && (dday d <=? days_in_month (dyear d) (dmonth d)).

(** [dt.date()]. *)
Definition date_of (dt : datetime) : date :=
  mk_date (year dt) (month dt) (day dt).

Definition valid_datetime (dt : datetime) : bool :=
  valid_date (date_of dt) &&
  (0 <=? hour dt) && (hour dt <=? 23) && (0 <=? minute dt) && (minute dt <=? 59).

(** The constructor [datetime(y, m, d, H, M)]: a value out of range
    raises [ValueError]. *)
Definition datetime_new (y m d H M : Z) : result datetime :=
  let dt := mk_datetime y m d H M in
  if valid_datetime dt then Ok dt
  else Raise (ValueError "value is out of range").

(** [strftime] fields of a [datetime]. [%Y] is the year on four digits, as
    documented (0001 to 9999); a C library that does not pad the years
    below 1000 changes the strings of those years, and none of the
    properties below. *)
Definition strftime_Y (dt : datetime) : string := fmt4 (year dt).
Definition strftime_m (dt : datetime) : string := fmt2 (month dt).
Definition strftime_d (dt : datetime) : string := fmt2 (day dt).
(** ["%d%m%Y"]. *)
Definition strftime_dmY (dt : datetime) : string :=
  strftime_d dt +:+ strftime_m dt +:+ strftime_Y dt.

(** [a <= b] on dates: the order of the triples. *)
Definition date_leb (a b : date) : bool :=
  (dyear a <? dyear b) ||
  ((dyear a =? dyear b) &&
   ((dmonth a <? dmonth b) ||
    ((dmonth a =? dmonth b) && (dday a <=? dday b)))).

(** [d + timedelta(days=1)]; past 9999-12-31 it raises [OverflowError]. *)
Definition next_day (d : date) : result date :=
  if dday d <? days_in_month (dyear d) (dmonth d)
  then Ok (mk_date (dyear d) (dmonth d) (dday d + 1))
  else if dmonth d <? 12
  then Ok (mk_date (dyear d) (dmonth d + 1) 1)
  else if dyear d <? 9999
  then Ok (mk_date (dyear d + 1) 1 1)
  else Raise OverflowError.

(** Days before January 1st of year [y]. *)
Definition days_before_year (y : Z) : Z :=
  let p := y - 1 in p * 365 + p / 4 - p / 100 + p / 400.

(** One more day in a leap year. *)
Definition leap_day (y : Z) : Z := if is_leap y then 1 else 0.

(** Days of year [y] before the 1st of month [m]: the table of a common
    year, and the leap day from March on. *)
Definition days_before_month (y m : Z) : Z :=
  match m with
  | 1 => 0 | 2 => 31 | 3 => 59 | 4 => 90 | 5 => 120 | 6 => 151 | 7 => 181
  | 8 => 212 | 9 => 243 | 10 => 273 | 11 => 304 | _ => 334
  end + (if 2 <? m then leap_day y else 0).

(** [d.toordinal()]: 0001-01-01 is day 1. *)
Definition toordinal (d : date) : Z :=
  days_before_year (dyear d) + days_before_month (dyear d) (dmonth d) + dday d.

End Calendar.

Import Calendar.

(* ===================================================================== *)
(** ** The world the downloader runs in *)
(* ===================================================================== *)

(** One block of a [RETR] as the chunk callback lives it. *)
Record chunk : Type := mk_chunk {
  chunk_data : string;
  (** [cancel_event.is_set() or _cancel_global] when the callback starts *)
  chunk_cancel : bool;
  (** while paused: the cancel reading at each wake-up of the 0.2 s poll;
      the pause is over when the list is *)
  chunk_wakes : list bool;
  (** [f.write(chunk)] failing *)
  chunk_write : option exn;
  (** the progress callback raising *)
  chunk_progress : option exn
}.

(** What a [retrbinary] call delivers: blocks, then a normal end or an
    error (a lost connection, a refused [RETR]). *)
Record retr_reply : Type := mk_retr {
  retr_chunks : list chunk;
  retr_end : option exn
}.

(** The environment: what the server, the local file system and the other
    threads answer at each interaction. Interactions are numbered; the
    [n]-th one of a run reads the replies at index [n]. Nothing is assumed
    about them, so a statement over every environment covers every
    interleaving of failures and signals. *)
Record env : Type := mk_env {
  (** [cancel_event.is_set() or _cancel_global], as the downloader reads it *)
  cancel_at : nat -> bool;
  (** [self.cancel_event.is_set()], as the worker reads it *)
  cancel_event_at : nat -> bool;
  connect_at : nat -> string -> Z -> option exn;
  login_at : nat -> string -> string -> option exn;
  cwd_at : nat -> string -> option exn;
  pwd_at : nat -> result string;
  nlst_at : nat -> option string -> result (list string);
  size_at : nat -> string -> result (option Z);
  retr_at : nat -> string -> retr_reply;
  open_at : nat -> string -> option exn;
  write_at : nat -> string -> option exn;
  remove_at : nat -> string -> option exn;
  quit_at : nat -> option exn
}.

(** What a run does, as seen from outside. Most events are calls to the
    outside (server, clock, local files, status callback). Three mark the
    entry into a step of the orchestrator: [EvResolve] (the resolution of
    the folder of a day), [EvList] (the listing of that folder) and
    [EvAttempt] (a matching file for which a local path was computed). *)
Inductive event : Type :=
  | EvConnect (attempt : Z)
  | EvSleep (seconds : Z)
  | EvPauseWake
  | EvCwd (path : string)
  | EvNlst (arg : option string)
  | EvQuit
  | EvTransfer (remote_file local_path : string)
  | EvProgress (received : Z) (total : option Z) (name : string)
  | EvRemove (local_path : string)
  | EvResolve (date_obj : datetime)
  | EvList (date_obj : datetime) (remote_path : string)
  | EvAttempt (remote_path base_fname local_path : string)
  | EvTestWrite (local_path : string)
  | EvInvalidSingleTs (single_ts : string) (e : exn)
  | EvStationSummary (station : string) (ok failed : Z)
  | EvCompleted (ok failed : Z)
  | EvError (e : exn).

(** The state a run threads: the interaction counter, the local files
    (directories are not tracked: a path exists when a file is stored
    there) and the events so far, newest first. *)
Record world : Type := mk_world {
  now : nat;
  files : gmap string string;
  trace : list event
}.

Definition init_world (fs : gmap string string) : world := mk_world 0 fs [].

(** An [ftplib.FTP] handle. *)
Record FTP : Type := mk_FTP { passiveserver : bool }.

(** Computations: state passing with exceptions; the state survives a raise. *)
Definition M (A : Type) : Type := world -> result A * world.

Definition ret {A} (a : A) : M A := fun w => (Ok a, w).
Definition raise {A} (e : exn) : M A := fun w => (Raise e, w).
Definition bind {A B} (m : M A) (k : A -> M B) : M B :=
  fun w => match m w with
           | (Ok a, w') => k a w'
           | (Raise e, w') => (Raise e, w')
           end.
(** [try: m  except Exception as e: h e]. *)
Definition try_catch {A} (m : M A) (h : exn -> M A) : M A :=
  fun w => match m w with
           | (Ok a, w') => (Ok a, w')
           | (Raise e, w') => h e w'
           end.

Declare Scope py_scope.
Delimit Scope py_scope with py.
Notation "x <- m ;; k" := (bind m (fun x => k))
  (at level 100, m at next level, right associativity) : py_scope.
Notation "m ;;; k" := (bind m (fun _ => k))
  (at level 100, right associativity) : py_scope.
Local Open Scope py_scope.

(** The next reply of the environment. *)
Definition ask {A} (f : nat -> A) : M A :=
  fun w => (Ok (f (now w)), mk_world (S (now w)) (files w) (trace w)).

Definition emit (e : event) : M unit :=
  fun w => (Ok tt, mk_world (now w) (files w) (e :: trace w)).

Definition lift_result {A} (r : result A) : M A := fun w => (r, w).

Definition lift_error (o : option exn) : M unit :=
  match o with None => ret tt | Some e => raise e end.

(** [os.path.exists(p)]. *)
Definition path_exists (p : string) : M bool :=
  fun w => (Ok (bool_decide (is_Some (files w !! p))), w).

Definition set_file (p c : string) : M unit :=
  fun w => (Ok tt, mk_world (now w) (<[p := c]> (files w)) (trace w)).

Definition append_file (p c : string) : M unit :=
  fun w => (Ok tt, mk_world (now w)
                     (<[p := default "" (files w !! p) +:+ c]> (files w)) (trace w)).

Definition delete_file (p : string) : M unit :=
  fun w => (Ok tt, mk_world (now w) (delete p (files w)) (trace w)).

(* ===================================================================== *)
(** ** [downloader.py] *)
(* ===================================================================== *)

(** *** Path candidates and the matcher *)

(** The loop "return unique preserving order" over [alt]. *)
Fixpoint unique_loop (alt : list string) (seen : gset string) (out : list string)
  : list string :=
  match alt with
  | [] => out
  | p :: rest =>
      if decide (p ∈ seen) then unique_loop rest seen out
      else unique_loop rest ({[p]} ∪ seen) (out ++ [p])
  end.

Definition build_possible_paths (base_path : string) (date_obj : datetime)
  : list string :=
  let yyyy := strftime_Y date_obj in
  let mm := strftime_m date_obj in
  let dd := strftime_d date_obj in
  let ddmmyyyy := strftime_dmY date_obj in
  let base := rstrip_slash base_path in
  let p1 := base +:+ "/" +:+ yyyy +:+ "/" +:+ mm +:+ "/" +:+ dd +:+ "/" in
  let p2 := base +:+ "/" +:+ yyyy +:+ "/" +:+ mm +:+ "/" +:+ ddmmyyyy +:+ "/" in
  let alt := [p1; p2; rstrip_slash p1; rstrip_slash p2] in
  unique_loop alt ∅ [].

Definition matches_station_file (filename station_code : string) : bool :=
  if negb (endswith (lower filename) ".txt") then false
  else startswith filename station_code.

(** *** The connection *)

Definition ftp_cwd (E : env) (path : string) : M unit :=
  r <- ask (fun t => cwd_at E t path) ;;
  emit (EvCwd path) ;;;
  lift_error r.

Definition ftp_pwd (E : env) : M string :=
  r <- ask (pwd_at E) ;; lift_result r.

Definition ftp_nlst (E : env) (arg : option string) : M (list string) :=
  r <- ask (fun t => nlst_at E t arg) ;;
  emit (EvNlst arg) ;;;
  lift_result r.

Definition ftp_size (E : env) (remote_file : string) : M (option Z) :=
  r <- ask (fun t => size_at E t remote_file) ;; lift_result r.

Definition ftp_quit (E : env) : M unit :=
  r <- ask (quit_at E) ;; emit EvQuit ;;; lift_error r.

(** [ftplib.FTP()] (passive by default) and [ftp.set_pasv(val)]. *)
Definition FTP_new : FTP := mk_FTP true.
Definition set_pasv (val : bool) (ftp : FTP) : FTP := mk_FTP val.

(** [cancel_event.is_set() or _cancel_global]. *)
Definition cancel_requested (E : env) : M bool := ask (cancel_at E).

(** One pass of the [try] block of [ftp_connect]. *)
Definition connect_once (E : env) (host user passwd : string) (port attempt : Z)
  : M FTP :=
  emit (EvConnect attempt) ;;;
  c <- ask (fun t => connect_at E t host port) ;;
  lift_error c ;;;
  l <- ask (fun t => login_at E t user passwd) ;;
  lift_error l ;;;
  ret (set_pasv true FTP_new).

(** The [for attempt in range(1, retries + 1)] loop: [todo] passes are
    left, the next one is numbered [attempt]. *)
Fixpoint connect_loop (E : env) (host user passwd : string) (port : Z)
    (retries delay : Z) (todo : nat) (attempt : Z) (last_exc : option exn)
  : M FTP :=
  match todo with
  | O => raise (ConnectionError retries last_exc)
  | S todo' =>
      try_catch (connect_once E host user passwd port attempt)
        (fun e =>
           emit (EvSleep delay) ;;;
           connect_loop E host user passwd port retries delay todo'
                        (attempt + 1) (Some e))
  end.

Definition ftp_connect (E : env) (host user passwd : string) (port : Z)
    (retries delay : Z) : M FTP :=
  connect_loop E host user passwd port retries delay (Z.to_nat retries) 1 None.

(** *** Resolution *)

(** The [for candidate in ...] loop of [find_existing_remote_path]. *)
Fixpoint probe_candidates (E : env) (candidates : list string)
  : M (option string) :=
  match candidates with
  | [] => ret None
  | candidate :: rest =>
      try_catch
        (ftp_cwd E candidate ;;;
         try_catch (ftp_pwd E ;;; ret tt) (fun _ => ret tt) ;;;
         ret (Some candidate))
        (fun _ => probe_candidates E rest)
  end.

Definition find_existing_remote_path (E : env) (ftp : FTP) (base_path : string)
    (date_obj : datetime) : M (option string) :=
  emit (EvResolve date_obj) ;;;
  probe_candidates E (build_possible_paths base_path date_obj).

(** *** The transfer of one file *)

(** The [while pause_event.is_set()] loop of the chunk callback. *)
Fixpoint pause_loop (wakes : list bool) : M unit :=
  match wakes with
  | [] => ret tt
  | cancelled :: rest =>
      emit EvPauseWake ;;;
      if cancelled then raise Cancelled else pause_loop rest
  end.

(** [_callback(chunk)]: returns the new value of [received]. *)
Definition _callback (remote_file local_path : string) (total : option Z)
    (received : Z) (c : chunk) : M Z :=
  (if chunk_cancel c then raise Cancelled else ret tt) ;;;
  pause_loop (chunk_wakes c) ;;;
  lift_error (chunk_write c) ;;;
  append_file local_path (chunk_data c) ;;;
  let received := received + Z.of_nat (String.length (chunk_data c)) in
  try_catch
    (emit (EvProgress received total (basename remote_file)) ;;;
     lift_error (chunk_progress c))
    (fun _ => ret tt) ;;;
  ret received.

Fixpoint feed_chunks (remote_file local_path : string) (total : option Z)
    (received : Z) (cs : list chunk) : M Z :=
  match cs with
  | [] => ret received
  | c :: rest =>
      received' <- _callback remote_file local_path total received c ;;
      feed_chunks remote_file local_path total received' rest
  end.

(** [ftp.retrbinary("RETR " + remote_file, _callback)]. *)
Definition retrbinary (E : env) (remote_file local_path : string)
    (total : option Z) : M unit :=
  r <- ask (fun t => retr_at E t remote_file) ;;
  feed_chunks remote_file local_path total 0 (retr_chunks r) ;;;
  lift_error (retr_end r).

(** The body of the [try] of [download_file_with_progress]. *)
Definition receive_file (E : env) (remote_file local_path : string) : M bool :=
  emit (EvTransfer remote_file local_path) ;;;
  total <- try_catch (ftp_size E remote_file) (fun _ => ret None) ;;
  o <- ask (fun t => open_at E t local_path) ;;
  lift_error o ;;;
  set_file local_path "" ;;;
  retrbinary E remote_file local_path total ;;;
  ret true.

(** Its [except] branch, before [return False]: the partial file goes,
    and a failure to remove it is ignored. *)
Definition remove_partial (E : env) (local_path : string) : M unit :=
  try_catch
    (ex <- path_exists local_path ;;
     if ex : bool then
       emit (EvRemove local_path) ;;;
       r <- ask (fun t => remove_at E t local_path) ;;
       lift_error r ;;;
       delete_file local_path
     else ret tt)
    (fun _ => ret tt).

Definition download_file_with_progress (E : env) (ftp : FTP)
    (remote_file local_path : string) : M bool :=
  try_catch (receive_file E remote_file local_path)
            (fun _ => remove_partial E local_path ;;; ret false).

(** *** The orchestrator *)

Definition rbind {A B} (r : result A) (k : A -> result B) : result B :=
  match r with Ok a => k a | Raise e => Raise e end.

(** The datetime [off] minutes after midnight of day [d]. *)
Definition at_minute (d : date) (off : Z) : datetime :=
  mk_datetime (dyear d) (dmonth d) (dday d) (off / 60) (off mod 60).

(** The inner [while cur <= end_dt_day] loop; [cur] and [last] count
    minutes from the midnight of [d]. Stepping past 9999-12-31 raises.
    The bound on the passes is not reached when the step is positive
    ([expand_minutes_enough]). *)
Fixpoint expand_minutes (fuel : nat) (d : date) (cur last step : Z)
  : result (list datetime) :=
  match fuel with
  | O => Ok []
  | S fuel' =>
      if cur <=? last then
        if (dyear d =? 9999) && (dmonth d =? 12) && (dday d =? 31) &&
           (1440 <=? cur + step)
        then Raise OverflowError
        else rbind (expand_minutes fuel' d (cur + step) last step)
                   (fun l => Ok (at_minute d cur :: l))
      else Ok []
  end.

(** The timestamps of one day. With a step that is not positive the loop
    never reaches its exit test and Python ends it with an error. *)
Definition expand_day (d : date) (start_hour start_min end_hour end_min
    step_minutes : Z) : result (list datetime) :=
  rbind (datetime_new (dyear d) (dmonth d) (dday d) start_hour start_min)
    (fun start_dt_day =>
  rbind (datetime_new (dyear d) (dmonth d) (dday d) end_hour end_min)
    (fun end_dt_day =>
  let cur := hour start_dt_day * 60 + minute start_dt_day in
  let last := hour end_dt_day * 60 + minute end_dt_day in
  if 0 <? step_minutes then
    expand_minutes (Z.to_nat (last - cur + 1)) d cur last step_minutes
  else if cur <=? last then
    Raise (if step_minutes =? 0 then MemoryError else OverflowError)
  else Ok [])).

(** The outer [while cur_day <= end_dt.date()] loop. *)
Fixpoint expand_days (fuel : nat) (cur_day last_day : date)
    (start_hour start_min end_hour end_min step_minutes : Z)
  : result (list datetime) :=
  match fuel with
  | O => Ok []
  | S fuel' =>
      if date_leb cur_day last_day then
        rbind (expand_day cur_day start_hour start_min end_hour end_min
                          step_minutes) (fun today =>
        rbind (next_day cur_day) (fun tomorrow =>
        rbind (expand_days fuel' tomorrow last_day start_hour start_min
                           end_hour end_min step_minutes) (fun later =>
        Ok (today ++ later))))
      else Ok []
  end.

(** [wanted_dt_list]. The bound on the passes is the number of days of
    the window; [wanted_dt_list_enough] shows that a larger one gives the
    same list. *)
Definition wanted_dt_list (start_dt end_dt : datetime)
    (start_hour start_min end_hour end_min step_minutes : Z)
  : result (list datetime) :=
  expand_days
    (Z.to_nat (toordinal (date_of end_dt) - toordinal (date_of start_dt) + 1))
    (date_of start_dt) (date_of end_dt)
    start_hour start_min end_hour end_min step_minutes.

(** [(dt.year, dt.month, dt.day)]. *)
Definition date_key (dt : datetime) : Z * Z * Z := (year dt, month dt, day dt).

(** The arguments of [download_files_by_prefix]; the two events and the
    progress callback are the environment's. *)
Record request : Type := mk_request {
  host : string; user : string; passwd : string;
  remote_dir_base : string;
  station_id : string;
  start_dt : datetime; end_dt : datetime;
  start_hour : Z; start_min : Z; end_hour : Z; end_min : Z;
  step_minutes : Z;
  local_base : string;
  state : string;
  port : Z;
  test_mode : bool;
  retries : Z
}.

Section Orchestrator.

Variable E : env.
Variable rq : request.
Variable ftp : FTP.

(** [local_base/State/StationID/YYYY/MM/DD/<filename>]. *)
Definition local_path_of (dt : datetime) (base_fname : string) : string :=
  let local_dir :=
    join (local_base rq)
         [strip (state rq); station_id rq;
          strftime_Y dt; strftime_m dt; strftime_d dt] in
  join local_dir [base_fname].

(** The name a failure is recorded under. *)
Definition remote_id (remote_path base_fname : string) : string :=
  remote_path +:+ "/" +:+ base_fname.

(** The dummy file of test mode. *)
Definition write_dummy (local_path base_fname : string) : M unit :=
  emit (EvTestWrite local_path) ;;;
  o <- ask (fun t => open_at E t local_path) ;;
  lift_error o ;;;
  set_file local_path "" ;;;
  wr <- ask (fun t => write_at E t local_path) ;;
  lift_error wr ;;;
  append_file local_path
    ("TEST-DUMMY for " +:+ base_fname +:+ String (ascii_of_nat 10) "").

(** What happens to a matching file: one iteration of the inner loop from
    "build local path" on. *)
Definition attempt_file (dt : datetime) (remote_path base_fname : string)
    (acc : list string * list string) : M (list string * list string) :=
  let '(downloaded, failed) := acc in
  let local_path := local_path_of dt base_fname in
  emit (EvAttempt remote_path base_fname local_path) ;;;
  ex <- path_exists local_path ;;
  if ex then ret (downloaded ++ [local_path], failed)
  else if test_mode rq then
    try_catch
      (write_dummy local_path base_fname ;;;
       ret (downloaded ++ [local_path], failed))
      (fun _ => ret (downloaded, failed ++ [remote_id remote_path base_fname]))
  else
    try_catch
      (ok <- try_catch
               (ftp_cwd E remote_path ;;;
                download_file_with_progress E ftp base_fname local_path)
               (fun _ =>
                  download_file_with_progress E ftp
                    (rstrip_slash remote_path +:+ "/" +:+ base_fname)
                    local_path) ;;
       if ok : bool then ret (downloaded ++ [local_path], failed)
       else ret (downloaded, failed ++ [remote_id remote_path base_fname]))
      (fun _ => ret (downloaded, failed ++ [remote_id remote_path base_fname])).

(** [for fname in files]. *)
Fixpoint file_loop (dt : datetime) (remote_path : string)
    (fnames : list string) (acc : list string * list string)
  : M (list string * list string) :=
  match fnames with
  | [] => ret acc
  | fname :: rest =>
      c <- cancel_requested E ;;
      if c : bool then ret acc
      else
        let base_fname := basename fname in
        if negb (matches_station_file base_fname (station_id rq))
        then file_loop dt remote_path rest acc
        else
          acc' <- attempt_file dt remote_path base_fname acc ;;
          file_loop dt remote_path rest acc'
  end.

(** "list files in that folder". *)
Definition list_folder (dt : datetime) (remote_path : string)
  : M (list string) :=
  emit (EvList dt remote_path) ;;;
  try_catch
    (try_catch (ftp_nlst E (Some remote_path))
       (fun _ =>
          try_catch (ftp_cwd E remote_path ;;; ftp_nlst E None)
                    (fun _ => ret [])))
    (fun _ => ret []).

(** [for dt in wanted_dt_list]. *)
Fixpoint main_loop (wanted : list datetime) (dates_seen : gset (Z * Z * Z))
    (acc : list string * list string) : M (list string * list string) :=
  match wanted with
  | [] => ret acc
  | dt :: rest =>
      c <- cancel_requested E ;;
      if c : bool then ret acc
      else
        let key := date_key dt in
        if decide (key ∈ dates_seen) then main_loop rest dates_seen acc
        else
          let dates_seen := {[key]} ∪ dates_seen in
          found <- find_existing_remote_path E ftp (remote_dir_base rq) dt ;;
          match found with
          | None | Some EmptyString => main_loop rest dates_seen acc
          | Some remote_path =>
              fnames <- list_folder dt remote_path ;;
              acc' <- file_loop dt remote_path fnames acc ;;
              main_loop rest dates_seen acc'
          end
  end.

End Orchestrator.

(** [try: ftp.quit()  except Exception: pass]. *)
Definition quit_quietly (E : env) : M unit :=
  try_catch (ftp_quit E) (fun _ => ret tt).

Definition download_files_by_prefix (E : env) (rq : request)
  : M (list string * list string) :=
  ftp <- ftp_connect E (host rq) (user rq) (passwd rq) (port rq) (retries rq) 2 ;;
  wanted <- lift_result
              (wanted_dt_list (start_dt rq) (end_dt rq) (start_hour rq)
                 (start_min rq) (end_hour rq) (end_min rq) (step_minutes rq)) ;;
  match wanted with
  | [] =>
      quit_quietly E ;;;
      ret ([], [])
  | _ :: _ =>
      r <- main_loop E rq ftp wanted ∅ ([], []) ;;
      quit_quietly E ;;;
      ret r
  end.

(* ===================================================================== *)
(** ** [main.py]: the worker of a server *)
(* ===================================================================== *)

(** *** [int(s)] on a string, base 10 *)

Definition digit_val (c : ascii) : option Z :=
  let n := nat_of_ascii c in
  if ((48 <=? n) && (n <=? 57))%nat then Some (Z.of_nat n - 48) else None.

(** Digits, with single underscores allowed between two digits.
    [after_digit] tells whether the previous character was a digit. *)
Fixpoint digits_val (s : string) (acc : Z) (after_digit : bool) : option Z :=
  match s with
  | EmptyString => if after_digit then Some acc else None
  | String c r =>
      match digit_val c with
      | Some d => digits_val r (10 * acc + d) true
      | None =>
          if Ascii.eqb c "_" && after_digit then digits_val r acc false
          else None
      end
  end.

Definition py_int (s : string) : result Z :=
  let t := strip s in
  let r :=
    match t with
    | String c u =>
        if Ascii.eqb c "+" then digits_val u 0 false
        else if Ascii.eqb c "-" then option_map Z.opp (digits_val u 0 false)
        else digits_val t 0 false
    | EmptyString => None
    end in
  match r with
  | Some z => Ok z
  | None => Raise (ValueError "invalid literal for int() with base 10")
  end.

(** *** The single timestamp *)

(** The body of the [try] that converts [YYMMDDHHMM]. *)
Definition decode_single_ts (single_ts : string) : result datetime :=
  rbind (py_int (slice 0 2 single_ts)) (fun yy =>
  let year := if yy <? 90 then 2000 + yy else 1900 + yy in
  rbind (py_int (slice 2 4 single_ts)) (fun m =>
  rbind (py_int (slice 4 6 single_ts)) (fun d =>
  rbind (py_int (slice 6 8 single_ts)) (fun H =>
  rbind (py_int (slice 8 10 single_ts)) (fun M =>
  datetime_new year m d H M))))).

(** The server record and the parameters of a start. *)
Record server_cfg : Type := mk_cfg {
  cfg_host : string; cfg_port : Z; cfg_user : string; cfg_pass : string;
  cfg_remote : string
}.

Record params : Type := mk_params {
  p_single_ts : string;
  p_start_dt : datetime; p_end_dt : datetime;
  p_start_hour : Z; p_start_min : Z; p_end_hour : Z; p_end_min : Z;
  p_step_minutes : Z;
  p_local_folder : string;
  p_state : string;
  p_test_mode : bool
}.

(** The call of [download_files_by_prefix] the worker makes. *)
Definition worker_request (cfg : server_cfg) (prm : params) (station : string)
    (start_dt end_dt : datetime) : request :=
  mk_request (cfg_host cfg) (cfg_user cfg) (cfg_pass cfg) (cfg_remote cfg)
    station start_dt end_dt
    (p_start_hour prm) (p_start_min prm) (p_end_hour prm) (p_end_min prm)
    (p_step_minutes prm) (p_local_folder prm) (p_state prm) (cfg_port cfg)
    (p_test_mode prm) 3.

(** The window of one station; it raises when the single timestamp is
    rejected. *)
Definition station_window (prm : params) : result (datetime * datetime) :=
  if String.eqb (p_single_ts prm) "" then Ok (p_start_dt prm, p_end_dt prm)
  else rbind (decode_single_ts (p_single_ts prm))
             (fun single_dt => Ok (single_dt, single_dt)).

(** [for station in stations] of [_worker]; the totals are
    [(total_downloaded, total_failed)]. *)
Fixpoint station_loop (E : env) (cfg : server_cfg) (prm : params)
    (stations : list string) (totals : Z * Z) : M (Z * Z) :=
  match stations with
  | [] => ret totals
  | station :: rest =>
      c <- ask (cancel_event_at E) ;;
      if c : bool then ret totals
      else
        match station_window prm with
        | Raise e =>
            emit (EvInvalidSingleTs (p_single_ts prm) e) ;;;
            station_loop E cfg prm rest totals
        | Ok (start_dt, end_dt) =>
            r <- download_files_by_prefix E
                   (worker_request cfg prm station start_dt end_dt) ;;
            let ok := Z.of_nat (length (fst r)) in
            let ko := Z.of_nat (length (snd r)) in
            emit (EvStationSummary station ok ko) ;;;
            station_loop E cfg prm rest (fst totals + ok, snd totals + ko)
        end
  end.

(** [_worker]: the result is [last_result] as this run leaves it ([None]
    when the run ended in the [except] branch). *)
Definition _worker (E : env) (cfg : server_cfg) (prm : params)
    (stations : list string) : M (option (Z * Z)) :=
  try_catch
    (totals <- station_loop E cfg prm stations (0, 0) ;;
     emit (EvCompleted (fst totals) (snd totals)) ;;;
     ret (Some totals))
    (fun e => emit (EvError e) ;;; ret None).

(* ===================================================================== *)
(** ** Predicates of the specification *)
(* ===================================================================== *)

(** "[.txt] compared case-insensitively": a dot and the letters t, x, t in
    either case. *)
Definition txt_extension (ext : string) : Prop :=
  exists c1 c2 c3 : ascii,
    ext = String "." (String c1 (String c2 (String c3 ""))) /\
    (c1 = "t"%char \/ c1 = "T"%char) /\
    (c2 = "x"%char \/ c2 = "X"%char) /\
    (c3 = "t"%char \/ c3 = "T"%char).

(** "filename ends with [.txt] case-insensitively". *)
Definition ends_with_txt (filename : string) : Prop :=
  exists stem ext, filename = stem +:+ ext /\ txt_extension ext.

(** "filename starts with [stationId] via exact, case-sensitive prefix
    match". *)
Definition has_prefix (filename station_id : string) : Prop :=
  exists rest, filename = station_id +:+ rest.

(** A stub connection "accepts" the paths of a fixed set: entering a path
    succeeds exactly when the path is in the set, whenever it is tried. *)
Definition accepts_exactly (E : env) (accepted : string -> bool) : Prop :=
  forall (t : nat) (path : string),
    cwd_at E t path = None <-> accepted path = true.

(** "The first attempts fail": starting at interaction [t], the attempts
    fail one after the other with the errors [errs] (at the connection or
    at the login) and the next attempt would start at interaction [t']. *)
Inductive attempts_fail (E : env) (host user passwd : string) (port : Z)
  : nat -> list exn -> nat -> Prop :=
  | fail_none (t : nat) :
      attempts_fail E host user passwd port t [] t
  | fail_connect (t : nat) (e : exn) (errs : list exn) (t' : nat) :
      connect_at E t host port = Some e ->
      attempts_fail E host user passwd port (S t) errs t' ->
      attempts_fail E host user passwd port t (e :: errs) t'
  | fail_login (t : nat) (e : exn) (errs : list exn) (t' : nat) :
      connect_at E t host port = None ->
      login_at E (S t) user passwd = Some e ->
      attempts_fail E host user passwd port (S (S t)) errs t' ->
      attempts_fail E host user passwd port t (e :: errs) t'.

(** The events of [n] failed attempts numbered from [first], oldest first:
    each attempt is followed by its sleep. *)
Fixpoint failed_attempt_events (delay first : Z) (n : nat) : list event :=
  match n with
  | O => []
  | S n' =>
      EvConnect first :: EvSleep delay ::
      failed_attempt_events delay (first + 1) n'
  end.

(** A block goes through the chunk callback: no cancel is seen, on entry or
    at a wake-up of the pause, and the local write works. *)
Definition chunk_passes (c : chunk) : bool :=
  negb (chunk_cancel c) && negb (existsb id (chunk_wakes c)) &&
  bool_decide (chunk_write c = None).

(** A transfer started at interaction [t] meets no failure: the local file
    opens, every block passes and the [RETR] ends normally. *)
Definition transfer_succeeds (E : env) (t : nat) (remote_file local_path : string)
  : bool :=
  let r := retr_at E (S (S t)) remote_file in
  bool_decide (open_at E (S t) local_path = None) &&
  forallb chunk_passes (retr_chunks r) &&
  bool_decide (retr_end r = None).

(** All the bytes of the blocks, in order. *)
Definition chunks_data (cs : list chunk) : string :=
  fold_right (fun c acc => chunk_data c +:+ acc) "" cs.

(** *** Stub environments for the examples *)

(** A server that accepts exactly the directories of [accepted], lists
    [names] in each of them and delivers [body] for every file; every
    local operation works and nobody cancels. *)
Definition stub_env (accepted : string -> bool) (names : list string)
    (body : string) : env :=
  mk_env (fun _ => false) (fun _ => false)
    (fun _ _ _ => None) (fun _ _ _ => None)
    (fun _ path => if accepted path then None
                   else Some (FtpError "550 no such directory"))
    (fun _ => Ok "/")
    (fun _ _ => Ok names)
    (fun _ _ => Ok (Some (Z.of_nat (String.length body))))
    (fun _ _ => mk_retr [mk_chunk body false [] None None] None)
    (fun _ _ => None) (fun _ _ => None) (fun _ _ => None)
    (fun _ => None).

(** The connection of the specification's test: only the second candidate
    of ["/data"] on 2023-09-05 exists. *)
Definition only_second (path : string) : bool :=
  String.eqb path "/data/2023/09/05092023/".

(** A server that refuses the first [fails] connections and then works. *)
Definition flaky_env (fails : nat) : env :=
  mk_env (fun _ => false) (fun _ => false)
    (fun t _ _ => if (t <? fails)%nat then Some (OSError "timed out") else None)
    (fun _ _ _ => None)
    (fun _ _ => None) (fun _ => Ok "/") (fun _ _ => Ok [])
    (fun _ _ => Ok None) (fun _ _ => mk_retr [] None)
    (fun _ _ => None) (fun _ _ => None) (fun _ _ => None)
    (fun _ => None).

(* ===================================================================== *)
(** ** Reading a trace *)
(* ===================================================================== *)

(** The kind of an event: connection traffic and waiting, the resolution
    and the listing of a day, the attempt on a file, a local write, a
    status line of the worker. *)
Inductive kind : Type := KNet | KDay | KAttempt | KWrite | KStatus.

Definition kind_of (e : event) : kind :=
  match e with
  | EvConnect _ | EvSleep _ | EvPauseWake | EvCwd _ | EvNlst _ | EvQuit
  | EvProgress _ _ _ => KNet
  | EvResolve _ | EvList _ _ => KDay
  | EvAttempt _ _ _ => KAttempt
  | EvTransfer _ _ | EvRemove _ | EvTestWrite _ => KWrite
  | EvInvalidSingleTs _ _ | EvStationSummary _ _ _ | EvCompleted _ _
  | EvError _ => KStatus
  end.

Definition net_only (k : kind) : bool :=
  match k with KNet => true | _ => false end.
Definition net_or_day (k : kind) : bool :=
  match k with KNet | KDay => true | _ => false end.
Definition net_or_write (k : kind) : bool :=
  match k with KNet | KWrite => true | _ => false end.
Definition not_day (k : kind) : bool :=
  match k with KDay => false | _ => true end.
Definition not_attempt (k : kind) : bool :=
  match k with KAttempt => false | _ => true end.
Definition not_write (k : kind) : bool :=
  match k with KWrite => false | _ => true end.

(** An attempted file: the remote folder, the file name and the local
    path it is to be stored at. *)
Record attempt : Type := mk_attempt {
  att_remote_path : string; att_base_fname : string; att_local_path : string
}.

(** The name a failed attempt is recorded under. *)
Definition att_remote_id (a : attempt) : string :=
  att_remote_path a +:+ "/" +:+ att_base_fname a.

(** The attempts of a trace, oldest first. *)
Fixpoint attempts (tr : list event) : list attempt :=
  match tr with
  | [] => []
  | e :: tr' =>
      attempts tr' ++
      match e with
      | EvAttempt r b l => [mk_attempt r b l]
      | _ => []
      end
  end.

(** The days whose resolution was started, oldest first. *)
Fixpoint resolved_days (tr : list event) : list (Z * Z * Z) :=
  match tr with
  | [] => []
  | e :: tr' =>
      resolved_days tr' ++
      match e with EvResolve dt => [date_key dt] | _ => [] end
  end.

(** The days whose folder was listed, oldest first. *)
Fixpoint listed_days (tr : list event) : list (Z * Z * Z) :=
  match tr with
  | [] => []
  | e :: tr' =>
      listed_days tr' ++
      match e with EvList dt _ => [date_key dt] | _ => [] end
  end.

(** The transfers, dummy writes and removals of a trace. *)
Definition writes (tr : list event) : list event :=
  List.filter (fun e => match kind_of e with KWrite => true | _ => false end) tr.

(** "[w'] follows [w], touching only the local paths of [S] and adding
    only events of the kinds [K]". *)
Definition changes_only (S : string -> Prop) (K : kind -> bool) (w w' : world)
  : Prop :=
  (forall p, ~ S p -> files w' !! p = files w !! p) /\
  exists evs, trace w' = evs ++ trace w /\
              Forall (fun e => K (kind_of e) = true) evs.

(** Sets of local paths: none, one, all. *)
Definition nowhere : string -> Prop := fun _ => False.
Definition at_path (p : string) : string -> Prop := fun q => q = p.
Definition anywhere : string -> Prop := fun _ => True.

(** A computation that stays within [changes_only S K], whatever it
    returns or raises. *)
Definition confined {A} (S : string -> Prop) (K : kind -> bool) (m : M A) : Prop :=
  forall w, changes_only S K w (snd (m w)).

(** "Every file that was there is still there, unchanged". *)
Definition keeps_files (w w' : world) : Prop :=
  forall p c, files w !! p = Some c -> files w' !! p = Some c.

(** "Each attempt, in order, adds one entry to exactly one of the two
    collections": its local path to the successes or its remote name to
    the failures. *)
Inductive accounted : list attempt -> list string -> list string -> Prop :=
  | accounted_nil : accounted [] [] []
  | accounted_success (a : attempt) (atts : list attempt)
      (downloaded failed : list string) :
      accounted atts downloaded failed ->
      accounted (atts ++ [a]) (downloaded ++ [att_local_path a]) failed
  | accounted_failure (a : attempt) (atts : list attempt)
      (downloaded failed : list string) :
      accounted atts downloaded failed ->
      accounted (atts ++ [a]) downloaded (failed ++ [att_remote_id a]).

(** "Each day at most once": no day occurs twice among the resolutions,
    none twice among the listings, and only resolved days are listed. *)
Definition days_once (tr : list event) : Prop :=
  NoDup (resolved_days tr) /\ NoDup (listed_days tr) /\
  (forall k, k ∈ listed_days tr -> k ∈ resolved_days tr).

(** The ways a run of [download_files_by_prefix] from [w] can go, with its
    result and its final world: no connection; a window that cannot be
    expanded; an empty window; a main loop that raises; a main loop that
    returns the two collections. *)
Inductive run_of (E : env) (rq : request) (w : world)
  : result (list string * list string) -> world -> Prop :=
  | run_no_connection (e : exn) (w0 : world) :
      ftp_connect E (host rq) (user rq) (passwd rq) (port rq) (retries rq) 2 w
        = (Raise e, w0) ->
      run_of E rq w (Raise e) w0
  | run_bad_window (ftp : FTP) (w0 : world) (e : exn) :
      ftp_connect E (host rq) (user rq) (passwd rq) (port rq) (retries rq) 2 w
        = (Ok ftp, w0) ->
      wanted_dt_list (start_dt rq) (end_dt rq) (start_hour rq) (start_min rq)
        (end_hour rq) (end_min rq) (step_minutes rq) = Raise e ->
      run_of E rq w (Raise e) w0
  | run_empty_window (ftp : FTP) (w0 : world) :
      ftp_connect E (host rq) (user rq) (passwd rq) (port rq) (retries rq) 2 w
        = (Ok ftp, w0) ->
      wanted_dt_list (start_dt rq) (end_dt rq) (start_hour rq) (start_min rq)
        (end_hour rq) (end_min rq) (step_minutes rq) = Ok [] ->
      run_of E rq w (Ok ([], [])) (snd (quit_quietly E w0))
  | run_loop_raises (ftp : FTP) (w0 : world) (wanted : list datetime)
      (e : exn) (w1 : world) :
      ftp_connect E (host rq) (user rq) (passwd rq) (port rq) (retries rq) 2 w
        = (Ok ftp, w0) ->
      wanted_dt_list (start_dt rq) (end_dt rq) (start_hour rq) (start_min rq)
        (end_hour rq) (end_min rq) (step_minutes rq) = Ok wanted ->
      main_loop E rq ftp wanted ∅ ([], []) w0 = (Raise e, w1) ->
      run_of E rq w (Raise e) w1
  | run_loop_returns (ftp : FTP) (w0 : world) (wanted : list datetime)
      (acc : list string * list string) (w1 : world) :
      ftp_connect E (host rq) (user rq) (passwd rq) (port rq) (retries rq) 2 w
        = (Ok ftp, w0) ->
      wanted_dt_list (start_dt rq) (end_dt rq) (start_hour rq) (start_min rq)
        (end_hour rq) (end_min rq) (step_minutes rq) = Ok wanted ->
      main_loop E rq ftp wanted ∅ ([], []) w0 = (Ok acc, w1) ->
      run_of E rq w (Ok acc) (snd (quit_quietly E w1)).

(** A computation under which every file that was there stays, unchanged. *)
Definition keeping {A} (m : M A) : Prop :=
  forall w, keeps_files w (snd (m w)).

(** "An already-populated local directory with no new remote files": every
    matching name the server may list, for any day of the window, already
    has its file at the local path computed for it. *)
Definition populated (E : env) (rq : request) (fs : gmap string string) : Prop :=
  forall (wanted : list datetime) (dt : datetime) (t : nat) (arg : option string)
         (names : list string) (fname : string),
    wanted_dt_list (start_dt rq) (end_dt rq) (start_hour rq) (start_min rq)
                   (end_hour rq) (end_min rq) (step_minutes rq) = Ok wanted ->
    dt ∈ wanted ->
    nlst_at E t arg = Ok names ->
    fname ∈ names ->
    matches_station_file (basename fname) (station_id rq) = true ->
    is_Some (fs !! local_path_of rq dt (basename fname)).

(** The end-to-end example of the specification: base ["/data"], station
    ["RTU12"], the single day 2023-09-05 with one timestamp, a server whose
    folder of that day is the second candidate and holds two files. *)
Definition example_day : datetime := mk_datetime 2023 9 5 0 0.

Definition example_request : request :=
  mk_request "ftp.example" "user" "secret" "/data" "RTU12"
    example_day example_day 0 0 0 0 15 "downloads" "KL" 21 false 3.

Definition example_env : env :=
  stub_env only_second
    ["/data/2023/09/05092023/RTU12_0600.txt"; "other.txt"] "abc".

Definition example_local_path : string :=
  "downloads/KL/RTU12/2023/09/05/RTU12_0600.txt".

(** A transfer cancelled in its second block: the first block is written,
    then the callback sees the cancel request. *)
Definition cancelled_env : env :=
  mk_env (fun _ => false) (fun _ => false)
    (fun _ _ _ => None) (fun _ _ _ => None)
    (fun _ _ => None) (fun _ => Ok "/") (fun _ _ => Ok [])
    (fun _ _ => Ok (Some 6))
    (fun _ _ => mk_retr [mk_chunk "abc" false [] None None;
                         mk_chunk "def" true [] None None] None)
    (fun _ _ => None) (fun _ _ => None) (fun _ _ => None)
    (fun _ => None).

(** "A single-timestamp string of the form [YYMMDDHHMM]": ten decimal
    digits. *)
Definition is_digit (c : ascii) : bool :=
  let n := nat_of_ascii c in ((48 <=? n) && (n <=? 57))%nat.

Definition well_formed_ts (s : string) : bool :=
  (String.length s =? 10)%nat && forallb is_digit (list_ascii_of_string s).

(** The value of a digit, and of the two digits at positions [i], [i+1]. *)
Definition digit_of (c : ascii) : Z := Z.of_nat (nat_of_ascii c) - 48.

Definition field (s : string) (i : nat) : Z :=
  match String.get i s, String.get (S i) s with
  | Some a, Some b => 10 * digit_of a + digit_of b
  | _, _ => 0
  end.

(** "year < 90 maps to 2000+year, else 1900+year". *)
Definition century_year (yy : Z) : Z := if yy <? 90 then 2000 + yy else 1900 + yy.

(** The claim "a malformed single timestamp is skipped", as it is written:
    every non-empty string that is not of the form is rejected. *)
Definition malformed_is_skipped : Prop :=
  forall s : string,
    s <> "" -> well_formed_ts s = false -> is_ok (decode_single_ts s) = false.

(** The parameters of a start with a single timestamp. *)
Definition single_ts_params (single_ts : string) : params :=
  mk_params single_ts example_day example_day 0 0 23 55 15 "downloads" "KL" false.

Definition example_cfg : server_cfg :=
  mk_cfg "ftp.example" 21 "user" "secret" "/data".

(** [a < b] on dates, as the order of the triples. *)
Definition date_before (a b : date) : Prop :=
  dyear a < dyear b \/
  (dyear a = dyear b /\
   (dmonth a < dmonth b \/ (dmonth a = dmonth b /\ dday a < dday b))).

(* ===================================================================== *)
(** ** More of [downloader.py] and [main.py] *)
(* ===================================================================== *)

(** "The name holds a slash". *)
Definition has_slash (s : string) : bool :=
  existsb (Ascii.eqb slash) (list_ascii_of_string s).

(** The folder a file of the day of [dt] is stored in:
    [os.path.join(local_base, state.strip(), station_id, yyyy, mm, dd)]. *)
Definition local_dir_of (rq : request) (dt : datetime) : string :=
  join (local_base rq)
       [strip (state rq); station_id rq;
        strftime_Y dt; strftime_m dt; strftime_d dt].

(** *** [list_files] *)

(** What [ftp.mlsd(".")] delivers: the entries read so far, each a name
    with its [type] fact when the server sent one, then a normal end or an
    error (a server without [MLSD] fails before the first entry). *)
Record mlsd_reply : Type := mk_mlsd {
  mlsd_entries : list (string * option string);
  mlsd_end : option exn
}.

(** [try: m  finally: f]: [f] runs whatever [m] did; the outcome is the
    one of [m], unless [f] raises. *)
Definition try_finally {A} (m : M A) (f : M unit) : M A :=
  fun w => match m w with
           | (r, w') =>
               match f w' with
               | (Ok _, w'') => (r, w'')
               | (Raise e, w'') => (Raise e, w'')
               end
           end.

(** [facts.get("type", "") in ("file", "")]. *)
Definition keeps_entry (entry : string * option string) : bool :=
  let t := default "" (snd entry) in
  String.eqb t "file" || String.eqb t "".

(** The names the [for name, facts in ftp.mlsd(".")] loop appends. *)
Definition mlsd_names (entries : list (string * option string)) : list string :=
  map fst (List.filter keeps_entry entries).

(** The loop over [ftp.mlsd(".")]; the entries come from [mlsd_at], the
    replies of the server to [MLSD]. *)
Definition ftp_mlsd (mlsd_at : nat -> mlsd_reply) : M (list string) :=
  r <- ask mlsd_at ;;
  lift_error (mlsd_end r) ;;;
  ret (mlsd_names (mlsd_entries r)).

(** [f not in (".", "..")]. *)
Definition not_dot (f : string) : bool :=
  negb (String.eqb f "." || String.eqb f "..").

(** The text of [FileNotFoundError], a subclass of [OSError]; the text of
    the cause, which the message ends with, is left out. *)
Definition not_found_message (remote_dir : string) : string :=
  "Remote directory not found: " +:+ remote_dir.

Definition list_files (E : env) (mlsd_at : nat -> mlsd_reply) (ftp : FTP)
    (remote_dir : string) : M (list string) :=
  cur <- try_catch (p <- ftp_pwd E ;; ret (Some p)) (fun _ => ret None) ;;
  try_catch (ftp_cwd E remote_dir)
    (fun _ => raise (OSError (not_found_message remote_dir))) ;;;
  try_finally
    (try_catch (ftp_mlsd mlsd_at)
       (fun _ => files <- ftp_nlst E None ;; ret (List.filter not_dot files)))
    (match cur with
     | Some (String _ _ as back) => try_catch (ftp_cwd E back) (fun _ => ret tt)
     | _ => ret tt
     end).

(** *** [download_single_by_path] *)

Definition download_single_by_path (E : env)
    (host user passwd remote_file local_file : string) (port retries : Z)
  : M bool :=
  ftp <- ftp_connect E host user passwd port retries 2 ;;
  ok <- download_file_with_progress E ftp remote_file local_file ;;
  quit_quietly E ;;;
  ret ok.

(** *** Reading the window *)

(** The [n] timestamps [cur], [cur + step], ... of day [d], in minutes
    from midnight. *)
Definition every_step (d : date) (cur step : Z) (n : nat) : list datetime :=
  map (fun k => at_minute d (cur + step * Z.of_nat k)) (seq 0 n).

(** A time of day that [datetime] accepts. *)
Definition valid_time (H M : Z) : Prop := 0 <= H <= 23 /\ 0 <= M <= 59.

(** "Only attempts to connect": the events of [ftp_connect]. *)
Definition connect_event (e : event) : Prop :=
  (exists n, e = EvConnect n) \/ (exists s, e = EvSleep s).

(** *** [main.py]: the parameters of a start *)

(** [datetime(d.year, d.month, d.day)]. *)
Definition midnight (d : date) : datetime :=
  mk_datetime (dyear d) (dmonth d) (dday d) 0 0.

(** The [params] dictionary that [_build_params_for_server] and
    [_scheduled_job] fill: the whole day, every 15 minutes, no test mode. *)
Definition whole_day_params (start_dt end_dt : datetime)
    (local_folder state single_ts : string) : params :=
  mk_params single_ts start_dt end_dt 0 0 23 55 15 local_folder state false.

(** [_scheduled_job]: the window is the day before today, and there is no
    single timestamp. *)
Definition scheduled_params (yesterday : date) (local_folder state : string)
  : params :=
  whole_day_params (midnight yesterday) (midnight yesterday) local_folder state "".

(** *** Reading the attempts and the probes *)

(** An attempt of a run of [rq] as the code makes it: on a file whose base
    name matches the station id, in a candidate folder of a wanted day,
    for the local path of that name and day. *)
Definition proper_attempt (rq : request) (wanted : list datetime) (a : attempt)
  : Prop :=
  matches_station_file (att_base_fname a) (station_id rq) = true /\
  has_slash (att_base_fname a) = false /\
  exists dt,
    dt ∈ wanted /\
    att_remote_path a ∈ build_possible_paths (remote_dir_base rq) dt /\
    att_local_path a = local_path_of rq dt (att_base_fname a).

(** Events of a dry run: anything but a transfer or a removal. *)
Definition dry_event (e : event) : Prop :=
  match e with
  | EvTransfer _ _ | EvRemove _ => False
  | _ => True
  end.

(** "[w'] follows [w], adding only events that satisfy [P]". *)
Definition adds_only (P : event -> Prop) (w w' : world) : Prop :=
  exists evs, trace w' = evs ++ trace w /\ Forall P evs.

(** A computation that adds only events satisfying [P], whatever it
    returns or raises. *)
Definition adding {A} (P : event -> Prop) (m : M A) : Prop :=
  forall w, adds_only P w (snd (m w)).

(** *** [main.py]: the port of the settings tab *)

(** [str(n)] for an integer: its decimal writing, with a minus sign when
    it is negative. *)
Definition py_str_int (n : Z) : string :=
  DecimalString.NilZero.string_of_int (Z.to_int n).

(** The port [_save_settings_from_settings_tab] stores, from the text of
    its field: [int(text.strip() or "21")], and 21 when [int] raises. *)
Definition parse_port (text : string) : Z :=
  let t := strip text in
  match py_int (if String.eqb t "" then "21" else t) with
  | Ok port => port
  | Raise _ => 21
  end.

(** The number a sequence of decimal digits writes, after the digits that
    gave [acc]. *)
Fixpoint uint_val (u : Decimal.uint) (acc : Z) : Z :=
  match u with
  | Decimal.Nil => acc
  | Decimal.D0 l => uint_val l (10 * acc + 0)
  | Decimal.D1 l => uint_val l (10 * acc + 1)
  | Decimal.D2 l => uint_val l (10 * acc + 2)
  | Decimal.D3 l => uint_val l (10 * acc + 3)
  | Decimal.D4 l => uint_val l (10 * acc + 4)
  | Decimal.D5 l => uint_val l (10 * acc + 5)
  | Decimal.D6 l => uint_val l (10 * acc + 6)
  | Decimal.D7 l => uint_val l (10 * acc + 7)
  | Decimal.D8 l => uint_val l (10 * acc + 8)
  | Decimal.D9 l => uint_val l (10 * acc + 9)
  end.

(** "No white space in [s]". *)
Definition no_space (s : string) : bool :=
  forallb (fun c => negb (is_space c)) (list_ascii_of_string s).

(** "Every path of [paths] names a local file of [w]". *)
Definition all_present (paths : list string) (w : world) : Prop :=
  forall p, p ∈ paths -> is_Some (files w !! p).

(* ===================================================================== *)
(** * Properties *)
(* ===================================================================== *)

(** ** Sanity checks of the string and calendar operations *)

Example lower_mixed : lower "RTU12.TxT" = "rtu12.txt".
Proof. reflexivity. Qed.

Example rstrip_slash_many : rstrip_slash "/data///" = "/data".
Proof. reflexivity. Qed.

Example basename_full : basename "/data/2023/09/05/RTU12_0600.txt" = "RTU12_0600.txt".
Proof. reflexivity. Qed.

Example join_mixed :
  join "downloads" [""; "RTU12"; "2023"; "09"; "05"] = "downloads/RTU12/2023/09/05".
Proof. reflexivity. Qed.

Example fmt_examples : fmt2 5 = "05" /\ fmt4 2023 = "2023".
Proof. split; reflexivity. Qed.

Example ordinal_2023_09_05 : toordinal (mk_date 2023 9 5) = 738768.
Proof. reflexivity. Qed.

Example next_day_leap :
  next_day (mk_date 2024 2 28) = Ok (mk_date 2024 2 29) /\
  next_day (mk_date 2023 2 28) = Ok (mk_date 2023 3 1) /\
  next_day (mk_date 2023 12 31) = Ok (mk_date 2024 1 1) /\
  next_day (mk_date 9999 12 31) = Raise OverflowError.
Proof. repeat split; reflexivity. Qed.

(** ** The window expansion runs to its exit test

    The two loops that build [wanted_dt_list] are written with a bound on
    their number of passes. The bounds chosen are never reached: more
    passes change nothing. For the loop over the days this rests on the
    calendar: the next day has the next ordinal, and the order of dates is
    the order of their ordinals. *)

Lemma valid_date_iff (d : date) :
  valid_date d = true <->
  1 <= dyear d <= 9999 /\ 1 <= dmonth d <= 12 /\
  1 <= dday d <= days_in_month (dyear d) (dmonth d).
Proof.
  unfold valid_date. rewrite !andb_true_iff, !Z.leb_le. tauto.
Qed.

Lemma days_before_year_succ (y : Z) :
  1 <= y ->
  days_before_year (y + 1) = days_before_year y + 365 + leap_day y.
Proof.
  intros Hy. unfold days_before_year, leap_day, is_leap.
  replace (y + 1 - 1) with y by lia.
  destruct (Z.eqb_spec (y mod 4) 0), (Z.eqb_spec (y mod 100) 0),
    (Z.eqb_spec (y mod 400) 0); cbn [negb andb orb];
    Z.div_mod_to_equations; lia.
Qed.

Lemma days_before_year_mono (y1 y2 : Z) :
  1 <= y1 <= y2 -> days_before_year y1 <= days_before_year y2.
Proof.
  intros Hy. unfold days_before_year. Z.div_mod_to_equations. lia.
Qed.

(** Splits on the twelve values of a month. *)
Ltac month_cases m H :=
  let Hm := fresh "Hm" in
  assert (Hm : m = 1 \/ m = 2 \/ m = 3 \/ m = 4 \/ m = 5 \/ m = 6 \/ m = 7 \/
               m = 8 \/ m = 9 \/ m = 10 \/ m = 11 \/ m = 12) by lia;
  repeat (destruct Hm as [Hm | Hm]; [subst m|]); [.. | subst m].

(** The days of a month lie after those of the months before, within the
    length of the year. *)
Lemma days_before_month_bounds (y m : Z) :
  1 <= m <= 12 ->
  0 <= days_before_month y m /\
  days_before_month y m + days_in_month y m <= 365 + leap_day y.
Proof.
  intros H. month_cases m H;
    unfold days_before_month, days_in_month, leap_day; cbn -[is_leap];
    destruct (is_leap y); lia.
Qed.

Lemma days_before_month_succ (y m : Z) :
  1 <= m <= 11 ->
  days_before_month y (m + 1) = days_before_month y m + days_in_month y m.
Proof.
  intros H. month_cases m H; try lia;
    match goal with |- context [days_before_month y (?a + 1)] =>
      let v := eval vm_compute in (a + 1) in change (a + 1) with v end;
    unfold days_before_month, days_in_month, leap_day; cbn -[is_leap];
    destruct (is_leap y); lia.
Qed.

Lemma days_before_month_lt (y m1 m2 : Z) :
  1 <= m1 -> m1 < m2 -> m2 <= 12 ->
  days_before_month y m1 + days_in_month y m1 <= days_before_month y m2.
Proof.
  intros H1 H12 H2.
  assert (Ha : 1 <= m1 <= 12) by lia. assert (Hb : 1 <= m2 <= 12) by lia.
  month_cases m1 Ha; month_cases m2 Hb; try lia;
    unfold days_before_month, days_in_month, leap_day; cbn -[is_leap];
    destruct (is_leap y); lia.
Qed.

Lemma toordinal_bounds (d : date) :
  valid_date d = true ->
  days_before_year (dyear d) < toordinal d <=
    days_before_year (dyear d) + 365 + leap_day (dyear d).
Proof.
  intros H. apply valid_date_iff in H as (Hy & Hm & Hd).
  pose proof (days_before_month_bounds (dyear d) (dmonth d) Hm).
  unfold toordinal. lia.
Qed.

(** The order of the dates is the order of their ordinals. *)
Lemma toordinal_lt (a b : date) :
  valid_date a = true -> valid_date b = true ->
  date_before a b -> toordinal a < toordinal b.
Proof.
  intros Ha Hb Hlt.
  pose proof (toordinal_bounds a Ha) as Ba.
  pose proof (toordinal_bounds b Hb) as Bb.
  apply valid_date_iff in Ha as (Hya & Hma & Hda).
  apply valid_date_iff in Hb as (Hyb & Hmb & Hdb).
  destruct Hlt as [Hy | [Hy [Hm | [Hm Hd]]]].
  - pose proof (days_before_year_succ (dyear a) ltac:(lia)).
    pose proof (days_before_year_mono (dyear a + 1) (dyear b) ltac:(lia)).
    lia.
  - pose proof (days_before_month_lt (dyear a) (dmonth a) (dmonth b)
                  ltac:(lia) Hm ltac:(lia)).
    unfold toordinal. rewrite <- Hy. lia.
  - unfold toordinal. rewrite <- Hy, <- Hm. lia.
Qed.

Lemma date_leb_spec (a b : date) :
  date_leb a b = true <-> date_before a b \/ a = b.
Proof.
  unfold date_leb, date_before.
  repeat first [rewrite orb_true_iff | rewrite andb_true_iff].
  rewrite !Z.ltb_lt, !Z.eqb_eq, Z.leb_le.
  destruct a as [ya ma da], b as [yb mb db]; cbn. split.
  - intros [H | [Hy [H | [Hm Hd]]]]; [tauto | tauto |].
    destruct (Z.eq_dec da db) as [-> | Hne]; [right; congruence|].
    left. right. split; [assumption|]. right. split; [assumption | lia].
  - intros [[H | [Hy [H | [Hm Hd]]]] | Heq]; [tauto | tauto | |].
    + right. split; [assumption|]. right. split; [assumption | lia].
    + injection Heq as -> -> ->. right. split; [reflexivity|]. right.
      split; [reflexivity | lia].
Qed.

Lemma date_leb_toordinal (a b : date) :
  valid_date a = true -> valid_date b = true ->
  (date_leb a b = true <-> toordinal a <= toordinal b).
Proof.
  intros Ha Hb. rewrite date_leb_spec. split.
  - intros [Hlt | ->]; [|lia]. pose proof (toordinal_lt a b Ha Hb Hlt). lia.
  - intros Hle.
    destruct a as [ya ma da], b as [yb mb db].
    destruct (Z.lt_trichotomy ya yb) as [Hy | [-> | Hy]].
    + left. now left.
    + destruct (Z.lt_trichotomy ma mb) as [Hm | [-> | Hm]].
      * left. right. cbn. auto.
      * destruct (Z.lt_trichotomy da db) as [Hd | [-> | Hd]].
        -- left. right. cbn. auto.
        -- now right.
        -- exfalso.
           pose proof (toordinal_lt (mk_date yb mb db) (mk_date yb mb da) Hb Ha
                         ltac:(right; cbn; auto)). lia.
      * exfalso.
        pose proof (toordinal_lt (mk_date yb mb db) (mk_date yb ma da) Hb Ha
                      ltac:(right; cbn; auto)). lia.
    + exfalso.
      pose proof (toordinal_lt (mk_date yb mb db) (mk_date ya ma da) Hb Ha
                    ltac:(left; cbn; auto)). lia.
Qed.

(** The next day is a date, and its ordinal is the next one. *)
Lemma next_day_spec (d d' : date) :
  valid_date d = true -> next_day d = Ok d' ->
  valid_date d' = true /\ toordinal d' = toordinal d + 1.
Proof.
  intros Hv. pose proof Hv as Hv'. apply valid_date_iff in Hv' as (Hy & Hm & Hd).
  unfold next_day.
  destruct (Z.ltb_spec (dday d) (days_in_month (dyear d) (dmonth d))).
  { intros H'. injection H' as <-. split.
    - apply valid_date_iff. cbn. lia.
    - unfold toordinal. cbn. lia. }
  destruct (Z.ltb_spec (dmonth d) 12).
  { intros H'. injection H' as <-. split.
    - apply valid_date_iff. cbn.
      assert (1 <= days_in_month (dyear d) (dmonth d + 1)).
      { unfold days_in_month. repeat destruct (_ =? _); cbn;
          try destruct (is_leap _); lia. }
      lia.
    - unfold toordinal. cbn.
      rewrite days_before_month_succ by lia. lia. }
  destruct (Z.ltb_spec (dyear d) 9999); [|discriminate].
  intros H'. injection H' as <-. split.
  - apply valid_date_iff. cbn. lia.
  - unfold toordinal. cbn.
    rewrite days_before_year_succ by lia.
    assert (Hm12 : dmonth d = 12) by lia. rewrite Hm12 in *.
    assert (Hd31 : dday d = 31) by (cbn in Hd; cbn in H; lia).
    rewrite Hd31. unfold days_before_month, leap_day, days_in_month.
    cbn -[is_leap]. destruct (is_leap (dyear d)); lia.
Qed.

(** More passes than the minutes left change nothing. *)
Lemma expand_minutes_enough (d : date) (last step : Z) (n : nat) :
  0 < step ->
  forall (cur : Z) (k : nat),
    last - cur + 1 <= Z.of_nat n ->
    expand_minutes (n + k) d cur last step = expand_minutes n d cur last step.
Proof.
  intros Hstep. induction n as [|n IH]; intros cur k Hn.
  - destruct k; cbn [Nat.add expand_minutes]; [reflexivity|].
    destruct (Z.leb_spec cur last); [lia | reflexivity].
  - cbn [Nat.add expand_minutes].
    destruct (Z.leb_spec cur last); [|reflexivity].
    destruct (_ && _); [reflexivity|].
    rewrite IH by lia. reflexivity.
Qed.

(** More passes than the days left change nothing. *)
Lemma expand_days_enough (last_day : date)
    (start_hour start_min end_hour end_min step_minutes : Z) (n : nat) :
  valid_date last_day = true ->
  forall (cur_day : date) (k : nat),
    valid_date cur_day = true ->
    toordinal last_day - toordinal cur_day + 1 <= Z.of_nat n ->
    expand_days (n + k) cur_day last_day start_hour start_min end_hour end_min
                step_minutes
    = expand_days n cur_day last_day start_hour start_min end_hour end_min
                  step_minutes.
Proof.
  intros Hlast. induction n as [|n IH]; intros cur k Hcur Hn.
  - destruct k; cbn [Nat.add expand_days]; [reflexivity|].
    destruct (date_leb cur last_day) eqn:Hle; [|reflexivity].
    apply date_leb_toordinal in Hle; [lia | assumption | assumption].
  - cbn [Nat.add expand_days].
    destruct (date_leb cur last_day) eqn:Hle; [|reflexivity].
    destruct (expand_day cur _ _ _ _ _) as [today|e]; [|reflexivity].
    cbn [rbind].
    destruct (next_day cur) as [tomorrow|e] eqn:Hnext; [|reflexivity].
    cbn [rbind].
    destruct (next_day_spec cur tomorrow Hcur Hnext) as [Hv Hord].
    rewrite IH by (assumption || lia). reflexivity.
Qed.

(** [wanted_dt_list] is the list the two [while] loops build: with any
    larger bound on the passes, the expansion is the same. *)
Lemma wanted_dt_list_enough (start_dt end_dt : datetime)
    (start_hour start_min end_hour end_min step_minutes : Z) (k : nat) :
  valid_date (date_of start_dt) = true ->
  valid_date (date_of end_dt) = true ->
  expand_days
    (Z.to_nat (toordinal (date_of end_dt) - toordinal (date_of start_dt) + 1) + k)
    (date_of start_dt) (date_of end_dt)
    start_hour start_min end_hour end_min step_minutes
  = wanted_dt_list start_dt end_dt start_hour start_min end_hour end_min
                   step_minutes.
Proof.
  intros Hs He. unfold wanted_dt_list.
  apply expand_days_enough; [assumption | assumption | lia].
Qed.

(** The timestamps of a day are those the loop over the minutes builds,
    whatever larger bound it is given. *)
Lemma expand_day_enough (d : date)
    (start_hour start_min end_hour end_min step_minutes : Z) (k : nat)
    (start_dt_day end_dt_day : datetime) :
  0 < step_minutes ->
  datetime_new (dyear d) (dmonth d) (dday d) start_hour start_min = Ok start_dt_day ->
  datetime_new (dyear d) (dmonth d) (dday d) end_hour end_min = Ok end_dt_day ->
  expand_day d start_hour start_min end_hour end_min step_minutes =
    expand_minutes
      (Z.to_nat (end_hour * 60 + end_min - (start_hour * 60 + start_min) + 1) + k)
      d (start_hour * 60 + start_min) (end_hour * 60 + end_min) step_minutes.
Proof.
  intros Hstep Hs He. unfold expand_day. rewrite Hs, He. cbn [rbind].
  unfold datetime_new in Hs, He.
  destruct (valid_datetime _) in Hs; [|discriminate]. injection Hs as <-.
  destruct (valid_datetime _) in He; [|discriminate]. injection He as <-.
  cbn [hour minute]. destruct (Z.ltb_spec 0 step_minutes); [|lia].
  symmetry. apply expand_minutes_enough; [assumption | lia].
Qed.

(** ** Strings *)

Lemma app_assoc_s (a b c : string) : (a +:+ b) +:+ c = a +:+ (b +:+ c).
Proof. induction a as [|x a IH]; simpl; [reflexivity | now rewrite IH]. Qed.

Lemma app_nil_r_s (a : string) : a +:+ "" = a.
Proof. induction a as [|x a IH]; simpl; [reflexivity | now rewrite IH]. Qed.

Lemma app_length_s (a b : string) :
  String.length (a +:+ b) = (String.length a + String.length b)%nat.
Proof. induction a as [|x a IH]; simpl; [reflexivity | now rewrite IH]. Qed.

Lemma startswith_spec (s p : string) :
  startswith s p = true <-> exists r, s = p +:+ r.
Proof.
  revert s. induction p as [|b p IH]; intros s; simpl.
  - split; [intros _; now exists s | reflexivity].
  - destruct s as [|a s].
    + split; [discriminate | intros [r Hr]; discriminate].
    + rewrite andb_true_iff, Ascii.eqb_eq, IH. split.
      * intros [-> [r ->]]. now exists r.
      * intros [r Hr]. injection Hr as -> ->. split; [reflexivity | now exists r].
Qed.

Lemma endswith_spec (s suf : string) :
  endswith s suf = true <-> exists p, s = p +:+ suf.
Proof.
  induction s as [|a s IH]; cbn [endswith].
  - rewrite orb_false_r, String.eqb_eq. split.
    + intros <-. now exists "".
    + intros [[|x p] Hp]; simpl in Hp; [congruence | discriminate].
  - rewrite orb_true_iff, String.eqb_eq, IH. split.
    + intros [<- | [p ->]]; [now exists "" | now exists (String a p)].
    + intros [[|x p] Hp]; simpl in Hp.
      * now left.
      * injection Hp as -> ->. right. now exists p.
Qed.

Lemma lower_app (a b : string) : lower (a +:+ b) = lower a +:+ lower b.
Proof. induction a as [|x a IH]; simpl; [reflexivity | now rewrite IH]. Qed.

(** A split of [lower s] comes from a split of [s]. *)
Lemma lower_split (s a' b' : string) :
  lower s = a' +:+ b' ->
  exists a b, s = a +:+ b /\ lower a = a' /\ lower b = b'.
Proof.
  revert a'. induction s as [|x s IH]; intros a' H; simpl in H.
  - destruct a'; [|discriminate]. simpl in H. exists "", "". now rewrite <- H.
  - destruct a' as [|y a'].
    + simpl in H. exists "", (String x s). now rewrite <- H.
    + simpl in H. injection H as Hy Hs. destruct (IH _ Hs) as (a & b & -> & Ha & Hb).
      exists (String x a), b. simpl. now rewrite Hy, Ha, Hb.
Qed.

Lemma lower_ascii_t (c : ascii) :
  lower_ascii c = "t"%char <-> c = "t"%char \/ c = "T"%char.
Proof.
  destruct c as [[] [] [] [] [] [] [] []]; vm_compute;
    split; intros H; try destruct H as [H|H]; try discriminate H; auto.
Qed.

Lemma lower_ascii_x (c : ascii) :
  lower_ascii c = "x"%char <-> c = "x"%char \/ c = "X"%char.
Proof.
  destruct c as [[] [] [] [] [] [] [] []]; vm_compute;
    split; intros H; try destruct H as [H|H]; try discriminate H; auto.
Qed.

Lemma lower_ascii_dot (c : ascii) : lower_ascii c = "."%char <-> c = "."%char.
Proof.
  destruct c as [[] [] [] [] [] [] [] []]; vm_compute;
    split; intros H; try discriminate H; auto.
Qed.

Lemma rstrip_slash_app (a t : string) :
  rstrip_slash t <> "" -> rstrip_slash (a +:+ t) = a +:+ rstrip_slash t.
Proof.
  intros Ht. induction a as [|x a IH]; simpl; [reflexivity|].
  rewrite IH. destruct (a +:+ rstrip_slash t) eqn:Heq; [|reflexivity].
  destruct a; simpl in Heq; [contradiction | discriminate].
Qed.

Lemma rstrip_slash_cons (c : ascii) (t : string) :
  rstrip_slash t <> "" -> rstrip_slash (String c t) = String c (rstrip_slash t).
Proof. intros Ht. simpl. destruct (rstrip_slash t); [contradiction | reflexivity]. Qed.

Lemma rstrip_slash_keep (c : ascii) (t : string) :
  Ascii.eqb c slash = false -> rstrip_slash (String c t) = String c (rstrip_slash t).
Proof. intros Hc. simpl. rewrite Hc. now destruct (rstrip_slash t). Qed.

Lemma rstrip_slash_ne_cons (c : ascii) (t : string) :
  rstrip_slash t <> "" -> rstrip_slash (String c t) <> "".
Proof. intros Ht. now rewrite rstrip_slash_cons. Qed.

Lemma rstrip_slash_ne_keep (c : ascii) (t : string) :
  Ascii.eqb c slash = false -> rstrip_slash (String c t) <> "".
Proof. intros Hc. now rewrite rstrip_slash_keep. Qed.

Lemma digit_char_not_slash (n : Z) : Ascii.eqb (digit_char n) slash = false.
Proof.
  unfold digit_char.
  assert (H : (Z.to_nat (n mod 10) < 10)%nat)
    by (pose proof (Z.mod_pos_bound n 10); lia).
  destruct (Z.to_nat (n mod 10)) as [|k]; [reflexivity|].
  do 9 (destruct k as [|k]; [reflexivity|]). lia.
Qed.

(** ** C1: the path candidates *)

(** A string of digits and slashes that holds a digit keeps something
    when its trailing slashes go. *)
Ltac rstrip_nonempty :=
  repeat first [ apply rstrip_slash_ne_keep; apply digit_char_not_slash
               | apply rstrip_slash_ne_cons ].

Lemma unique_loop_fresh (alt : list string) (seen : gset string) (out : list string) :
  NoDup alt -> (forall p, p ∈ alt -> p ∉ seen) ->
  unique_loop alt seen out = out ++ alt.
Proof.
  revert seen out. induction alt as [|p alt IH]; intros seen out Hnd Hfresh; simpl.
  - now rewrite app_nil_r.
  - apply NoDup_cons in Hnd as [Hp Hnd].
    rewrite decide_False by (apply Hfresh; left).
    rewrite IH; [now rewrite <- List.app_assoc | assumption |].
    intros q Hq. rewrite elem_of_union, elem_of_singleton.
    intros [-> | Hs]; [contradiction|].
    apply (Hfresh q); [now right | assumption].
Qed.

(** C1. For every base path and every date, [build_possible_paths] returns
    exactly four pairwise distinct candidates in the fixed order
    [base/yyyy/mm/dd/], [base/yyyy/mm/ddmmyyyy/], then the same two without
    the trailing slash, where [base] is the base path without its own
    trailing slashes; so the order-preserving deduplication removes
    nothing. For ["/data"] and 2023-09-05 the result is the list of the
    specification. Being a Rocq function of its two arguments, the
    candidate builder is pure and deterministic. *)
Theorem build_possible_paths_four (base_path : string) (date_obj : datetime) :
  let base := rstrip_slash base_path in
  let yyyy := strftime_Y date_obj in
  let mm := strftime_m date_obj in
  let dd := strftime_d date_obj in
  build_possible_paths base_path date_obj =
    [ base +:+ "/" +:+ yyyy +:+ "/" +:+ mm +:+ "/" +:+ dd +:+ "/";
      base +:+ "/" +:+ yyyy +:+ "/" +:+ mm +:+ "/" +:+ dd +:+ mm +:+ yyyy +:+ "/";
      base +:+ "/" +:+ yyyy +:+ "/" +:+ mm +:+ "/" +:+ dd;
      base +:+ "/" +:+ yyyy +:+ "/" +:+ mm +:+ "/" +:+ dd +:+ mm +:+ yyyy ]
  /\ length (build_possible_paths base_path date_obj) = 4%nat
  /\ NoDup (build_possible_paths base_path date_obj)
  /\ build_possible_paths "/data" (mk_datetime 2023 9 5 0 0) =
       [ "/data/2023/09/05/"; "/data/2023/09/05092023/";
         "/data/2023/09/05"; "/data/2023/09/05092023" ].
Proof.
  intros base yyyy mm dd.
  assert (Heq : build_possible_paths base_path date_obj =
    [ base +:+ "/" +:+ yyyy +:+ "/" +:+ mm +:+ "/" +:+ dd +:+ "/";
      base +:+ "/" +:+ yyyy +:+ "/" +:+ mm +:+ "/" +:+ dd +:+ mm +:+ yyyy +:+ "/";
      base +:+ "/" +:+ yyyy +:+ "/" +:+ mm +:+ "/" +:+ dd;
      base +:+ "/" +:+ yyyy +:+ "/" +:+ mm +:+ "/" +:+ dd +:+ mm +:+ yyyy ]).
  { unfold build_possible_paths. fold base.
    subst yyyy mm dd. unfold strftime_dmY, strftime_Y, strftime_m, strftime_d, fmt4, fmt2.
    cbn [String.append].
    rewrite !rstrip_slash_app by rstrip_nonempty.
    repeat first [ progress change (rstrip_slash "/") with ""
                 | rewrite rstrip_slash_keep by apply digit_char_not_slash
                 | rewrite rstrip_slash_cons by rstrip_nonempty ].
    match goal with |- unique_loop ?l _ _ = _ =>
      rewrite (unique_loop_fresh l ∅ []) end.
    - reflexivity.
    - repeat (apply NoDup_cons; split;
              [rewrite ?elem_of_cons, elem_of_nil;
               intros H; repeat destruct H as [H|H]; try contradiction;
               apply (inj (String.append base)) in H; congruence |]).
      apply NoDup_nil_2.
    - intros p _. apply not_elem_of_empty. }
  split; [exact Heq|]. rewrite Heq. split; [reflexivity|]. split; [|reflexivity].
  subst yyyy mm dd. unfold strftime_Y, strftime_m, strftime_d, fmt4, fmt2.
  cbn [String.append].
  repeat (apply NoDup_cons; split;
          [rewrite ?elem_of_cons, elem_of_nil;
           intros H; repeat destruct H as [H|H]; try contradiction;
           apply (inj (String.append base)) in H; congruence |]).
  apply NoDup_nil_2.
Qed.

(** ** C2 and C10: the matcher *)

Lemma lower_txt_extension (ext : string) :
  lower ext = ".txt" <-> txt_extension ext.
Proof.
  split.
  - intros H. destruct ext as [|c0 [|c1 [|c2 [|c3 [|c4 r]]]]]; try discriminate H.
    simpl in H. injection H as H0 H1 H2 H3.
    apply lower_ascii_dot in H0 as ->.
    apply lower_ascii_t in H1. apply lower_ascii_x in H2. apply lower_ascii_t in H3.
    now exists c1, c2, c3.
  - intros (c1 & c2 & c3 & -> & H1 & H2 & H3). simpl.
    apply lower_ascii_t in H1 as ->. apply lower_ascii_x in H2 as ->.
    apply lower_ascii_t in H3 as ->. reflexivity.
Qed.

Lemma endswith_lower_txt (filename : string) :
  endswith (lower filename) ".txt" = true <-> ends_with_txt filename.
Proof.
  rewrite endswith_spec. split.
  - intros [p Hp]. apply lower_split in Hp as (a & b & -> & _ & Hb).
    exists a, b. split; [reflexivity | now apply lower_txt_extension].
  - intros (stem & ext & -> & Hext). exists (lower stem).
    rewrite lower_app. f_equal. now apply lower_txt_extension.
Qed.

Lemma matches_station_file_spec (filename station_code : string) :
  matches_station_file filename station_code = true <->
  ends_with_txt filename /\ has_prefix filename station_code.
Proof.
  unfold matches_station_file, has_prefix.
  rewrite <- endswith_lower_txt, <- startswith_spec.
  destruct (endswith (lower filename) ".txt"); simpl.
  - tauto.
  - split; [discriminate | intros [H _]; discriminate H].
Qed.

(** C2. [matches_station_file] is true exactly when the file name ends
    with [.txt] in any letter case and starts with the station id as an
    exact prefix; the three examples of the specification follow. *)
Theorem matches_station_file_iff (filename station_code : string) :
  (matches_station_file filename station_code = true <->
     ends_with_txt filename /\ has_prefix filename station_code)
  /\ matches_station_file "RTU12_0600.txt" "RTU12" = true
  /\ matches_station_file "abcfile.txt" "ABC" = false
  /\ matches_station_file "RTU12.TXT" "RTU12" = true.
Proof.
  split; [apply matches_station_file_spec | repeat split; reflexivity].
Qed.

(** C10. With the empty station id every file whose name ends with [.txt],
    in any letter case, matches: the empty string is a prefix of every
    name. *)
Theorem empty_station_matches_every_txt (filename : string) :
  ends_with_txt filename -> matches_station_file filename "" = true.
Proof.
  intros H. apply matches_station_file_spec. split; [assumption|].
  now exists filename.
Qed.

Lemma empty_station_matches_every_txt_witness :
  ends_with_txt "other.TXT" /\ matches_station_file "other.TXT" "" = true.
Proof.
  assert (H : ends_with_txt "other.TXT").
  { exists "other", ".TXT". split; [reflexivity|].
    exists "T"%char, "X"%char, "T"%char. repeat split; auto. }
  split; [exact H | exact (empty_station_matches_every_txt "other.TXT" H)].
Defined.

(** ** Reasoning on computations *)

Lemma bind_ok {A B} (m : M A) (k : A -> M B) (w w1 : world) (a : A) :
  m w = (Ok a, w1) -> bind m k w = k a w1.
Proof. intros H. unfold bind. now rewrite H. Qed.

Lemma bind_raise {A B} (m : M A) (k : A -> M B) (w w1 : world) (e : exn) :
  m w = (Raise e, w1) -> bind m k w = (Raise e, w1).
Proof. intros H. unfold bind. now rewrite H. Qed.

Lemma try_ok {A} (m : M A) (h : exn -> M A) (w w1 : world) (a : A) :
  m w = (Ok a, w1) -> try_catch m h w = (Ok a, w1).
Proof. intros H. unfold try_catch. now rewrite H. Qed.

Lemma try_raise {A} (m : M A) (h : exn -> M A) (w w1 : world) (e : exn) :
  m w = (Raise e, w1) -> try_catch m h w = h e w1.
Proof. intros H. unfold try_catch. now rewrite H. Qed.

(** A step that cannot raise, followed by a plain return. *)
Lemma bind_ok_snd {A B} (m : M A) (b : B) (w : world) :
  is_ok (fst (m w)) = true ->
  (m ;;; ret b) w = (Ok b, snd (m w)).
Proof.
  unfold bind, ret. destruct (m w) as [[a|e] w1]; cbn; [reflexivity | discriminate].
Qed.

Lemma bind_emit {B} (e : event) (k : M B) (w : world) :
  (emit e ;;; k) w = k (mk_world (now w) (files w) (e :: trace w)).
Proof. reflexivity. Qed.

(** What [ftp_cwd] does, by the reply it gets. *)
Lemma ftp_cwd_ok (E : env) (path : string) (w : world) :
  cwd_at E (now w) path = None ->
  ftp_cwd E path w = (Ok tt, mk_world (S (now w)) (files w) (EvCwd path :: trace w)).
Proof. intros H. unfold ftp_cwd, bind, ask, emit, lift_error. cbn. now rewrite H. Qed.

Lemma ftp_cwd_raise (E : env) (path : string) (w : world) (e : exn) :
  cwd_at E (now w) path = Some e ->
  ftp_cwd E path w = (Raise e, mk_world (S (now w)) (files w) (EvCwd path :: trace w)).
Proof. intros H. unfold ftp_cwd, bind, ask, emit, lift_error. cbn. now rewrite H. Qed.

(** ** C3: resolution *)

Lemma probe_candidates_find (E : env) (accepted : string -> bool)
    (candidates : list string) (w : world) :
  accepts_exactly E accepted ->
  fst (probe_candidates E candidates w) = Ok (List.find accepted candidates).
Proof.
  intros Hacc. revert w. induction candidates as [|c rest IH]; intros w.
  - reflexivity.
  - cbn [probe_candidates List.find].
    destruct (accepted c) eqn:Hc.
    + apply (Hacc (now w)) in Hc.
      erewrite try_ok; [reflexivity|].
      erewrite bind_ok; [|apply ftp_cwd_ok; exact Hc].
      unfold ftp_pwd, bind, try_catch, ask, lift_result, ret. cbn.
      destruct (pwd_at E (S (now w))); reflexivity.
    + destruct (cwd_at E (now w) c) as [e|] eqn:Hcwd.
      * erewrite try_raise; [apply IH|].
        erewrite bind_raise; [reflexivity | apply ftp_cwd_raise; exact Hcwd].
      * apply Hacc in Hcwd. congruence.
Qed.

(** C3. Over a connection that accepts a fixed set of paths,
    [find_existing_remote_path] returns, without raising, the first
    candidate of [build_possible_paths], in its priority order, that the
    connection accepts, and [None] when it accepts none of them. With a
    connection that accepts only the second candidate of ["/data"] on
    2023-09-05, the second candidate is returned. *)
Theorem find_existing_remote_path_first_accepted (E : env) (ftp : FTP)
    (accepted : string -> bool) (base_path : string) (date_obj : datetime)
    (w : world) :
  accepts_exactly E accepted ->
  let candidates := build_possible_paths base_path date_obj in
  let found := fst (find_existing_remote_path E ftp base_path date_obj w) in
  found = Ok (List.find accepted candidates)
  /\ (forall c, found = Ok (Some c) <->
        exists before after,
          candidates = before ++ c :: after /\
          accepted c = true /\ Forall (fun p => accepted p = false) before)
  /\ (found = Ok None <-> Forall (fun p => accepted p = false) candidates).
Proof.
  intros Hacc candidates found.
  assert (Hfound : found = Ok (List.find accepted candidates)).
  { subst found. unfold find_existing_remote_path, bind, emit. cbn.
    now apply probe_candidates_find. }
  split; [exact Hfound|]. rewrite Hfound. clear Hfound found.
  generalize candidates as l. clear. intros l. split.
  - intros c. split.
    + intros H. injection H as H. induction l as [|p l IH]; [discriminate|].
      cbn in H. destruct (accepted p) eqn:Hp.
      * injection H as ->. exists [], l. repeat split; auto.
      * destruct (IH H) as (before & after & -> & Hc & Hb).
        exists (p :: before), after. repeat split; auto.
    + intros (before & after & -> & Hc & Hb). f_equal.
      induction Hb as [|p before Hp _ IH]; cbn.
      * now rewrite Hc.
      * now rewrite Hp.
  - split.
    + intros H. injection H as H. induction l as [|p l IH]; [constructor|].
      cbn in H. destruct (accepted p) eqn:Hp; [discriminate|].
      constructor; auto.
    + intros H. f_equal. induction H as [|p l Hp _ IH]; cbn; [reflexivity|].
      now rewrite Hp.
Qed.

Lemma stub_env_accepts (accepted : string -> bool) (names : list string)
    (body : string) :
  accepts_exactly (stub_env accepted names body) accepted.
Proof.
  intros t path. cbn. destruct (accepted path); split; congruence.
Qed.

Lemma find_existing_remote_path_first_accepted_witness :
  accepts_exactly (stub_env only_second [] "") only_second /\
  fst (find_existing_remote_path (stub_env only_second [] "") FTP_new "/data"
         (mk_datetime 2023 9 5 0 0) (init_world ∅))
  = Ok (Some "/data/2023/09/05092023/").
Proof.
  split; [apply stub_env_accepts|].
  rewrite (proj1 (find_existing_remote_path_first_accepted
                   (stub_env only_second [] "") FTP_new only_second "/data"
                   (mk_datetime 2023 9 5 0 0) (init_world ∅)
                   (stub_env_accepts only_second [] ""))).
  reflexivity.
Defined.

(** ** C8: connection with retries *)

Lemma connect_once_connect_fails (E : env) (host user passwd : string)
    (port attempt : Z) (w : world) (e : exn) :
  connect_at E (now w) host port = Some e ->
  connect_once E host user passwd port attempt w =
    (Raise e, mk_world (S (now w)) (files w) (EvConnect attempt :: trace w)).
Proof.
  intros H. unfold connect_once, bind, emit, ask, lift_error. cbn. now rewrite H.
Qed.

Lemma connect_once_login_fails (E : env) (host user passwd : string)
    (port attempt : Z) (w : world) (e : exn) :
  connect_at E (now w) host port = None ->
  login_at E (S (now w)) user passwd = Some e ->
  connect_once E host user passwd port attempt w =
    (Raise e, mk_world (S (S (now w))) (files w) (EvConnect attempt :: trace w)).
Proof.
  intros Hc Hl. unfold connect_once, bind, emit, ask, lift_error. cbn.
  rewrite Hc. cbn. now rewrite Hl.
Qed.

Lemma connect_once_succeeds (E : env) (host user passwd : string)
    (port attempt : Z) (w : world) :
  connect_at E (now w) host port = None ->
  login_at E (S (now w)) user passwd = None ->
  connect_once E host user passwd port attempt w =
    (Ok (mk_FTP true),
     mk_world (S (S (now w))) (files w) (EvConnect attempt :: trace w)).
Proof.
  intros Hc Hl. unfold connect_once, bind, emit, ask, lift_error. cbn.
  rewrite Hc. cbn. now rewrite Hl.
Qed.

Lemma failed_attempt_events_snoc (delay first : Z) (n : nat) (tr : list event) :
  reverse (failed_attempt_events delay (first + 1) n)
    ++ EvSleep delay :: EvConnect first :: tr
  = reverse (failed_attempt_events delay first (S n)) ++ tr.
Proof.
  cbn [failed_attempt_events]. rewrite !reverse_cons, <- !List.app_assoc.
  reflexivity.
Qed.

(** After the failures of [errs] the loop is where it would be with as
    many passes less, the last of the errors in hand. *)
Lemma connect_loop_after_failures (E : env) (host user passwd : string)
    (port retries delay : Z) (t : nat) (errs : list exn) (t' : nat) :
  attempts_fail E host user passwd port t errs t' ->
  forall (todo : nat) (attempt : Z) (last_exc : option exn) (w : world),
    now w = t ->
    connect_loop E host user passwd port retries delay
                 (length errs + todo) attempt last_exc w
    = connect_loop E host user passwd port retries delay todo
        (attempt + Z.of_nat (length errs))
        (match last errs with Some e => Some e | None => last_exc end)
        (mk_world t' (files w)
           (reverse (failed_attempt_events delay attempt (length errs))
              ++ trace w)).
Proof.
  induction 1 as [t | t e errs t' Hc _ IH | t e errs t' Hc Hl _ IH];
    intros todo attempt last_exc w Hw.
  - cbn. rewrite Z.add_0_r. destruct w; cbn in *; now subst.
  - cbn [length Nat.add connect_loop].
    erewrite try_raise; [|apply connect_once_connect_fails; rewrite Hw; exact Hc].
    unfold bind at 1, emit at 1. cbn beta iota.
    rewrite IH by (cbn; now rewrite Hw). cbn [files trace].
    rewrite failed_attempt_events_snoc, last_cons.
    f_equal; [lia | now destruct (last errs)].
  - cbn [length Nat.add connect_loop].
    erewrite try_raise;
      [|apply connect_once_login_fails; rewrite Hw; [exact Hc | exact Hl]].
    unfold bind at 1, emit at 1. cbn beta iota.
    rewrite IH by (cbn; now rewrite Hw). cbn [files trace].
    rewrite failed_attempt_events_snoc, last_cons.
    f_equal; [lia | now destruct (last errs)].
Qed.

(** C8. [ftp_connect] makes at most [retries] attempts and sleeps [delay]
    after each failed one, so between any two attempts. When every one of
    the [retries] attempts fails, it raises [ConnectionError] carrying the
    error of the last attempt. When an attempt succeeds after fewer
    failures, it returns at once a connection in passive mode: no attempt
    follows. The events are the attempts [1, 2, ...], each failed one
    followed by its sleep. *)
Theorem ftp_connect_retries (E : env) (host user passwd : string)
    (port retries delay : Z) (w : world) (errs : list exn) (t' : nat) :
  attempts_fail E host user passwd port (now w) errs t' ->
  (length errs = Z.to_nat retries ->
     ftp_connect E host user passwd port retries delay w =
       (Raise (ConnectionError retries (last errs)),
        mk_world t' (files w)
          (reverse (failed_attempt_events delay 1 (length errs)) ++ trace w)))
  /\
  ((length errs < Z.to_nat retries)%nat ->
   connect_at E t' host port = None ->
   login_at E (S t') user passwd = None ->
     exists ftp,
       ftp_connect E host user passwd port retries delay w =
         (Ok ftp,
          mk_world (S (S t')) (files w)
            (EvConnect (1 + Z.of_nat (length errs)) ::
             reverse (failed_attempt_events delay 1 (length errs)) ++ trace w))
       /\ passiveserver ftp = true).
Proof.
  intros Hfail. split.
  - intros Hlen. unfold ftp_connect. rewrite <- Hlen.
    replace (length errs) with (length errs + 0)%nat at 1 by lia.
    rewrite (connect_loop_after_failures _ _ _ _ _ _ _ _ _ _ Hfail)
      by reflexivity.
    cbn [connect_loop]. unfold raise. now destruct (last errs).
  - intros Hlt Hc Hl. exists (mk_FTP true). split; [|reflexivity].
    unfold ftp_connect.
    replace (Z.to_nat retries)
      with (length errs + S (Z.to_nat retries - length errs - 1))%nat by lia.
    rewrite (connect_loop_after_failures _ _ _ _ _ _ _ _ _ _ Hfail)
      by reflexivity.
    cbn [connect_loop].
    erewrite try_ok; [reflexivity|].
    now rewrite connect_once_succeeds by assumption.
Qed.

Lemma ftp_connect_retries_witness :
  (attempts_fail (flaky_env 3) "host" "user" "pw" 21 0
     [OSError "timed out"; OSError "timed out"; OSError "timed out"] 3 /\
   ftp_connect (flaky_env 3) "host" "user" "pw" 21 3 2 (init_world ∅) =
     (Raise (ConnectionError 3 (Some (OSError "timed out"))),
      mk_world 3 ∅
        [EvSleep 2; EvConnect 3; EvSleep 2; EvConnect 2; EvSleep 2; EvConnect 1]))
  /\
  (attempts_fail (flaky_env 2) "host" "user" "pw" 21 0
     [OSError "timed out"; OSError "timed out"] 2 /\
   exists ftp,
     ftp_connect (flaky_env 2) "host" "user" "pw" 21 3 2 (init_world ∅) =
       (Ok ftp,
        mk_world 4 ∅
          [EvConnect 3; EvSleep 2; EvConnect 2; EvSleep 2; EvConnect 1])
     /\ passiveserver ftp = true).
Proof.
  assert (H3 : attempts_fail (flaky_env 3) "host" "user" "pw" 21 0
                 [OSError "timed out"; OSError "timed out"; OSError "timed out"] 3)
    by (repeat (apply fail_connect; [reflexivity|]); apply fail_none).
  assert (H2 : attempts_fail (flaky_env 2) "host" "user" "pw" 21 0
                 [OSError "timed out"; OSError "timed out"] 2)
    by (repeat (apply fail_connect; [reflexivity|]); apply fail_none).
  split; (split; [assumption|]).
  - exact (proj1 (ftp_connect_retries (flaky_env 3) "host" "user" "pw" 21 3 2
                    (init_world ∅) _ 3 H3) eq_refl).
  - apply (proj2 (ftp_connect_retries (flaky_env 2) "host" "user" "pw" 21 3 2
                    (init_world ∅) _ 2 H2)); [cbn; lia | reflexivity | reflexivity].
Defined.

(** ** C4: the transfer of one file *)

Lemma pause_loop_spec (wakes : list bool) (w : world) :
  exists w',
    pause_loop wakes w =
      (if existsb id wakes then Raise Cancelled else Ok tt, w') /\
    files w' = files w /\ now w' = now w.
Proof.
  revert w. induction wakes as [|c wakes IH]; intros w.
  - exists w. now cbn.
  - cbn [pause_loop existsb]. unfold bind at 1, emit at 1. cbn beta iota.
    destruct c; cbn [id orb].
    + eexists. unfold raise. repeat split.
    + destruct (IH (mk_world (now w) (files w) (EvPauseWake :: trace w)))
        as (w' & Heq & Hf & Hn).
      exists w'. now rewrite Heq.
Qed.

(** A block that passes is appended to the local file; one that does not
    raises and leaves the file as it was. *)
Lemma _callback_spec (remote_file local_path : string) (total : option Z)
    (received : Z) (c : chunk) (w : world) :
  exists r w',
    _callback remote_file local_path total received c w = (r, w') /\
    now w' = now w /\
    (forall p, p <> local_path -> files w' !! p = files w !! p) /\
    (if chunk_passes c
     then is_ok r = true /\
          files w' !! local_path =
            Some (default "" (files w !! local_path) +:+ chunk_data c)
     else is_ok r = false /\ files w' !! local_path = files w !! local_path).
Proof.
  unfold _callback, chunk_passes.
  destruct (chunk_cancel c); cbn [negb andb].
  { do 2 eexists. unfold bind, raise. cbn. repeat split. }
  unfold bind at 1, ret at 1. cbn beta iota.
  destruct (pause_loop_spec (chunk_wakes c) w) as (w1 & Hp & Hf1 & Hn1).
  unfold bind at 1. rewrite Hp.
  destruct (existsb id (chunk_wakes c)); cbn [negb andb].
  { do 2 eexists. repeat split; [assumption | now rewrite Hf1 | now rewrite Hf1]. }
  destruct (chunk_write c) as [e|]; cbn [lift_error].
  { do 2 eexists. unfold bind, raise. cbn.
    repeat split; [assumption | now rewrite Hf1 | now rewrite Hf1]. }
  rewrite bool_decide_eq_true_2 by reflexivity.
  unfold bind, ret, append_file, try_catch, emit. cbn.
  destruct (chunk_progress c); cbn; do 2 eexists;
    (split; [reflexivity|]); cbn; rewrite Hf1;
    (repeat split; [assumption | intros p Hp'; now rewrite lookup_insert_ne
                   | now rewrite lookup_insert_eq]).
Qed.

Lemma feed_chunks_spec (remote_file local_path : string) (total : option Z)
    (cs : list chunk) (received : Z) (w : world) (content : string) :
  files w !! local_path = Some content ->
  exists r w',
    feed_chunks remote_file local_path total received cs w = (r, w') /\
    now w' = now w /\
    (forall p, p <> local_path -> files w' !! p = files w !! p) /\
    (if forallb chunk_passes cs
     then is_ok r = true /\
          files w' !! local_path = Some (content +:+ chunks_data cs)
     else is_ok r = false /\ is_Some (files w' !! local_path)).
Proof.
  revert received w content.
  induction cs as [|c cs IH]; intros received w content Hc.
  - exists (Ok received), w. cbn. rewrite app_nil_r_s. repeat split; auto.
  - cbn [feed_chunks forallb chunks_data fold_right].
    destruct (_callback_spec remote_file local_path total received c w)
      as (r1 & w1 & Heq & Hn1 & Hfr1 & Hcase).
    unfold bind at 1. rewrite Heq.
    destruct (chunk_passes c); cbn [andb].
    + destruct Hcase as [Hok Hfile]. destruct r1 as [rec1|]; [|discriminate].
      rewrite Hc in Hfile. cbn in Hfile.
      destruct (IH rec1 w1 _ Hfile) as (r & w' & Heq' & Hn' & Hfr' & Hcase').
      exists r, w'. split; [exact Heq'|]. split; [congruence|].
      split; [intros p Hp; rewrite Hfr' by assumption; now apply Hfr1|].
      fold (chunks_data cs). rewrite <- app_assoc_s. exact Hcase'.
    + destruct Hcase as [Hko Hfile]. destruct r1 as [|e]; [discriminate|].
      exists (Raise e), w1. repeat split; auto.
      rewrite Hfile, Hc. eauto.
Qed.

Lemma remove_partial_spec (E : env) (local_path : string) (w : world) :
  exists w',
    remove_partial E local_path w = (Ok tt, w') /\
    (forall p, p <> local_path -> files w' !! p = files w !! p) /\
    ((forall t, remove_at E t local_path = None) ->
     files w' !! local_path = None).
Proof.
  unfold remove_partial, try_catch, bind, path_exists, emit, ask. cbn.
  case_bool_decide as Hex; cbn.
  - destruct (remove_at E (now w) local_path) as [e|] eqn:Hrm; cbn.
    + eexists. split; [reflexivity|]. cbn. split; [auto|].
      intros Hok. rewrite Hok in Hrm. discriminate.
    + eexists. split; [reflexivity|]. cbn. split.
      * intros p Hp. now rewrite lookup_delete_ne.
      * intros _. apply lookup_delete_eq.
  - exists w. repeat split. intros _.
    destruct (files w !! local_path) eqn:Hl; [|reflexivity].
    exfalso. apply Hex. eauto.
Qed.

Lemma receive_file_spec (E : env) (remote_file local_path : string) (w : world) :
  exists r w',
    receive_file E remote_file local_path w = (r, w') /\
    (forall p, p <> local_path -> files w' !! p = files w !! p) /\
    (if transfer_succeeds E (now w) remote_file local_path
     then r = Ok true /\
          files w' !! local_path =
            Some (chunks_data
                    (retr_chunks (retr_at E (S (S (now w))) remote_file)))
     else is_ok r = false).
Proof.
  unfold receive_file, transfer_succeeds.
  unfold bind at 1, emit at 1. cbn beta iota.
  set (w0 := mk_world (now w) (files w) (EvTransfer remote_file local_path :: trace w)).
  assert (Hsize : exists total,
    try_catch (ftp_size E remote_file) (fun _ => ret None) w0 =
      (Ok total, mk_world (S (now w)) (files w) (trace w0))).
  { unfold try_catch, ftp_size, bind, ask, lift_result, ret. cbn.
    destruct (size_at E (now w) remote_file) as [total|e]; eauto. }
  destruct Hsize as [total Hsize]. unfold bind at 1. rewrite Hsize.
  unfold bind at 1, ask at 1. cbn beta iota. cbn [now files trace].
  destruct (open_at E (S (now w)) local_path) as [e|]; cbn [lift_error].
  { rewrite bool_decide_eq_false_2 by discriminate. cbn [andb].
    do 2 eexists. unfold bind, raise. cbn. repeat split. }
  rewrite bool_decide_eq_true_2 by reflexivity. cbn [andb].
  unfold bind at 1, ret at 1. cbn beta iota.
  unfold bind at 1, set_file at 1. cbn beta iota. cbn [now files trace].
  unfold retrbinary. unfold bind at 1, bind at 1, ask at 1. cbn beta iota.
  cbn [now files trace].
  set (rr := retr_at E (S (S (now w))) remote_file).
  set (w2 := mk_world (S (S (S (now w)))) (<[local_path:=""]> (files w)) (trace w0)).
  destruct (feed_chunks_spec remote_file local_path total (retr_chunks rr) 0 w2 "")
    as (r & w3 & Heq & Hn & Hfr & Hcase).
  { cbn. apply lookup_insert_eq. }
  unfold bind at 1. rewrite Heq.
  assert (Hframe : forall p, p <> local_path -> files w3 !! p = files w !! p).
  { intros p Hp. rewrite Hfr by assumption. cbn. now rewrite lookup_insert_ne. }
  destruct (forallb chunk_passes (retr_chunks rr)); cbn [andb].
  - destruct Hcase as [Hok Hfile]. destruct r as [rec|]; [|discriminate].
    destruct (retr_end rr) as [e|]; cbn [lift_error].
    + rewrite bool_decide_eq_false_2 by discriminate.
      do 2 eexists. unfold bind, raise. cbn. repeat split. exact Hframe.
    + rewrite bool_decide_eq_true_2 by reflexivity.
      do 2 eexists. unfold bind, ret. cbn. repeat split; [exact Hframe|].
      exact Hfile.
  - destruct Hcase as [Hko _]. destruct r as [|e]; [discriminate|].
    do 2 eexists. repeat split. exact Hframe.
Qed.

(** C4. [download_file_with_progress] never raises. It returns [True]
    exactly when the transfer meets no failure (the local file opens, no
    block sees a cancel request or a write error, the [RETR] ends
    normally), and then the local file holds the bytes received. In every
    other case (cancellation seen in the chunk loop, connection loss,
    local I/O error) it returns [False] after trying to delete the local
    file: when that deletion does not itself fail, no file is left at
    [local_path]. No other local path is touched. *)
Theorem download_file_with_progress_cleanup (E : env) (ftp : FTP)
    (remote_file local_path : string) (w : world) :
  exists (ok : bool) (w' : world),
    download_file_with_progress E ftp remote_file local_path w = (Ok ok, w') /\
    ok = transfer_succeeds E (now w) remote_file local_path /\
    (ok = true ->
       files w' !! local_path =
         Some (chunks_data (retr_chunks (retr_at E (S (S (now w))) remote_file)))) /\
    (ok = false ->
       (forall t, remove_at E t local_path = None) ->
       files w' !! local_path = None) /\
    (forall p, p <> local_path -> files w' !! p = files w !! p).
Proof.
  unfold download_file_with_progress.
  destruct (receive_file_spec E remote_file local_path w)
    as (r & w1 & Heq & Hfr & Hcase).
  destruct (transfer_succeeds E (now w) remote_file local_path).
  - destruct Hcase as [-> Hfile]. exists true, w1.
    rewrite (try_ok _ _ _ _ _ Heq). repeat split; auto. discriminate.
  - destruct r as [|e]; [discriminate|].
    rewrite (try_raise _ _ _ _ _ Heq).
    destruct (remove_partial_spec E local_path w1) as (w2 & Hrm & Hfr2 & Hgone).
    exists false, w2. unfold bind. rewrite Hrm. unfold ret.
    repeat split; auto; [discriminate|].
    intros p Hp. rewrite Hfr2 by assumption. now apply Hfr.
Qed.

(** ** What a computation may touch *)

Lemma changes_only_refl (S : string -> Prop) (K : kind -> bool) (w : world) :
  changes_only S K w w.
Proof. split; [auto | exists []; split; [reflexivity | constructor]]. Qed.

Lemma changes_only_trans (S : string -> Prop) (K : kind -> bool)
    (w1 w2 w3 : world) :
  changes_only S K w1 w2 -> changes_only S K w2 w3 -> changes_only S K w1 w3.
Proof.
  intros [Hf1 (evs1 & Ht1 & Hk1)] [Hf2 (evs2 & Ht2 & Hk2)]. split.
  - intros p Hp. rewrite Hf2 by assumption. now apply Hf1.
  - exists (evs2 ++ evs1). split.
    + now rewrite Ht2, Ht1, List.app_assoc.
    + now apply Forall_app.
Qed.

Lemma changes_only_mono (S S' : string -> Prop) (K K' : kind -> bool)
    (w w' : world) :
  (forall p, S p -> S' p) -> (forall k, K k = true -> K' k = true) ->
  changes_only S K w w' -> changes_only S' K' w w'.
Proof.
  intros HS HK [Hf (evs & Ht & Hk)]. split.
  - intros p Hp. apply Hf. auto.
  - exists evs. split; [assumption|]. eapply Forall_impl; [exact Hk|]. auto.
Qed.

Section Confined.

Variable S : string -> Prop.
Variable K : kind -> bool.

Lemma confined_ret {A} (a : A) : confined S K (ret a).
Proof. intros w. apply changes_only_refl. Qed.

Lemma confined_raise {A} (e : exn) : confined S K (@raise A e).
Proof. intros w. apply changes_only_refl. Qed.

Lemma confined_lift_result {A} (r : result A) : confined S K (lift_result r).
Proof. intros w. apply changes_only_refl. Qed.

Lemma confined_lift_error (o : option exn) : confined S K (lift_error o).
Proof. destruct o; [apply confined_raise | apply confined_ret]. Qed.

Lemma confined_ask {A} (f : nat -> A) : confined S K (ask f).
Proof. intros w. split; [auto | exists []; split; [reflexivity | constructor]]. Qed.

Lemma confined_path_exists (p : string) : confined S K (path_exists p).
Proof. intros w. apply changes_only_refl. Qed.

Lemma confined_emit (e : event) : K (kind_of e) = true -> confined S K (emit e).
Proof.
  intros He w. split; [auto|]. exists [e]. split; [reflexivity|].
  now constructor.
Qed.

Lemma confined_set_file (p c : string) : S p -> confined S K (set_file p c).
Proof.
  intros Hp w. split; [|exists []; split; [reflexivity | constructor]].
  intros q Hq. cbn. apply lookup_insert_ne. now intros ->.
Qed.

Lemma confined_append_file (p c : string) : S p -> confined S K (append_file p c).
Proof.
  intros Hp w. split; [|exists []; split; [reflexivity | constructor]].
  intros q Hq. cbn. apply lookup_insert_ne. now intros ->.
Qed.

Lemma confined_delete_file (p : string) : S p -> confined S K (delete_file p).
Proof.
  intros Hp w. split; [|exists []; split; [reflexivity | constructor]].
  intros q Hq. cbn. apply lookup_delete_ne. now intros ->.
Qed.

Lemma confined_bind {A B} (m : M A) (k : A -> M B) :
  confined S K m -> (forall a, confined S K (k a)) -> confined S K (bind m k).
Proof.
  intros Hm Hk w. unfold bind. specialize (Hm w).
  destruct (m w) as [[a|e] w1]; cbn in *; [|assumption].
  eapply changes_only_trans; [exact Hm | apply Hk].
Qed.

Lemma confined_try_catch {A} (m : M A) (h : exn -> M A) :
  confined S K m -> (forall e, confined S K (h e)) -> confined S K (try_catch m h).
Proof.
  intros Hm Hh w. unfold try_catch. specialize (Hm w).
  destruct (m w) as [[a|e] w1]; cbn in *; [assumption|].
  eapply changes_only_trans; [exact Hm | apply Hh].
Qed.

End Confined.

Lemma confined_mono {A} (S S' : string -> Prop) (K K' : kind -> bool) (m : M A) :
  (forall p, S p -> S' p) -> (forall k, K k = true -> K' k = true) ->
  confined S K m -> confined S' K' m.
Proof. intros HS HK Hm w. eapply changes_only_mono; eauto. Qed.

Create HintDb effects discriminated.
#[local] Hint Resolve confined_ret confined_raise confined_lift_result
  confined_lift_error confined_ask confined_path_exists confined_bind
  confined_try_catch : effects.
#[local] Hint Extern 1 (confined _ _ (emit _)) =>
  apply confined_emit; reflexivity : effects.
#[local] Hint Extern 1 (confined _ _ (set_file _ _)) =>
  apply confined_set_file; reflexivity : effects.
#[local] Hint Extern 1 (confined _ _ (append_file _ _)) =>
  apply confined_append_file; reflexivity : effects.
#[local] Hint Extern 1 (confined _ _ (delete_file _)) =>
  apply confined_delete_file; reflexivity : effects.

(** Unfolds a straight-line computation and closes its confinement. *)
Ltac confined_tac := repeat (intros; auto 20 with effects).

Lemma confined_ftp_cwd (E : env) (path : string) :
  confined nowhere net_only (ftp_cwd E path).
Proof. unfold ftp_cwd. confined_tac. Qed.

Lemma confined_ftp_pwd (E : env) : confined nowhere net_only (ftp_pwd E).
Proof. unfold ftp_pwd. confined_tac. Qed.

Lemma confined_ftp_nlst (E : env) (arg : option string) :
  confined nowhere net_only (ftp_nlst E arg).
Proof. unfold ftp_nlst. confined_tac. Qed.

Lemma confined_ftp_size (E : env) (remote_file : string) :
  confined nowhere net_only (ftp_size E remote_file).
Proof. unfold ftp_size. confined_tac. Qed.

Lemma confined_ftp_quit (E : env) : confined nowhere net_only (ftp_quit E).
Proof. unfold ftp_quit. confined_tac. Qed.

Lemma confined_cancel_requested (E : env) :
  confined nowhere net_only (cancel_requested E).
Proof. unfold cancel_requested. confined_tac. Qed.

Lemma confined_connect_loop (E : env) (host user passwd : string)
    (port retries delay : Z) (todo : nat) (attempt : Z) (last_exc : option exn) :
  confined nowhere net_only
    (connect_loop E host user passwd port retries delay todo attempt last_exc).
Proof.
  revert attempt last_exc. induction todo as [|todo IH]; intros attempt last_exc.
  - cbn. confined_tac.
  - cbn [connect_loop]. apply confined_try_catch.
    + unfold connect_once. confined_tac.
    + intros e. apply confined_bind; [confined_tac | intros; apply IH].
Qed.

Lemma confined_ftp_connect (E : env) (host user passwd : string)
    (port retries delay : Z) :
  confined nowhere net_only (ftp_connect E host user passwd port retries delay).
Proof. apply confined_connect_loop. Qed.

Lemma confined_probe_candidates (E : env) (candidates : list string) :
  confined nowhere net_only (probe_candidates E candidates).
Proof.
  induction candidates as [|c rest IH]; cbn [probe_candidates].
  - confined_tac.
  - apply confined_try_catch; [|intros; exact IH].
    apply confined_bind; [apply confined_ftp_cwd | intros].
    apply confined_bind; [|confined_tac].
    apply confined_try_catch; [|confined_tac].
    apply confined_bind; [apply confined_ftp_pwd | confined_tac].
Qed.

(** Closes a confinement from a tighter one. *)
Ltac by_mono H :=
  eapply confined_mono; [ | | apply H];
  [ unfold nowhere, at_path, anywhere; intros; tauto
  | let k := fresh "k" in intros k; destruct k; cbn; congruence ].

Lemma confined_pause_loop (wakes : list bool) :
  confined nowhere net_only (pause_loop wakes).
Proof.
  induction wakes as [|c wakes IH]; cbn [pause_loop]; [confined_tac|].
  apply confined_bind; [confined_tac | intros _].
  destruct c; [confined_tac | exact IH].
Qed.

Lemma confined__callback (remote_file local_path : string) (total : option Z)
    (received : Z) (c : chunk) :
  confined (at_path local_path) net_only
    (_callback remote_file local_path total received c).
Proof.
  unfold _callback.
  apply confined_bind; [destruct (chunk_cancel c); confined_tac | intros _].
  apply confined_bind; [by_mono confined_pause_loop | intros _].
  confined_tac.
Qed.

Lemma confined_feed_chunks (remote_file local_path : string) (total : option Z)
    (cs : list chunk) (received : Z) :
  confined (at_path local_path) net_only
    (feed_chunks remote_file local_path total received cs).
Proof.
  revert received. induction cs as [|c cs IH]; intros received;
    cbn [feed_chunks]; [confined_tac|].
  apply confined_bind; [apply confined__callback | intros; apply IH].
Qed.

Lemma confined_download_file_with_progress (E : env) (ftp : FTP)
    (remote_file local_path : string) :
  confined (at_path local_path) net_or_write
    (download_file_with_progress E ftp remote_file local_path).
Proof.
  unfold download_file_with_progress. apply confined_try_catch.
  - unfold receive_file.
    apply confined_bind; [confined_tac | intros _].
    apply confined_bind; [|intros total].
    { apply confined_try_catch; [by_mono confined_ftp_size | confined_tac]. }
    apply confined_bind; [confined_tac | intros o].
    apply confined_bind; [confined_tac | intros _].
    apply confined_bind; [confined_tac | intros _].
    apply confined_bind; [|confined_tac].
    unfold retrbinary. apply confined_bind; [confined_tac | intros r].
    apply confined_bind; [by_mono confined_feed_chunks | confined_tac].
  - intros e. apply confined_bind; [|confined_tac].
    unfold remove_partial. apply confined_try_catch; [|confined_tac].
    apply confined_bind; [confined_tac | intros ex].
    destruct ex; confined_tac.
Qed.

Lemma confined_find_existing_remote_path (E : env) (ftp : FTP)
    (base_path : string) (date_obj : datetime) :
  confined nowhere net_or_day
    (find_existing_remote_path E ftp base_path date_obj).
Proof.
  unfold find_existing_remote_path.
  apply confined_bind; [confined_tac | intros _].
  by_mono confined_probe_candidates.
Qed.

Lemma confined_write_dummy (E : env) (local_path base_fname : string) :
  confined (at_path local_path) net_or_write
    (write_dummy E local_path base_fname).
Proof. unfold write_dummy. confined_tac. Qed.

Lemma confined_list_folder (E : env) (dt : datetime) (remote_path : string) :
  confined nowhere net_or_day (list_folder E dt remote_path).
Proof.
  unfold list_folder.
  apply confined_bind; [confined_tac | intros _].
  apply confined_try_catch; [|confined_tac].
  apply confined_try_catch; [by_mono confined_ftp_nlst | intros _].
  apply confined_try_catch; [|confined_tac].
  apply confined_bind; [by_mono confined_ftp_cwd | intros _].
  by_mono confined_ftp_nlst.
Qed.

(** The work on one file: the local path of the file and nothing else. *)
Lemma confined_attempt_file (E : env) (rq : request) (ftp : FTP)
    (dt : datetime) (remote_path base_fname : string)
    (acc : list string * list string) :
  confined (at_path (local_path_of rq dt base_fname)) not_day
    (attempt_file E rq ftp dt remote_path base_fname acc).
Proof.
  unfold attempt_file. destruct acc as [downloaded failed].
  apply confined_bind; [confined_tac | intros _].
  apply confined_bind; [confined_tac | intros ex].
  destruct ex; [confined_tac|].
  destruct (test_mode rq).
  - apply confined_try_catch; [|confined_tac].
    apply confined_bind; [by_mono confined_write_dummy | confined_tac].
  - apply confined_try_catch; [|confined_tac].
    apply confined_bind; [|intros ok; destruct ok; confined_tac].
    apply confined_try_catch.
    + apply confined_bind; [by_mono confined_ftp_cwd | intros _].
      by_mono confined_download_file_with_progress.
    + intros _. by_mono confined_download_file_with_progress.
Qed.

Lemma confined_file_loop (E : env) (rq : request) (ftp : FTP) (dt : datetime)
    (remote_path : string) (fnames : list string)
    (acc : list string * list string) :
  confined anywhere not_day (file_loop E rq ftp dt remote_path fnames acc).
Proof.
  revert acc. induction fnames as [|fname rest IH]; intros acc;
    cbn [file_loop]; [confined_tac|].
  apply confined_bind; [by_mono confined_cancel_requested | intros c].
  destruct c; [confined_tac|].
  destruct (negb _); [apply IH|].
  apply confined_bind; [by_mono confined_attempt_file | intros; apply IH].
Qed.

(** ** C7: each day at most once *)

Lemma resolved_days_app (evs tr : list event) :
  resolved_days (evs ++ tr) = resolved_days tr ++ resolved_days evs.
Proof.
  induction evs as [|e evs IH]; cbn; [now rewrite app_nil_r|].
  now rewrite IH, List.app_assoc.
Qed.

Lemma listed_days_app (evs tr : list event) :
  listed_days (evs ++ tr) = listed_days tr ++ listed_days evs.
Proof.
  induction evs as [|e evs IH]; cbn; [now rewrite app_nil_r|].
  now rewrite IH, List.app_assoc.
Qed.

Lemma no_day_events (evs : list event) :
  Forall (fun e => not_day (kind_of e) = true) evs ->
  resolved_days evs = [] /\ listed_days evs = [].
Proof.
  induction 1 as [|e evs He _ [IH1 IH2]]; [now split|].
  cbn. rewrite IH1, IH2. destruct e; cbn in He; try discriminate; now split.
Qed.

(** A computation without day events leaves both lists of days as they are. *)
Lemma days_unchanged {A} (S : string -> Prop) (K : kind -> bool) (m : M A)
    (w : world) :
  (forall k, K k = true -> not_day k = true) ->
  confined S K m ->
  resolved_days (trace (snd (m w))) = resolved_days (trace w) /\
  listed_days (trace (snd (m w))) = listed_days (trace w).
Proof.
  intros HK Hm. destruct (Hm w) as [_ (evs & -> & Hevs)].
  rewrite resolved_days_app, listed_days_app.
  destruct (no_day_events evs) as [-> ->].
  - eapply Forall_impl; [exact Hevs | auto].
  - now rewrite !app_nil_r.
Qed.

Lemma find_existing_remote_path_days (E : env) (ftp : FTP) (base_path : string)
    (dt : datetime) (w : world) :
  let w' := snd (find_existing_remote_path E ftp base_path dt w) in
  resolved_days (trace w') = resolved_days (trace w) ++ [date_key dt] /\
  listed_days (trace w') = listed_days (trace w).
Proof.
  unfold find_existing_remote_path. cbn zeta. rewrite !bind_emit.
  match goal with |- context [probe_candidates E ?l ?w0] =>
    destruct (days_unchanged nowhere net_only (probe_candidates E l) w0)
      as [-> ->] end.
  - now intros [].
  - apply confined_probe_candidates.
  - cbn. split; [reflexivity | apply app_nil_r].
Qed.

Lemma list_folder_days (E : env) (dt : datetime) (remote_path : string)
    (w : world) :
  let w' := snd (list_folder E dt remote_path w) in
  resolved_days (trace w') = resolved_days (trace w) /\
  listed_days (trace w') = listed_days (trace w) ++ [date_key dt].
Proof.
  unfold list_folder. cbn zeta. rewrite !bind_emit.
  match goal with |- context [try_catch ?m ?h ?w0] =>
    destruct (days_unchanged nowhere net_only (try_catch m h) w0) as [-> ->] end.
  - now intros [].
  - apply confined_try_catch; [|confined_tac].
    apply confined_try_catch; [apply confined_ftp_nlst | intros _].
    apply confined_try_catch; [|confined_tac].
    apply confined_bind; [apply confined_ftp_cwd | intros _].
    apply confined_ftp_nlst.
  - cbn. split; [apply app_nil_r | reflexivity].
Qed.

(** The invariant of the main loop: the days resolved so far are in
    [dates_seen], and each day was handled at most once. *)
Lemma main_loop_days_once (E : env) (rq : request) (ftp : FTP)
    (wanted : list datetime) :
  forall (dates_seen : gset (Z * Z * Z)) (acc : list string * list string)
         (w : world),
    days_once (trace w) ->
    (forall k, k ∈ resolved_days (trace w) -> k ∈ dates_seen) ->
    days_once (trace (snd (main_loop E rq ftp wanted dates_seen acc w))).
Proof.
  induction wanted as [|dt rest IH]; intros seen acc w Honce Hseen;
    cbn [main_loop]; [exact Honce|].
  unfold bind at 1, cancel_requested at 1, ask at 1. cbn beta iota.
  set (w1 := mk_world (S (now w)) (files w) (trace w)).
  destruct (cancel_at E (now w)); [exact Honce|].
  destruct (decide (date_key dt ∈ seen)) as [Hin|Hnew].
  { apply IH; assumption. }
  pose proof (find_existing_remote_path_days E ftp (remote_dir_base rq) dt w1)
    as [Hres Hlst].
  cbn zeta in Hres, Hlst. unfold bind at 1.
  destruct (find_existing_remote_path E ftp (remote_dir_base rq) dt w1)
    as [[found|e] w2]; cbn [snd] in Hres, Hlst.
  2: { cbn [snd]. destruct Honce as (H1 & H2 & H3). repeat split.
       - rewrite Hres. apply NoDup_app. repeat split; auto.
         + intros k Hk Hk'. apply list_elem_of_singleton in Hk' as ->.
           apply Hnew, Hseen, Hk.
         + apply NoDup_singleton.
       - now rewrite Hlst.
       - intros k. rewrite Hlst, Hres, elem_of_app. auto. }
  assert (Honce2 : days_once (trace w2)).
  { destruct Honce as (H1 & H2 & H3). repeat split.
    - rewrite Hres. apply NoDup_app. repeat split; auto.
      + intros k Hk Hk'. apply list_elem_of_singleton in Hk' as ->.
        apply Hnew, Hseen, Hk.
      + apply NoDup_singleton.
    - now rewrite Hlst.
    - intros k. rewrite Hlst, Hres, elem_of_app. auto. }
  assert (Hseen2 : forall k, k ∈ resolved_days (trace w2) ->
                             k ∈ ({[date_key dt]} ∪ seen : gset (Z * Z * Z))).
  { intros k. rewrite Hres, elem_of_app, list_elem_of_singleton.
    intros [Hk | ->]; [apply elem_of_union_r, Hseen, Hk|].
    apply elem_of_union_l, elem_of_singleton. reflexivity. }
  assert (Hfresh : date_key dt ∉ listed_days (trace w2)).
  { rewrite Hlst. intros Hk. destruct Honce as (_ & _ & H3).
    apply Hnew, Hseen, H3, Hk. }
  destruct found as [[|c remote_path]|]; [now apply IH | | now apply IH].
  pose proof (list_folder_days E dt (String c remote_path) w2) as [Hres3 Hlst3].
  cbn zeta in Hres3, Hlst3. unfold bind at 1.
  destruct (list_folder E dt (String c remote_path) w2) as [[fnames|e] w3];
    cbn [snd] in Hres3, Hlst3.
  2: { cbn [snd]. destruct Honce2 as (H1 & H2 & H3). repeat split.
       - now rewrite Hres3.
       - rewrite Hlst3. apply NoDup_app. repeat split; auto.
         + intros k Hk Hk'. apply list_elem_of_singleton in Hk' as ->. auto.
         + apply NoDup_singleton.
       - intros k. rewrite Hlst3, Hres3, elem_of_app, list_elem_of_singleton.
         intros [Hk | ->]; [auto|]. rewrite Hres, elem_of_app.
         right. now apply list_elem_of_singleton. }
  assert (Honce3 : days_once (trace w3)).
  { destruct Honce2 as (H1 & H2 & H3). repeat split.
    - now rewrite Hres3.
    - rewrite Hlst3. apply NoDup_app. repeat split; auto.
      + intros k Hk Hk'. apply list_elem_of_singleton in Hk' as ->. auto.
      + apply NoDup_singleton.
    - intros k. rewrite Hlst3, Hres3, elem_of_app, list_elem_of_singleton.
      intros [Hk | ->]; [auto|]. rewrite Hres, elem_of_app.
      right. now apply list_elem_of_singleton. }
  destruct (days_unchanged anywhere not_day
              (file_loop E rq ftp dt (String c remote_path) fnames acc) w3)
    as [Hres4 Hlst4]; [auto | apply confined_file_loop |].
  unfold bind at 1.
  destruct (file_loop E rq ftp dt (String c remote_path) fnames acc w3)
    as [[acc'|e] w4]; cbn [snd] in Hres4, Hlst4.
  - apply IH.
    + unfold days_once. rewrite Hres4, Hlst4. exact Honce3.
    + intros k. rewrite Hres4, Hres3. apply Hseen2.
  - cbn [snd]. unfold days_once. rewrite Hres4, Hlst4. exact Honce3.
Qed.

(** Without a cancel request, a run of the main loop that ends normally
    has resolved every day of its list. *)
Lemma main_loop_resolves_all (E : env) (rq : request) (ftp : FTP)
    (wanted : list datetime) :
  (forall t, cancel_at E t = false) ->
  forall (dates_seen : gset (Z * Z * Z)) (acc : list string * list string)
         (w : world) (r : list string * list string) (w' : world),
    (forall k, k ∈ dates_seen -> k ∈ resolved_days (trace w)) ->
    main_loop E rq ftp wanted dates_seen acc w = (Ok r, w') ->
    (forall k, k ∈ resolved_days (trace w) -> k ∈ resolved_days (trace w')) /\
    (forall dt, dt ∈ wanted -> date_key dt ∈ resolved_days (trace w')).
Proof.
  intros Hnc. induction wanted as [|dt rest IH];
    intros seen acc w r w' Hseen Hrun; cbn [main_loop] in Hrun.
  { injection Hrun as _ <-.
    split; [auto | intros dt Hdt; now apply elem_of_nil in Hdt]. }
  unfold bind at 1, cancel_requested at 1, ask at 1 in Hrun.
  cbn beta iota in Hrun. rewrite Hnc in Hrun.
  set (w1 := mk_world (S (now w)) (files w) (trace w)) in Hrun.
  destruct (decide (date_key dt ∈ seen)) as [Hin|Hnew].
  { destruct (IH seen acc w1 r w' Hseen Hrun) as [Hmono Hall].
    split; [exact Hmono|]. intros d Hd. apply elem_of_cons in Hd as [-> | Hd].
    - apply Hmono, Hseen, Hin.
    - now apply Hall. }
  pose proof (find_existing_remote_path_days E ftp (remote_dir_base rq) dt w1)
    as [Hres _]. cbn zeta in Hres.
  unfold bind at 1 in Hrun.
  destruct (find_existing_remote_path E ftp (remote_dir_base rq) dt w1)
    as [[found|e] w2]; cbn [snd] in Hres; [|discriminate].
  assert (Hseen2 : forall k, k ∈ ({[date_key dt]} ∪ seen : gset (Z * Z * Z)) ->
                             k ∈ resolved_days (trace w2)).
  { intros k. rewrite Hres, elem_of_union, elem_of_singleton, elem_of_app,
      list_elem_of_singleton. intros [-> | Hk]; [now right | left; auto]. }
  assert (Hstep :
    (forall k, k ∈ resolved_days (trace w2) -> k ∈ resolved_days (trace w')) /\
    (forall d, d ∈ rest -> date_key d ∈ resolved_days (trace w')) ->
    (forall k, k ∈ resolved_days (trace w) -> k ∈ resolved_days (trace w')) /\
    (forall d, d ∈ dt :: rest -> date_key d ∈ resolved_days (trace w'))).
  { intros [Hmono Hall]. split.
    - intros k Hk. apply Hmono. rewrite Hres, elem_of_app. now left.
    - intros d Hd. apply elem_of_cons in Hd as [-> | Hd]; [|now apply Hall].
      apply Hmono. rewrite Hres, elem_of_app. right.
      now apply list_elem_of_singleton. }
  destruct found as [[|c remote_path]|].
  - apply Hstep. eapply IH; eassumption.
  - pose proof (list_folder_days E dt (String c remote_path) w2) as [Hres3 _].
    cbn zeta in Hres3. unfold bind at 1 in Hrun.
    destruct (list_folder E dt (String c remote_path) w2) as [[fnames|e] w3];
      cbn [snd] in Hres3; [|discriminate].
    destruct (days_unchanged anywhere not_day
                (file_loop E rq ftp dt (String c remote_path) fnames acc) w3)
      as [Hres4 _]; [auto | apply confined_file_loop |].
    unfold bind at 1 in Hrun.
    destruct (file_loop E rq ftp dt (String c remote_path) fnames acc w3)
      as [[acc'|e] w4]; cbn [snd] in Hres4; [|discriminate].
    destruct (IH ({[date_key dt]} ∪ seen) acc' w4 r w') as [Hmono Hall].
    + intros k Hk. rewrite Hres4, Hres3. now apply Hseen2.
    + exact Hrun.
    + apply Hstep. split; [|exact Hall].
      intros k Hk. apply Hmono. now rewrite Hres4, Hres3.
  - apply Hstep. eapply IH; eassumption.
Qed.

(** ** The shape of a run *)

Lemma quit_quietly_ok (E : env) (w : world) :
  quit_quietly E w = (Ok tt, snd (quit_quietly E w)).
Proof.
  unfold quit_quietly, try_catch, ftp_quit, bind, ask, emit, lift_error, ret.
  cbn. destruct (quit_at E (now w)); reflexivity.
Qed.

Lemma confined_quit_quietly (E : env) : confined nowhere net_only (quit_quietly E).
Proof.
  unfold quit_quietly.
  apply confined_try_catch; [apply confined_ftp_quit | confined_tac].
Qed.

Lemma download_files_by_prefix_run (E : env) (rq : request) (w : world)
    (r : result (list string * list string)) (w' : world) :
  download_files_by_prefix E rq w = (r, w') -> run_of E rq w r w'.
Proof.
  unfold download_files_by_prefix. unfold bind at 1.
  destruct (ftp_connect E (host rq) (user rq) (passwd rq) (port rq)
                        (retries rq) 2 w) as [[ftp|e] w0] eqn:Hc.
  2: { intros H. injection H as <- <-. now apply run_no_connection. }
  unfold bind at 1, lift_result at 1.
  destruct (wanted_dt_list _ _ _ _ _ _ _) as [wanted|e] eqn:Hw.
  2: { intros H. injection H as <- <-. eapply run_bad_window; eassumption. }
  destruct wanted as [|dt0 rest].
  - unfold bind at 1. rewrite quit_quietly_ok. unfold ret.
    intros H. injection H as <- <-. eapply run_empty_window; eassumption.
  - unfold bind at 1.
    destruct (main_loop E rq ftp (dt0 :: rest) ∅ ([], []) w0)
      as [[acc|e] w1] eqn:Hml.
    + unfold bind at 1. rewrite quit_quietly_ok. unfold ret.
      intros H. injection H as <- <-. eapply run_loop_returns; eassumption.
    + intros H. injection H as <- <-. eapply run_loop_raises; eassumption.
Qed.

Lemma days_once_nil_like (tr : list event) :
  resolved_days tr = [] -> listed_days tr = [] -> days_once tr.
Proof.
  intros H1 H2. unfold days_once. rewrite H1, H2.
  repeat split; auto using NoDup_nil_2.
Qed.

(** C7. In a run of [download_files_by_prefix] no calendar day is resolved
    twice and none is listed twice, however many timestamps of the window
    fall on it; only resolved days are listed. When nobody cancels and the
    run ends normally, every day of the expanded window is resolved, so
    exactly once. (The listing step of a day may send a second [NLST]
    after a failed first one.) *)
Theorem each_day_at_most_once (E : env) (rq : request) (fs : gmap string string) :
  let run := download_files_by_prefix E rq (init_world fs) in
  days_once (trace (snd run)) /\
  ((forall t, cancel_at E t = false) ->
   is_ok (fst run) = true ->
   forall wanted dt,
     wanted_dt_list (start_dt rq) (end_dt rq) (start_hour rq) (start_min rq)
                    (end_hour rq) (end_min rq) (step_minutes rq) = Ok wanted ->
     dt ∈ wanted ->
     date_key dt ∈ resolved_days (trace (snd run))).
Proof.
  cbn zeta.
  destruct (download_files_by_prefix E rq (init_world fs)) as [r w'] eqn:Hrun.
  apply download_files_by_prefix_run in Hrun. cbn [fst snd].
  assert (Hconn : forall (ftp : FTP) w0 e,
    ftp_connect E (host rq) (user rq) (passwd rq) (port rq) (retries rq) 2
      (init_world fs) = (e, w0) ->
    resolved_days (trace w0) = [] /\ listed_days (trace w0) = []).
  { intros _ w0 e Hc.
    destruct (days_unchanged nowhere net_only
                (ftp_connect E (host rq) (user rq) (passwd rq) (port rq)
                             (retries rq) 2) (init_world fs))
      as [H1 H2]; [now intros [] | apply confined_ftp_connect |].
    rewrite Hc in H1, H2. now split. }
  assert (Hquit : forall w1,
    resolved_days (trace (snd (quit_quietly E w1))) = resolved_days (trace w1) /\
    listed_days (trace (snd (quit_quietly E w1))) = listed_days (trace w1)).
  { intros w1. apply (days_unchanged nowhere net_only); [now intros []|].
    apply confined_quit_quietly. }
  destruct Hrun as [e w0 Hc | ftp w0 e Hc Hw | ftp w0 Hc Hw
                   | ftp w0 wanted e w1 Hc Hw Hml | ftp w0 wanted acc w1 Hc Hw Hml].
  - destruct (Hconn FTP_new _ _ Hc). split; [now apply days_once_nil_like|].
    discriminate.
  - destruct (Hconn ftp _ _ Hc). split; [now apply days_once_nil_like|].
    discriminate.
  - destruct (Hconn ftp _ _ Hc) as [H1 H2]. destruct (Hquit w0) as [Hr Hl].
    split; [apply days_once_nil_like; congruence|].
    intros _ _ wanted dt Heq Hdt. rewrite Hw in Heq. injection Heq as <-.
    now apply elem_of_nil in Hdt.
  - destruct (Hconn ftp _ _ Hc) as [H1 H2]. split; [|discriminate].
    pose proof (main_loop_days_once E rq ftp wanted ∅ ([], []) w0) as Honce.
    rewrite Hml in Honce. apply Honce; [now apply days_once_nil_like|].
    rewrite H1. intros k Hk. now apply elem_of_nil in Hk.
  - destruct (Hconn ftp _ _ Hc) as [H1 H2]. destruct (Hquit w1) as [Hr Hl].
    split.
    + unfold days_once. rewrite Hr, Hl.
      pose proof (main_loop_days_once E rq ftp wanted ∅ ([], []) w0) as Honce.
      rewrite Hml in Honce. apply Honce; [now apply days_once_nil_like|].
      rewrite H1. intros k Hk. now apply elem_of_nil in Hk.
    + intros Hnc _ wanted' dt Heq Hdt. rewrite Hw in Heq. injection Heq as <-.
      rewrite Hr.
      destruct (main_loop_resolves_all E rq ftp wanted Hnc ∅ ([], []) w0 acc w1)
        as [_ Hall]; [|exact Hml | now apply Hall].
      intros k Hk. now apply elem_of_empty in Hk.
Qed.

(** ** C6: the two collections account for the attempts *)

Lemma attempts_app (evs tr : list event) :
  attempts (evs ++ tr) = attempts tr ++ attempts evs.
Proof.
  induction evs as [|e evs IH]; cbn; [now rewrite app_nil_r|].
  now rewrite IH, List.app_assoc.
Qed.

Lemma no_attempt_events (evs : list event) :
  Forall (fun e => not_attempt (kind_of e) = true) evs -> attempts evs = [].
Proof.
  induction 1 as [|e evs He _ IH]; [reflexivity|].
  cbn. rewrite IH. destruct e; cbn in He; try discriminate; reflexivity.
Qed.

(** A computation without attempt events leaves the attempts as they are. *)
Lemma attempts_unchanged {A} (S : string -> Prop) (K : kind -> bool) (m : M A)
    (w : world) :
  (forall k, K k = true -> not_attempt k = true) ->
  confined S K m ->
  attempts (trace (snd (m w))) = attempts (trace w).
Proof.
  intros HK Hm. destruct (Hm w) as [_ (evs & -> & Hevs)].
  rewrite attempts_app, (no_attempt_events evs); [apply app_nil_r|].
  eapply Forall_impl; [exact Hevs | auto].
Qed.

(** The body of [attempt_file] after the existence test, in test mode. *)
Lemma attempt_dummy_outcome (E : env) (local_path base_fname : string)
    (yes no : list string * list string) (w : world) :
  exists r w',
    try_catch (write_dummy E local_path base_fname ;;; ret yes)
              (fun _ => ret no) w = (Ok r, w') /\
    (r = yes \/ r = no) /\
    attempts (trace w') = attempts (trace w).
Proof.
  pose proof (attempts_unchanged (at_path local_path) net_or_write
                (write_dummy E local_path base_fname) w) as Hatt.
  unfold try_catch, bind, ret.
  destruct (write_dummy E local_path base_fname w) as [[[]|e] w1];
    cbn [snd] in Hatt; do 2 eexists; (split; [reflexivity|]);
    (split; [auto | apply Hatt; [now intros [] | apply confined_write_dummy]]).
Qed.

(** The same, with a real transfer. *)
Lemma attempt_transfer_outcome (E : env) (ftp : FTP)
    (remote_path base_fname local_path : string)
    (yes no : list string * list string) (w : world) :
  exists r w',
    try_catch
      (ok <- try_catch
               (ftp_cwd E remote_path ;;;
                download_file_with_progress E ftp base_fname local_path)
               (fun _ =>
                  download_file_with_progress E ftp
                    (rstrip_slash remote_path +:+ "/" +:+ base_fname)
                    local_path) ;;
       if ok : bool then ret yes else ret no)
      (fun _ => ret no) w = (Ok r, w') /\
    (r = yes \/ r = no) /\
    attempts (trace w') = attempts (trace w).
Proof.
  match goal with |- context [bind ?m _] =>
    pose proof (attempts_unchanged (at_path local_path) net_or_write m w) as Hatt;
    unfold try_catch at 1, bind at 1; destruct (m w) as [[[]|e] w1]
  end; cbn [snd] in Hatt; unfold ret; do 2 eexists; (split; [reflexivity|]);
    (split; [auto|]); apply Hatt; try (now intros []);
    (apply confined_try_catch;
     [ apply confined_bind; [by_mono confined_ftp_cwd | intros _];
       apply confined_download_file_with_progress
     | intros _; apply confined_download_file_with_progress ]).
Qed.

(** One attempt: it never raises, it is logged once, and it adds one entry
    to exactly one of the two collections. *)
Lemma attempt_file_outcome (E : env) (rq : request) (ftp : FTP) (dt : datetime)
    (remote_path base_fname : string) (downloaded failed : list string)
    (w : world) :
  let a := mk_attempt remote_path base_fname (local_path_of rq dt base_fname) in
  exists r w',
    attempt_file E rq ftp dt remote_path base_fname (downloaded, failed) w
      = (Ok r, w') /\
    (r = (downloaded ++ [att_local_path a], failed) \/
     r = (downloaded, failed ++ [att_remote_id a])) /\
    attempts (trace w') = attempts (trace w) ++ [a].
Proof.
  cbn zeta. unfold attempt_file. rewrite bind_emit.
  set (w0 := mk_world (now w) (files w) (_ :: trace w)).
  assert (Hw0 : attempts (trace w0) =
                attempts (trace w) ++
                [mk_attempt remote_path base_fname (local_path_of rq dt base_fname)])
    by reflexivity.
  unfold bind at 1, path_exists at 1. cbn beta iota.
  case_bool_decide.
  - do 2 eexists. unfold ret. split; [reflexivity|].
    split; [now left | exact Hw0].
  - destruct (test_mode rq).
    + destruct (attempt_dummy_outcome E (local_path_of rq dt base_fname) base_fname
                  (downloaded ++ [local_path_of rq dt base_fname], failed)
                  (downloaded, failed ++ [remote_id remote_path base_fname]) w0)
        as (r & w' & Heq & Hr & Hatt).
      exists r, w'. rewrite Hatt, Hw0. repeat split; assumption.
    + destruct (attempt_transfer_outcome E ftp remote_path base_fname
                  (local_path_of rq dt base_fname)
                  (downloaded ++ [local_path_of rq dt base_fname], failed)
                  (downloaded, failed ++ [remote_id remote_path base_fname]) w0)
        as (r & w' & Heq & Hr & Hatt).
      exists r, w'. rewrite Hatt, Hw0. repeat split; assumption.
Qed.

Lemma file_loop_accounted (E : env) (rq : request) (ftp : FTP) (dt : datetime)
    (remote_path : string) (fnames : list string) :
  forall (downloaded failed : list string) (w : world),
    accounted (attempts (trace w)) downloaded failed ->
    exists downloaded' failed' w',
      file_loop E rq ftp dt remote_path fnames (downloaded, failed) w
        = (Ok (downloaded', failed'), w') /\
      accounted (attempts (trace w')) downloaded' failed'.
Proof.
  induction fnames as [|fname rest IH]; intros downloaded failed w Hacc;
    cbn [file_loop].
  { exists downloaded, failed, w. now split. }
  unfold bind at 1, cancel_requested at 1, ask at 1. cbn beta iota.
  set (w1 := mk_world (S (now w)) (files w) (trace w)).
  destruct (cancel_at E (now w)).
  { exists downloaded, failed, w1. now split. }
  destruct (negb _); [now apply IH|].
  destruct (attempt_file_outcome E rq ftp dt remote_path (basename fname)
              downloaded failed w1) as (r & w2 & Heq & Hr & Hatt).
  unfold bind at 1. rewrite Heq.
  destruct Hr as [-> | ->]; apply IH; rewrite Hatt; now constructor.
Qed.

Lemma try_catch_ret_ok {A} (m : M A) (a : A) (w : world) :
  exists r, try_catch m (fun _ => ret a) w = (Ok r, snd (m w)).
Proof.
  unfold try_catch, ret. destruct (m w) as [[r|e] w1]; cbn; eauto.
Qed.

Lemma probe_candidates_ok (E : env) (candidates : list string) (w : world) :
  exists found,
    probe_candidates E candidates w =
      (Ok found, snd (probe_candidates E candidates w)).
Proof.
  revert w. induction candidates as [|c rest IH]; intros w;
    cbn [probe_candidates]; [now exists None|].
  unfold try_catch.
  match goal with |- context [bind ?m ?k w] => destruct (bind m k w) as [[r|e] w1] end.
  - now exists r.
  - apply IH.
Qed.

Lemma find_existing_remote_path_ok (E : env) (ftp : FTP) (base_path : string)
    (dt : datetime) (w : world) :
  exists found,
    find_existing_remote_path E ftp base_path dt w =
      (Ok found, snd (find_existing_remote_path E ftp base_path dt w)).
Proof.
  unfold find_existing_remote_path. rewrite bind_emit. apply probe_candidates_ok.
Qed.

Lemma list_folder_ok (E : env) (dt : datetime) (remote_path : string) (w : world) :
  exists fnames,
    list_folder E dt remote_path w =
      (Ok fnames, snd (list_folder E dt remote_path w)).
Proof.
  unfold list_folder. rewrite bind_emit.
  match goal with |- context [try_catch ?m _ ?w0] =>
    destruct (try_catch_ret_ok m [] w0) as [r Hr] end.
  exists r. rewrite Hr at 1. f_equal. now rewrite Hr.
Qed.

(** The main loop never raises, and its two collections account for the
    attempts made so far. *)
Lemma main_loop_accounted (E : env) (rq : request) (ftp : FTP)
    (wanted : list datetime) :
  forall (dates_seen : gset (Z * Z * Z)) (downloaded failed : list string)
         (w : world),
    accounted (attempts (trace w)) downloaded failed ->
    exists downloaded' failed' w',
      main_loop E rq ftp wanted dates_seen (downloaded, failed) w
        = (Ok (downloaded', failed'), w') /\
      accounted (attempts (trace w')) downloaded' failed'.
Proof.
  induction wanted as [|dt rest IH]; intros seen downloaded failed w Hacc;
    cbn [main_loop].
  { exists downloaded, failed, w. now split. }
  unfold bind at 1, cancel_requested at 1, ask at 1. cbn beta iota.
  set (w1 := mk_world (S (now w)) (files w) (trace w)).
  destruct (cancel_at E (now w)).
  { exists downloaded, failed, w1. now split. }
  destruct (decide (date_key dt ∈ seen)); [now apply IH|].
  destruct (find_existing_remote_path_ok E ftp (remote_dir_base rq) dt w1)
    as [found Hf].
  pose proof (attempts_unchanged nowhere net_or_day
                (find_existing_remote_path E ftp (remote_dir_base rq) dt) w1)
    as Hatt2.
  unfold bind at 1. rewrite Hf.
  set (w2 := snd (find_existing_remote_path E ftp (remote_dir_base rq) dt w1)) in *.
  assert (Hacc2 : accounted (attempts (trace w2)) downloaded failed).
  { rewrite Hatt2; [exact Hacc | now intros [] |].
    apply confined_find_existing_remote_path. }
  destruct found as [[|c remote_path]|]; [now apply IH | | now apply IH].
  destruct (list_folder_ok E dt (String c remote_path) w2) as [fnames Hl].
  pose proof (attempts_unchanged nowhere net_or_day
                (list_folder E dt (String c remote_path)) w2) as Hatt3.
  unfold bind at 1. rewrite Hl.
  set (w3 := snd (list_folder E dt (String c remote_path) w2)) in *.
  assert (Hacc3 : accounted (attempts (trace w3)) downloaded failed).
  { rewrite Hatt3; [exact Hacc2 | now intros [] | apply confined_list_folder]. }
  destruct (file_loop_accounted E rq ftp dt (String c remote_path) fnames
              downloaded failed w3 Hacc3) as (d4 & f4 & w4 & Heq4 & Hacc4).
  unfold bind at 1. rewrite Heq4. now apply IH.
Qed.

Lemma accounted_length (atts : list attempt) (downloaded failed : list string) :
  accounted atts downloaded failed ->
  (length downloaded + length failed = length atts)%nat.
Proof.
  induction 1; cbn; rewrite ?length_app; cbn; lia.
Qed.


(** ** C5: existing files are skipped *)

Lemma files_unchanged {A} (K : kind -> bool) (m : M A) (w : world) :
  confined nowhere K m -> files (snd (m w)) = files w.
Proof.
  intros Hm. destruct (Hm w) as [Hf _]. apply map_eq. intros p.
  apply Hf. now intros [].
Qed.

Lemma writes_app (evs tr : list event) : writes (evs ++ tr) = writes evs ++ writes tr.
Proof. apply List.filter_app. Qed.

Lemma no_write_events (evs : list event) :
  Forall (fun e => not_write (kind_of e) = true) evs -> writes evs = [].
Proof.
  induction 1 as [|e evs He _ IH]; [reflexivity|].
  unfold writes in *. cbn. rewrite IH.
  destruct (kind_of e); cbn in He; try discriminate; reflexivity.
Qed.

Lemma writes_unchanged {A} (S : string -> Prop) (K : kind -> bool) (m : M A)
    (w : world) :
  (forall k, K k = true -> not_write k = true) ->
  confined S K m ->
  writes (trace (snd (m w))) = writes (trace w).
Proof.
  intros HK Hm. destruct (Hm w) as [_ (evs & -> & Hevs)].
  rewrite writes_app, (no_write_events evs); [reflexivity|].
  eapply Forall_impl; [exact Hevs | auto].
Qed.

(** A matching file whose local path exists: recorded as a success, and
    nothing else happens but the note of the attempt. *)
Lemma attempt_file_existing (E : env) (rq : request) (ftp : FTP) (dt : datetime)
    (remote_path base_fname : string) (downloaded failed : list string)
    (w : world) :
  is_Some (files w !! local_path_of rq dt base_fname) ->
  attempt_file E rq ftp dt remote_path base_fname (downloaded, failed) w =
    (Ok (downloaded ++ [local_path_of rq dt base_fname], failed),
     mk_world (now w) (files w)
       (EvAttempt remote_path base_fname (local_path_of rq dt base_fname)
          :: trace w)).
Proof.
  intros Hex. unfold attempt_file. rewrite bind_emit.
  unfold bind, path_exists, ret. cbn.
  now rewrite bool_decide_eq_true_2.
Qed.

Lemma keeps_files_refl (w : world) : keeps_files w w.
Proof. intros p c H. exact H. Qed.

Lemma keeps_files_trans (w1 w2 w3 : world) :
  keeps_files w1 w2 -> keeps_files w2 w3 -> keeps_files w1 w3.
Proof. intros H1 H2 p c H. apply H2, H1, H. Qed.

Lemma keeps_files_changes_only (S : string -> Prop) (K : kind -> bool)
    (w w' : world) :
  changes_only S K w w' -> (forall p, S p -> files w !! p = None) ->
  keeps_files w w'.
Proof.
  intros [Hf _] HS p c Hp. rewrite Hf; [exact Hp|].
  intros Hin. rewrite (HS p Hin) in Hp. discriminate.
Qed.

Lemma keeping_ret {A} (a : A) : keeping (ret a).
Proof. intros w. apply keeps_files_refl. Qed.

Lemma keeping_confined {A} (K : kind -> bool) (m : M A) :
  confined nowhere K m -> keeping m.
Proof.
  intros Hm w. eapply keeps_files_changes_only; [apply Hm | now intros p []].
Qed.

Lemma keeping_bind {A B} (m : M A) (k : A -> M B) :
  keeping m -> (forall a, keeping (k a)) -> keeping (bind m k).
Proof.
  intros Hm Hk w. unfold bind. specialize (Hm w).
  destruct (m w) as [[a|e] w1]; cbn in *; [|assumption].
  eapply keeps_files_trans; [exact Hm | apply Hk].
Qed.

Lemma keeping_attempt_file (E : env) (rq : request) (ftp : FTP) (dt : datetime)
    (remote_path base_fname : string) (acc : list string * list string) :
  keeping (attempt_file E rq ftp dt remote_path base_fname acc).
Proof.
  intros w. destruct (files w !! local_path_of rq dt base_fname) as [c|] eqn:Hl.
  - destruct acc as [downloaded failed].
    rewrite attempt_file_existing by (rewrite Hl; eauto).
    intros p c' Hp. exact Hp.
  - eapply keeps_files_changes_only; [apply confined_attempt_file|].
    intros p ->. exact Hl.
Qed.

Lemma keeping_file_loop (E : env) (rq : request) (ftp : FTP) (dt : datetime)
    (remote_path : string) (fnames : list string)
    (acc : list string * list string) :
  keeping (file_loop E rq ftp dt remote_path fnames acc).
Proof.
  revert acc. induction fnames as [|fname rest IH]; intros acc;
    cbn [file_loop]; [apply keeping_ret|].
  apply keeping_bind;
    [apply (keeping_confined net_only), confined_cancel_requested | intros c].
  destruct c; [apply keeping_ret|].
  destruct (negb _); [apply IH|].
  apply keeping_bind; [apply keeping_attempt_file | intros; apply IH].
Qed.

Lemma keeping_main_loop (E : env) (rq : request) (ftp : FTP)
    (wanted : list datetime) (dates_seen : gset (Z * Z * Z))
    (acc : list string * list string) :
  keeping (main_loop E rq ftp wanted dates_seen acc).
Proof.
  revert dates_seen acc. induction wanted as [|dt rest IH]; intros seen acc;
    cbn [main_loop]; [apply keeping_ret|].
  apply keeping_bind;
    [apply (keeping_confined net_only), confined_cancel_requested | intros c].
  destruct c; [apply keeping_ret|].
  destruct (decide _); [apply IH|].
  apply keeping_bind;
    [apply (keeping_confined net_or_day), confined_find_existing_remote_path
    | intros found].
  destruct found as [[|c remote_path]|]; [apply IH | | apply IH].
  apply keeping_bind;
    [apply (keeping_confined net_or_day), confined_list_folder | intros fnames].
  apply keeping_bind; [apply keeping_file_loop | intros; apply IH].
Qed.

Lemma keeping_download_files_by_prefix (E : env) (rq : request) :
  keeping (download_files_by_prefix E rq).
Proof.
  unfold download_files_by_prefix.
  apply keeping_bind;
    [apply (keeping_confined net_only), confined_ftp_connect | intros ftp].
  apply keeping_bind;
    [apply (keeping_confined net_only), confined_lift_result | intros wanted].
  destruct wanted.
  - apply keeping_bind;
      [apply (keeping_confined net_only), confined_quit_quietly | intros].
    apply keeping_ret.
  - apply keeping_bind; [apply keeping_main_loop | intros r].
    apply keeping_bind;
      [apply (keeping_confined net_only), confined_quit_quietly | intros].
    apply keeping_ret.
Qed.

(** The names [list_folder] returns are a reply of the server to [NLST],
    or there are none. *)
Lemma list_folder_names (E : env) (dt : datetime) (remote_path : string)
    (w : world) (fnames : list string) (w' : world) :
  list_folder E dt remote_path w = (Ok fnames, w') ->
  fnames = [] \/ exists t arg, nlst_at E t arg = Ok fnames.
Proof.
  unfold list_folder. rewrite bind_emit.
  unfold try_catch, ftp_nlst, ftp_cwd, bind, ask, emit, lift_result,
    lift_error, ret. cbn.
  destruct (nlst_at E (now w) (Some remote_path)) as [names|e] eqn:H1; cbn.
  { intros H. injection H as <- _. right. eauto. }
  destruct (cwd_at E (S (now w)) remote_path) as [e'|]; cbn.
  { intros H. injection H as <- _. now left. }
  destruct (nlst_at E (S (S (now w))) None) as [names|e''] eqn:H2; cbn.
  - intros H. injection H as <- _. right. eauto.
  - intros H. injection H as <- _. now left.
Qed.

Lemma attempts_local_snoc (tr : list event) (remote_path base_fname local : string)
    (downloaded : list string) :
  downloaded = map att_local_path (attempts tr) ->
  downloaded ++ [local] =
    map att_local_path (attempts (EvAttempt remote_path base_fname local :: tr)).
Proof. intros ->. cbn. now rewrite map_app. Qed.

(** Over files that are all there already, the inner loop only records. *)
Lemma file_loop_populated (E : env) (rq : request) (ftp : FTP) (dt : datetime)
    (remote_path : string) (fnames : list string) :
  forall (downloaded : list string) (w : world),
    (forall fname, fname ∈ fnames ->
       matches_station_file (basename fname) (station_id rq) = true ->
       is_Some (files w !! local_path_of rq dt (basename fname))) ->
    downloaded = map att_local_path (attempts (trace w)) ->
    exists w',
      file_loop E rq ftp dt remote_path fnames (downloaded, []) w =
        (Ok (map att_local_path (attempts (trace w')), []), w') /\
      files w' = files w /\ writes (trace w') = writes (trace w).
Proof.
  induction fnames as [|fname rest IH]; intros downloaded w Hthere Hd;
    cbn [file_loop].
  { exists w. now rewrite Hd. }
  unfold bind at 1, cancel_requested at 1, ask at 1. cbn beta iota.
  set (w1 := mk_world (S (now w)) (files w) (trace w)).
  destruct (cancel_at E (now w)).
  { exists w1. now rewrite Hd. }
  assert (Hrest : forall f, f ∈ rest ->
            matches_station_file (basename f) (station_id rq) = true ->
            is_Some (files w !! local_path_of rq dt (basename f))).
  { intros f Hf. apply Hthere. now right. }
  destruct (matches_station_file (basename fname) (station_id rq)) eqn:Hm;
    cbn [negb].
  - unfold bind at 1.
    rewrite attempt_file_existing by (apply Hthere; [left | exact Hm]).
    cbn [files now trace].
    match goal with |- context [file_loop _ _ _ _ _ _ _ ?w2] =>
      destruct (IH (downloaded ++ [local_path_of rq dt (basename fname)]) w2)
        as (w' & Heq & Hf & Hw) end.
    + exact Hrest.
    + now apply attempts_local_snoc.
    + exists w'. split; [exact Heq|]. split; [exact Hf | exact Hw].
  - destruct (IH downloaded w1 Hrest Hd) as (w' & Heq & Hf & Hw).
    exists w'. split; [exact Heq|]. split; [exact Hf | exact Hw].
Qed.

(** The same for the main loop. *)
Lemma main_loop_populated (E : env) (rq : request) (ftp : FTP)
    (fs : gmap string string) (wanted : list datetime) :
  (forall dt t arg names fname,
     dt ∈ wanted -> nlst_at E t arg = Ok names -> fname ∈ names ->
     matches_station_file (basename fname) (station_id rq) = true ->
     is_Some (fs !! local_path_of rq dt (basename fname))) ->
  forall (dates_seen : gset (Z * Z * Z)) (downloaded : list string) (w : world),
    files w = fs ->
    downloaded = map att_local_path (attempts (trace w)) ->
    exists w',
      main_loop E rq ftp wanted dates_seen (downloaded, []) w =
        (Ok (map att_local_path (attempts (trace w')), []), w') /\
      files w' = fs /\ writes (trace w') = writes (trace w).
Proof.
  induction wanted as [|dt rest IH]; intros Hpop seen downloaded w Hfs Hd;
    cbn [main_loop].
  { exists w. now rewrite Hd. }
  assert (Hpop' : forall d t arg names fname,
     d ∈ rest -> nlst_at E t arg = Ok names -> fname ∈ names ->
     matches_station_file (basename fname) (station_id rq) = true ->
     is_Some (fs !! local_path_of rq d (basename fname))).
  { intros d t arg names fname Hin. apply Hpop. now right. }
  specialize (IH Hpop').
  unfold bind at 1, cancel_requested at 1, ask at 1. cbn beta iota.
  set (w1 := mk_world (S (now w)) (files w) (trace w)).
  destruct (cancel_at E (now w)).
  { exists w1. now rewrite Hd. }
  destruct (decide (date_key dt ∈ seen)).
  { destruct (IH seen downloaded w1 Hfs Hd) as (w' & Heq & Hfw & Hww).
    exists w'. now repeat split. }
  destruct (find_existing_remote_path_ok E ftp (remote_dir_base rq) dt w1)
    as [found Hf].
  pose proof (attempts_unchanged nowhere net_or_day
    (find_existing_remote_path E ftp (remote_dir_base rq) dt) w1
    ltac:(now intros []) (confined_find_existing_remote_path _ _ _ _)) as Ha2.
  pose proof (writes_unchanged nowhere net_or_day
    (find_existing_remote_path E ftp (remote_dir_base rq) dt) w1
    ltac:(now intros []) (confined_find_existing_remote_path _ _ _ _)) as Hw2.
  pose proof (files_unchanged net_or_day
    (find_existing_remote_path E ftp (remote_dir_base rq) dt) w1
    (confined_find_existing_remote_path _ _ _ _)) as Hf2.
  unfold bind at 1. rewrite Hf.
  set (w2 := snd (find_existing_remote_path E ftp (remote_dir_base rq) dt w1)) in *.
  assert (Hd2 : downloaded = map att_local_path (attempts (trace w2)))
    by now rewrite Ha2.
  destruct found as [[|c remote_path]|].
  - destruct (IH ({[date_key dt]} ∪ seen) downloaded w2) as (w' & Heq & Hfw & Hww);
      [now rewrite Hf2 | exact Hd2 |].
    exists w'. rewrite Heq, Hww, Hw2. now repeat split.
  - destruct (list_folder_ok E dt (String c remote_path) w2) as [fnames Hl].
    pose proof (attempts_unchanged nowhere net_or_day
      (list_folder E dt (String c remote_path)) w2
      ltac:(now intros []) (confined_list_folder _ _ _)) as Ha3.
    pose proof (writes_unchanged nowhere net_or_day
      (list_folder E dt (String c remote_path)) w2
      ltac:(now intros []) (confined_list_folder _ _ _)) as Hw3.
    pose proof (files_unchanged net_or_day
      (list_folder E dt (String c remote_path)) w2
      (confined_list_folder _ _ _)) as Hf3.
    pose proof (list_folder_names E dt (String c remote_path) w2 fnames _ Hl)
      as Hnames.
    unfold bind at 1. rewrite Hl.
    set (w3 := snd (list_folder E dt (String c remote_path) w2)) in *.
    destruct (file_loop_populated E rq ftp dt (String c remote_path) fnames
                downloaded w3) as (w4 & Heq4 & Hf4 & Hw4).
    + intros fname Hin Hm. rewrite Hf3, Hf2. cbn [w1 files]. rewrite Hfs.
      destruct Hnames as [-> | (t & arg & Hn)];
        [now apply elem_of_nil in Hin|].
      eapply Hpop; [left | exact Hn | exact Hin | exact Hm].
    + now rewrite Ha3.
    + unfold bind at 1. rewrite Heq4.
      destruct (IH ({[date_key dt]} ∪ seen)
                  (map att_local_path (attempts (trace w4))) w4)
        as (w' & Heq & Hfw & Hww);
        [rewrite Hf4, Hf3, Hf2; exact Hfs | reflexivity |].
      exists w'. rewrite Heq, Hww, Hw4, Hw3, Hw2. now repeat split.
  - destruct (IH ({[date_key dt]} ∪ seen) downloaded w2) as (w' & Heq & Hfw & Hww);
      [now rewrite Hf2 | exact Hd2 |].
    exists w'. rewrite Heq, Hww, Hw2. now repeat split.
Qed.


(** ** The examples of the specification, run on the model *)

(** Forcing cancellation mid-transfer leaves no file at the local path. *)
Example cancel_mid_transfer_leaves_no_file :
  let run := download_file_with_progress cancelled_env FTP_new
               "RTU12_0600.txt" example_local_path (init_world ∅) in
  fst run = Ok false /\
  files (snd run) !! example_local_path = None /\
  trace (snd run) =
    [EvRemove example_local_path;
     EvProgress 3 (Some 6) "RTU12_0600.txt";
     EvTransfer "RTU12_0600.txt" example_local_path].
Proof. vm_compute. repeat split. Qed.

(** A first run over an empty local folder: of the two files listed, only
    the one of the station is attempted, and it is transferred. *)
Example first_run_transfers_the_match :
  let run := download_files_by_prefix example_env example_request
               (init_world ∅) in
  fst run = Ok ([example_local_path], []) /\
  files (snd run) !! example_local_path = Some "abc" /\
  attempts (trace (snd run)) =
    [mk_attempt "/data/2023/09/05092023/" "RTU12_0600.txt" example_local_path] /\
  writes (trace (snd run)) = [EvTransfer "RTU12_0600.txt" example_local_path] /\
  resolved_days (trace (snd run)) = [(2023, 9, 5)] /\
  listed_days (trace (snd run)) = [(2023, 9, 5)].
Proof. vm_compute. repeat split. Qed.

Lemma example_populated :
  populated example_env example_request {[ example_local_path := "abc" ]}.
Proof.
  intros wanted dt t arg names fname Hw Hdt Hn Hf Hm.
  vm_compute in Hw. injection Hw as <-.
  apply list_elem_of_singleton in Hdt as ->.
  cbn in Hn. injection Hn as <-.
  apply elem_of_cons in Hf as [-> | Hf].
  - exists "abc". reflexivity.
  - apply list_elem_of_singleton in Hf as ->. vm_compute in Hm. discriminate Hm.
Qed.


(** ** C9: the single timestamp *)

Lemma digit_facts (c : ascii) :
  is_digit c = true ->
  is_space c = false /\ Ascii.eqb c "+" = false /\ Ascii.eqb c "-" = false /\
  digit_val c = Some (digit_of c).
Proof.
  destruct c as [[] [] [] [] [] [] [] []]; vm_compute; intros H;
    try discriminate H; repeat split.
Qed.

(** [int] of two decimal digits. *)
Lemma py_int_two_digits (a b : ascii) :
  is_digit a = true -> is_digit b = true ->
  py_int (String a (String b "")) = Ok (10 * digit_of a + digit_of b).
Proof.
  intros Ha Hb.
  destruct (digit_facts a Ha) as (Sa & Pa & Ma & Da).
  destruct (digit_facts b Hb) as (Sb & _ & _ & Db).
  unfold py_int, strip. cbn [lstrip]. rewrite Sa. cbn [rstrip]. rewrite Sb, Pa, Ma.
  cbn [digits_val]. rewrite Da, Db. f_equal.
Qed.

Lemma substring_short (n m : nat) (s : string) :
  (String.length s <= n)%nat -> String.substring n m s = "".
Proof.
  revert n. induction s as [|c s IH]; intros n Hn.
  - destruct n, m; reflexivity.
  - destruct n as [|n]; cbn in Hn; [lia|]. cbn. apply IH. lia.
Qed.

Lemma py_int_empty : is_ok (py_int "") = false.
Proof. reflexivity. Qed.

Lemma decode_single_ts_well_formed (s : string) :
  well_formed_ts s = true ->
  decode_single_ts s =
    datetime_new (century_year (field s 0)) (field s 2) (field s 4)
                 (field s 6) (field s 8).
Proof.
  unfold well_formed_ts. intros H. apply andb_true_iff in H as [Hlen Hdig].
  apply Nat.eqb_eq in Hlen.
  destruct s as [|c0 [|c1 [|c2 [|c3 [|c4 [|c5 [|c6 [|c7 [|c8 [|c9 [|c10 r]]]]]]]]]]];
    try discriminate Hlen.
  cbn in Hdig.
  repeat (apply andb_true_iff in Hdig as [? Hdig]).
  unfold decode_single_ts, slice, field, century_year. cbn [String.substring Nat.sub String.get].
  rewrite !py_int_two_digits by assumption. reflexivity.
Qed.

Lemma decode_single_ts_short (s : string) :
  (String.length s <= 8)%nat -> is_ok (decode_single_ts s) = false.
Proof.
  intros Hlen. unfold decode_single_ts, slice.
  rewrite (substring_short 8 _ s Hlen).
  destruct (py_int _) as [yy|]; [|reflexivity]. cbn [rbind].
  destruct (py_int _) as [m|]; [|reflexivity]. cbn [rbind].
  destruct (py_int _) as [d|]; [|reflexivity]. cbn [rbind].
  destruct (py_int _) as [H|]; [|reflexivity]. cbn [rbind].
  reflexivity.
Qed.

(** When the single timestamp is rejected, every station is passed over
    with a status line, and nothing else happens. *)
Lemma station_loop_all_skipped (E : env) (cfg : server_cfg) (prm : params)
    (e : exn) (stations : list string) :
  station_window prm = Raise e ->
  forall (totals : Z * Z) (w : world),
    exists w' evs,
      station_loop E cfg prm stations totals w = (Ok totals, w') /\
      files w' = files w /\
      trace w' = evs ++ trace w /\
      Forall (fun ev => ev = EvInvalidSingleTs (p_single_ts prm) e) evs /\
      ((forall t, cancel_event_at E t = false) -> length evs = length stations).
Proof.
  intros Hwin. induction stations as [|station rest IH]; intros totals w;
    cbn [station_loop].
  { exists w, []. repeat split; auto. }
  unfold bind at 1, ask at 1. cbn beta iota.
  destruct (cancel_event_at E (now w)) eqn:Hc.
  { eexists _, []. unfold ret. cbn. repeat split; auto.
    intros Hnc. rewrite Hnc in Hc. discriminate. }
  rewrite Hwin, bind_emit.
  match goal with |- context [station_loop _ _ _ _ _ ?w1] =>
    destruct (IH totals w1) as (w' & evs & Heq & Hf & Ht & Hall & Hlen) end.
  exists w', (evs ++ [EvInvalidSingleTs (p_single_ts prm) e]).
  split; [exact Heq|]. split; [exact Hf|].
  split; [now rewrite Ht, <- List.app_assoc|].
  split; [apply Forall_app; split; [exact Hall | now constructor]|].
  intros Hnc. rewrite length_app, (Hlen Hnc). cbn. lia.
Qed.




(* ===================================================================== *)
(** * Further properties of the code *)
(* ===================================================================== *)

(** ** Base paths, station ids and file names *)

Lemma rstrip_slash_snoc (s : string) : rstrip_slash (s +:+ "/") = rstrip_slash s.
Proof.
  induction s as [|c s IH]; [reflexivity|].
  cbn [String.append rstrip_slash]. now rewrite IH.
Qed.

Lemma rstrip_slash_idem (s : string) : rstrip_slash (rstrip_slash s) = rstrip_slash s.
Proof.
  induction s as [|c s IH]; [reflexivity|].
  cbn [rstrip_slash]. destruct (rstrip_slash s) as [|c' r'] eqn:Hr.
  - destruct (Ascii.eqb c slash) eqn:Hc; [reflexivity|].
    cbn [rstrip_slash]. now rewrite Hc.
  - cbn [rstrip_slash]. cbn [rstrip_slash] in IH. rewrite IH. reflexivity.
Qed.

(** X1. The candidates do not depend on the trailing slashes of the
    configured base path: ["/data"], ["/data/"] and ["/data//"] give the
    same four paths. *)
Theorem build_possible_paths_trailing_slash (base_path : string)
    (date_obj : datetime) :
  build_possible_paths (base_path +:+ "/") date_obj =
    build_possible_paths base_path date_obj /\
  build_possible_paths (rstrip_slash base_path) date_obj =
    build_possible_paths base_path date_obj.
Proof.
  unfold build_possible_paths.
  now rewrite rstrip_slash_snoc, rstrip_slash_idem.
Qed.

(** X2. A station id that is a prefix of another one also selects the
    files of the other: whatever matches a station id matches every prefix
    of that id. *)
Theorem matches_station_file_shorter_id (filename station_code shorter : string) :
  matches_station_file filename station_code = true ->
  has_prefix station_code shorter ->
  matches_station_file filename shorter = true.
Proof.
  intros Hm [rest ->]. apply matches_station_file_spec in Hm as [Htxt [r ->]].
  apply matches_station_file_spec. split; [exact Htxt|].
  exists (rest +:+ r). apply app_assoc_s.
Qed.

Lemma matches_station_file_shorter_id_witness :
  matches_station_file "RTU12_0600.txt" "RTU12" = true /\
  has_prefix "RTU12" "RTU1" /\
  matches_station_file "RTU12_0600.txt" "RTU1" = true.
Proof.
  assert (H1 : matches_station_file "RTU12_0600.txt" "RTU12" = true) by reflexivity.
  assert (H2 : has_prefix "RTU12" "RTU1") by (now exists "2").
  split; [exact H1|]. split; [exact H2|].
  exact (matches_station_file_shorter_id _ _ _ H1 H2).
Defined.

Lemma has_slash_cons (c : ascii) (r : string) :
  has_slash (String c r) = Ascii.eqb c slash || has_slash r.
Proof. unfold has_slash. cbn [list_ascii_of_string existsb]. now rewrite Ascii.eqb_sym. Qed.

Lemma has_slash_app (a b : string) : has_slash (a +:+ b) = has_slash a || has_slash b.
Proof.
  unfold has_slash. induction a as [|c a IH]; cbn; [reflexivity|].
  now rewrite IH, orb_assoc.
Qed.

Lemma basename_cons (c : ascii) (r : string) :
  basename (String c r) =
    if has_slash r then basename r
    else if Ascii.eqb c slash then r else String c r.
Proof. reflexivity. Qed.

Lemma basename_no_slash (p : string) : has_slash (basename p) = false.
Proof.
  induction p as [|c r IH]; [reflexivity|].
  rewrite basename_cons.
  destruct (has_slash r) eqn:Hr; [exact IH|].
  destruct (Ascii.eqb c slash) eqn:Hc; [exact Hr|].
  now rewrite has_slash_cons, Hc, Hr.
Qed.

Lemma basename_id (s : string) : has_slash s = false -> basename s = s.
Proof.
  destruct s as [|c r]; [reflexivity|]. rewrite has_slash_cons.
  intros H. apply orb_false_iff in H as [Hc Hr].
  now rewrite basename_cons, Hr, Hc.
Qed.

Lemma basename_of_path (dir name : string) :
  has_slash name = false -> basename (dir +:+ "/" +:+ name) = name.
Proof.
  intros Hn. induction dir as [|c dir IH].
  - cbn [String.append]. now rewrite basename_cons, Hn.
  - change (String c dir +:+ "/" +:+ name) with (String c (dir +:+ "/" +:+ name)).
    rewrite basename_cons, has_slash_app.
    change ("/" +:+ name) with (String slash name).
    rewrite has_slash_cons, Ascii.eqb_refl, orb_true_r. exact IH.
Qed.

(** X3. [os.path.basename] as the loop uses it: a name listed with its
    folder and the same name listed bare are the same file for the rest of
    the iteration (same match, same local path), the base name never holds
    a slash, and taking it twice changes nothing. *)
Theorem basename_normalises_listing (rq : request) (dt : datetime)
    (dir name fname : string) :
  has_slash (basename fname) = false /\
  basename (basename fname) = basename fname /\
  (has_slash name = false ->
   basename (dir +:+ "/" +:+ name) = basename name /\
   matches_station_file (basename (dir +:+ "/" +:+ name)) (station_id rq) =
     matches_station_file (basename name) (station_id rq) /\
   local_path_of rq dt (basename (dir +:+ "/" +:+ name)) =
     local_path_of rq dt (basename name)).
Proof.
  split; [apply basename_no_slash|].
  split; [apply basename_id, basename_no_slash|].
  intros Hn. rewrite basename_of_path, (basename_id name) by assumption.
  repeat split.
Qed.

Lemma startswith_slash_false (b : string) :
  has_slash b = false -> startswith b "/" = false.
Proof.
  destruct b as [|c r]; [reflexivity|]. rewrite has_slash_cons.
  intros H. apply orb_false_iff in H as [Hc _].
  unfold slash in Hc. cbn [startswith]. now rewrite Hc.
Qed.

Lemma join2_no_slash (a b : string) :
  has_slash b = false ->
  join2 a b = a +:+ (if String.eqb a "" || endswith a "/" then "" else "/") +:+ b.
Proof.
  intros Hb. unfold join2. rewrite (startswith_slash_false b Hb).
  destruct (String.eqb a "" || endswith a "/"); reflexivity.
Qed.

(** X4. The local path of a listed file is the folder of the day followed
    by the base name (with one slash between them unless the folder is
    empty or ends with one): a remote name cannot redirect the write
    elsewhere. Within a day, two files get the same local path only when
    they have the same base name. *)
Theorem local_path_stays_in_day_folder (rq : request) (dt : datetime)
    (fname fname' : string) :
  let dir := local_dir_of rq dt in
  (local_path_of rq dt (basename fname) = dir +:+ basename fname \/
   local_path_of rq dt (basename fname) = dir +:+ "/" +:+ basename fname) /\
  (local_path_of rq dt (basename fname) = local_path_of rq dt (basename fname') ->
   basename fname = basename fname').
Proof.
  cbn zeta. unfold local_path_of. fold (local_dir_of rq dt).
  cbn [join fold_left].
  rewrite !join2_no_slash by apply basename_no_slash.
  destruct (String.eqb (local_dir_of rq dt) "" || endswith (local_dir_of rq dt) "/").
  - split; [now left|]. intros H. cbn [String.append] in H.
    now apply (inj (String.append (local_dir_of rq dt))) in H.
  - split; [now right|]. intros H.
    apply (inj (String.append (local_dir_of rq dt))) in H.
    cbn [String.append] in H. now injection H.
Qed.

(** ** [list_files] *)

Lemma mlsd_names_spec (entries : list (string * option string)) (n : string) :
  n ∈ mlsd_names entries <->
  exists t, (n, t) ∈ entries /\ (t = None \/ t = Some "" \/ t = Some "file").
Proof.
  unfold mlsd_names. rewrite list_elem_of_fmap. split.
  - intros [[n' t] [-> Hin]]. apply list_elem_of_In, filter_In in Hin as [Hin Hk].
    apply list_elem_of_In in Hin. exists t. split; [exact Hin|].
    unfold keeps_entry in Hk. cbn in Hk.
    apply orb_true_iff in Hk as [Hk | Hk]; apply String.eqb_eq in Hk;
      destruct t as [t|]; cbn in Hk; subst; auto; discriminate.
  - intros [t [Hin Ht]]. exists (n, t). split; [reflexivity|].
    apply list_elem_of_In, filter_In. split; [now apply list_elem_of_In|].
    destruct Ht as [-> | [-> | ->]]; reflexivity.
Qed.

Lemma not_dot_spec (listed : list string) (n : string) :
  n ∈ List.filter not_dot listed <-> n ∈ listed /\ n <> "." /\ n <> "..".
Proof.
  rewrite !list_elem_of_In, filter_In. unfold not_dot.
  rewrite negb_true_iff, orb_false_iff, !String.eqb_neq. tauto.
Qed.

(** X5. When the directory cannot be entered, [list_files] raises
    [FileNotFoundError] at once: nothing is listed, and the working
    directory is not restored (it was not left). *)
Theorem list_files_missing_dir (E : env) (mlsd_at : nat -> mlsd_reply)
    (ftp : FTP) (remote_dir : string) (w : world) (e : exn) :
  cwd_at E (S (now w)) remote_dir = Some e ->
  list_files E mlsd_at ftp remote_dir w =
    (Raise (OSError (not_found_message remote_dir)),
     mk_world (S (S (now w))) (files w) (EvCwd remote_dir :: trace w)).
Proof.
  intros Hcwd.
  unfold list_files, bind, try_catch, ftp_pwd, ftp_cwd, ask, emit, lift_result,
    lift_error, ret, raise. cbn.
  destruct (pwd_at E (now w)); cbn; rewrite Hcwd; reflexivity.
Qed.

Lemma list_files_missing_dir_witness :
  cwd_at (stub_env only_second [] "") 1 "/nowhere" =
    Some (FtpError "550 no such directory") /\
  list_files (stub_env only_second [] "") (fun _ => mk_mlsd [] None) FTP_new
    "/nowhere" (init_world ∅) =
    (Raise (OSError "Remote directory not found: /nowhere"),
     mk_world 2 ∅ [EvCwd "/nowhere"]).
Proof.
  assert (H : cwd_at (stub_env only_second [] "") (S (now (init_world ∅)))
                "/nowhere" = Some (FtpError "550 no such directory"))
    by reflexivity.
  split; [exact H|].
  exact (list_files_missing_dir _ (fun _ => mk_mlsd [] None) FTP_new _ _ _ H).
Defined.

(** X6. Once the directory is entered, the result of [list_files] is
    decided by the two listings alone. If [MLSD] ends normally, the result
    is the names of its entries typed [file], typed with the empty string
    or not typed at all, in the order of the server. If [MLSD] fails, the
    result is what [NLST] lists, without ["."] and [".."], and the error
    of [NLST] when it fails too. The restoration of the working directory
    has no part in the result, and no local file is touched. *)
Theorem list_files_result (E : env) (mlsd_at : nat -> mlsd_reply)
    (ftp : FTP) (remote_dir : string) (w : world) :
  cwd_at E (S (now w)) remote_dir = None ->
  let reply := mlsd_at (S (S (now w))) in
  let run := list_files E mlsd_at ftp remote_dir w in
  files (snd run) = files w /\
  match mlsd_end reply with
  | None =>
      fst run = Ok (mlsd_names (mlsd_entries reply)) /\
      forall n, n ∈ mlsd_names (mlsd_entries reply) <->
        exists t, (n, t) ∈ mlsd_entries reply /\
                  (t = None \/ t = Some "" \/ t = Some "file")
  | Some _ =>
      match nlst_at E (S (S (S (now w)))) None with
      | Ok listed =>
          fst run = Ok (List.filter not_dot listed) /\
          forall n, n ∈ List.filter not_dot listed <->
                    n ∈ listed /\ n <> "." /\ n <> ".."
      | Raise e => fst run = Raise e
      end
  end.
Proof.
  intros Hcwd reply run. subst reply run.
  unfold list_files, try_finally, bind, try_catch, ftp_pwd, ftp_cwd, ftp_nlst,
    ftp_mlsd, ask, emit, lift_result, lift_error, ret, raise. cbn.
  destruct (pwd_at E (now w)) as [[|c cur]|e0]; cbn; rewrite Hcwd; cbn;
    destruct (mlsd_end (mlsd_at (S (S (now w))))) as [e1|]; cbn;
    try destruct (nlst_at E (S (S (S (now w)))) None) as [listed|e2]; cbn;
    try destruct (cwd_at E _ (String c cur)); cbn;
    (split; [reflexivity|]);
    first [ reflexivity
          | split; [reflexivity|]; intros n;
            first [apply mlsd_names_spec | apply not_dot_spec] ].
Qed.

Lemma list_files_result_witness :
  let E := stub_env only_second ["."; ".."; "RTU12_0600.txt"] "" in
  let mlsd_at := fun _ : nat =>
    mk_mlsd [("."      , Some "cdir"); ("RTU12_0600.txt", Some "file");
             ("old"    , Some "dir");  ("RTU12_0615.txt", None)] None in
  let no_mlsd := fun _ : nat =>
    mk_mlsd [] (Some (FtpError "500 unknown command")) in
  fst (list_files E mlsd_at FTP_new "/data/2023/09/05092023/" (init_world ∅))
    = Ok ["RTU12_0600.txt"; "RTU12_0615.txt"] /\
  fst (list_files E no_mlsd FTP_new "/data/2023/09/05092023/" (init_world ∅))
    = Ok ["RTU12_0600.txt"].
Proof.
  cbn zeta. split.
  - destruct (list_files_result
      (stub_env only_second ["."; ".."; "RTU12_0600.txt"] "")
      (fun _ => mk_mlsd [("."      , Some "cdir"); ("RTU12_0600.txt", Some "file");
                         ("old"    , Some "dir");  ("RTU12_0615.txt", None)] None)
      FTP_new "/data/2023/09/05092023/" (init_world ∅) eq_refl) as [_ [H _]].
    exact H.
  - destruct (list_files_result
      (stub_env only_second ["."; ".."; "RTU12_0600.txt"] "")
      (fun _ => mk_mlsd [] (Some (FtpError "500 unknown command"))) FTP_new
      "/data/2023/09/05092023/" (init_world ∅) eq_refl) as [_ [H _]].
    exact H.
Defined.

(** X7. The [finally] of [list_files]: when the directory was entered and
    [pwd] had given a non-empty directory, the last command sent to the
    server is the [cwd] back to it, whether the listing returned or
    raised, and whether or not that [cwd] works. When [pwd] had failed or
    given the empty string, nothing is restored: the connection stays in
    the listed directory. Between entering and leaving, the server sees
    at most one [NLST]. *)
Theorem list_files_restores_cwd (E : env) (mlsd_at : nat -> mlsd_reply)
    (ftp : FTP) (remote_dir : string) (w : world) :
  cwd_at E (S (now w)) remote_dir = None ->
  exists evs,
    (evs = [] \/ evs = [EvNlst None]) /\
    trace (snd (list_files E mlsd_at ftp remote_dir w)) =
      match pwd_at E (now w) with
      | Ok (String _ _ as cur) => [EvCwd cur]
      | _ => []
      end ++ evs ++ EvCwd remote_dir :: trace w.
Proof.
  intros Hcwd.
  unfold list_files, try_finally, bind, try_catch, ftp_pwd, ftp_cwd, ftp_nlst,
    ftp_mlsd, ask, emit, lift_result, lift_error, ret, raise. cbn.
  destruct (pwd_at E (now w)) as [[|c cur]|e0]; cbn; rewrite Hcwd; cbn;
    destruct (mlsd_end (mlsd_at (S (S (now w))))) as [e1|]; cbn;
    try destruct (nlst_at E (S (S (S (now w)))) None) as [listed|e2]; cbn;
    try destruct (cwd_at E _ (String c cur)); cbn;
    first [ exists []; split; [now left | reflexivity]
          | exists [EvNlst None]; split; [now right | reflexivity] ].
Qed.

Lemma list_files_restores_cwd_witness :
  exists evs,
    (evs = [] \/ evs = [EvNlst None]) /\
    trace (snd (list_files (stub_env only_second [] "")
                  (fun _ => mk_mlsd [] (Some (FtpError "500 unknown command")))
                  FTP_new "/data/2023/09/05092023/" (init_world ∅))) =
      [EvCwd "/"] ++ evs ++ [EvCwd "/data/2023/09/05092023/"].
Proof.
  exact (list_files_restores_cwd (stub_env only_second [] "")
           (fun _ => mk_mlsd [] (Some (FtpError "500 unknown command")))
           FTP_new "/data/2023/09/05092023/" (init_world ∅) eq_refl).
Defined.

(** ** [download_single_by_path] *)

Lemma quit_quietly_world (E : env) (w : world) :
  quit_quietly E w =
    (Ok tt, mk_world (S (now w)) (files w) (EvQuit :: trace w)).
Proof.
  unfold quit_quietly, try_catch, ftp_quit, bind, ask, emit, lift_error. cbn.
  destruct (quit_at E (now w)); reflexivity.
Qed.

(** What a call of [download_file_with_progress] leaves. *)
Lemma download_file_with_progress_outcome (E : env) (ftp : FTP)
    (remote_file local_path : string) (w : world) :
  exists (ok : bool) (w' : world),
    download_file_with_progress E ftp remote_file local_path w = (Ok ok, w') /\
    ok = transfer_succeeds E (now w) remote_file local_path /\
    (ok = true ->
       files w' !! local_path =
         Some (chunks_data (retr_chunks (retr_at E (S (S (now w))) remote_file)))) /\
    (ok = false ->
       (forall t, remove_at E t local_path = None) ->
       files w' !! local_path = None) /\
    (forall p, p <> local_path -> files w' !! p = files w !! p).
Proof.
  unfold download_file_with_progress.
  destruct (receive_file_spec E remote_file local_path w)
    as (r & w1 & Heq & Hfr & Hcase).
  destruct (transfer_succeeds E (now w) remote_file local_path).
  - destruct Hcase as [-> Hfile]. exists true, w1.
    rewrite (try_ok _ _ _ _ _ Heq). repeat split; auto. discriminate.
  - destruct r as [|e]; [discriminate|].
    rewrite (try_raise _ _ _ _ _ Heq).
    destruct (remove_partial_spec E local_path w1) as (w2 & Hrm & Hfr2 & Hgone).
    exists false, w2. unfold bind. rewrite Hrm. unfold ret.
    repeat split; auto; [discriminate|].
    intros p Hp. rewrite Hfr2 by assumption. now apply Hfr.
Qed.

(** X8. [download_single_by_path] raises exactly when no connection can
    be made, and then no local file is touched. With a connection it
    always returns, after a [quit]: [True] when the transfer met no
    failure, the local file then holding the bytes received; [False]
    otherwise, and then nothing is left at [local_file] (when the removal
    works), even if a file was there before the call: unlike the batch
    run, the single download does not skip an existing file. No other
    local path changes. *)
Theorem download_single_by_path_outcome (E : env)
    (host user passwd remote_file local_file : string) (port retries : Z)
    (w : world) :
  let run :=
    download_single_by_path E host user passwd remote_file local_file
      port retries w in
  match ftp_connect E host user passwd port retries 2 w with
  | (Raise e, w0) => run = (Raise e, w0) /\ files w0 = files w
  | (Ok _, w0) =>
      exists (ok : bool) (w' : world),
        run = (Ok ok, w') /\
        ok = transfer_succeeds E (now w0) remote_file local_file /\
        head (trace w') = Some EvQuit /\
        (ok = true ->
           files w' !! local_file =
             Some (chunks_data
                     (retr_chunks (retr_at E (S (S (now w0))) remote_file)))) /\
        (ok = false ->
           (forall t, remove_at E t local_file = None) ->
           files w' !! local_file = None) /\
        (forall p, p <> local_file -> files w' !! p = files w !! p)
  end.
Proof.
  cbn zeta. unfold download_single_by_path.
  pose proof (files_unchanged _ _ w
                (confined_ftp_connect E host user passwd port retries 2)) as Hfs.
  destruct (ftp_connect E host user passwd port retries 2 w) as [[ftp|e] w0] eqn:Hc.
  - cbn [snd] in Hfs.
    destruct (download_file_with_progress_outcome E ftp remote_file local_file w0)
      as (ok & w1 & Hd & Hok & Hyes & Hno & Hframe).
    exists ok, (mk_world (S (now w1)) (files w1) (EvQuit :: trace w1)).
    split.
    { unfold bind at 1. rewrite Hc. unfold bind at 1. rewrite Hd.
      unfold bind. rewrite quit_quietly_world. reflexivity. }
    cbn [files trace head]. repeat split; auto.
    intros p Hp. rewrite <- Hfs. now apply Hframe.
  - cbn [snd] in Hfs. split; [|exact Hfs].
    unfold bind. now rewrite Hc.
Qed.

(** ** The timestamps of the window *)

Lemma every_step_S (d : date) (cur step : Z) (n : nat) :
  every_step d cur step (S n) =
    at_minute d cur :: every_step d (cur + step) step n.
Proof.
  unfold every_step. cbn [seq map]. f_equal.
  - f_equal. lia.
  - rewrite <- seq_shift, map_map. apply map_ext. intros k. f_equal. lia.
Qed.

Lemma expand_minutes_closed (d : date) (last step : Z) :
  0 < step -> dyear d < 9999 ->
  forall (n : nat) (cur : Z),
    last - cur + 1 <= Z.of_nat n ->
    expand_minutes n d cur last step =
      Ok (if cur <=? last
          then every_step d cur step (Z.to_nat ((last - cur) / step + 1))
          else []).
Proof.
  intros Hstep Hy. induction n as [|n IH]; intros cur Hn; cbn [expand_minutes].
  - destruct (Z.leb_spec cur last); [lia | reflexivity].
  - destruct (Z.leb_spec cur last) as [Hle|Hgt]; [|reflexivity].
    replace (dyear d =? 9999) with false by (symmetry; apply Z.eqb_neq; lia).
    cbn [andb]. rewrite IH by lia. cbn [rbind]. f_equal.
    destruct (Z.leb_spec (cur + step) last) as [Hle'|Hgt'].
    + assert (Hdiv : (last - cur) / step = (last - (cur + step)) / step + 1).
      { replace (last - cur) with ((last - (cur + step)) + 1 * step) by lia.
        now rewrite Z.div_add by lia. }
      assert (0 <= (last - (cur + step)) / step) by (apply Z.div_pos; lia).
      rewrite Hdiv.
      replace (Z.to_nat ((last - (cur + step)) / step + 1 + 1))
        with (S (Z.to_nat ((last - (cur + step)) / step + 1))) by lia.
      now rewrite every_step_S.
    + rewrite (Z.div_small (last - cur) step) by lia.
      change (Z.to_nat (0 + 1)) with 1%nat. now rewrite every_step_S.
Qed.

Lemma datetime_new_ok (d : date) (H M : Z) :
  valid_date d = true -> valid_time H M ->
  datetime_new (dyear d) (dmonth d) (dday d) H M =
    Ok (mk_datetime (dyear d) (dmonth d) (dday d) H M).
Proof.
  intros Hd [[H1 H2] [H3 H4]].
  unfold datetime_new, valid_datetime, date_of. cbn [year month day hour minute].
  destruct d as [y m d0]. cbn [dyear dmonth dday]. rewrite Hd.
  rewrite !(proj2 (Z.leb_le _ _)) by assumption. reflexivity.
Qed.

Lemma datetime_new_bad (y m d H M : Z) :
  ~ valid_time H M ->
  datetime_new y m d H M = Raise (ValueError "value is out of range").
Proof.
  intros Hbad. unfold datetime_new.
  destruct (valid_datetime (mk_datetime y m d H M)) eqn:Hv; [|reflexivity].
  exfalso. apply Hbad. unfold valid_datetime in Hv. cbn [hour minute] in Hv.
  repeat (apply andb_true_iff in Hv as [Hv ?]). unfold valid_time. lia.
Qed.

Lemma expand_day_closed (d : date) (sh sm eh em step : Z) :
  valid_date d = true -> dyear d < 9999 ->
  valid_time sh sm -> valid_time eh em -> 0 < step ->
  expand_day d sh sm eh em step =
    Ok (if sh * 60 + sm <=? eh * 60 + em
        then every_step d (sh * 60 + sm) step
               (Z.to_nat ((eh * 60 + em - (sh * 60 + sm)) / step + 1))
        else []).
Proof.
  intros Hd Hy Hs He Hstep. unfold expand_day.
  rewrite !datetime_new_ok by assumption. cbn [rbind hour minute].
  destruct (Z.ltb_spec 0 step); [|lia].
  apply expand_minutes_closed; [assumption | assumption | lia].
Qed.



Lemma next_day_ok (d : date) : dyear d < 9999 -> exists d', next_day d = Ok d'.
Proof.
  intros Hy. unfold next_day.
  destruct (_ <? _); [eauto|]. destruct (_ <? _); [eauto|].
  destruct (Z.ltb_spec (dyear d) 9999); [eauto | lia].
Qed.

Lemma toordinal_inj (a b : date) :
  valid_date a = true -> valid_date b = true ->
  toordinal a = toordinal b -> a = b.
Proof.
  intros Ha Hb Heq.
  assert (Hab : date_leb a b = true) by (apply date_leb_toordinal; auto; lia).
  apply date_leb_spec in Hab as [Hlt | ->]; [|reflexivity].
  pose proof (toordinal_lt a b Ha Hb Hlt). lia.
Qed.

Lemma date_leb_year (a b : date) : date_leb a b = true -> dyear a <= dyear b.
Proof.
  intros H. apply date_leb_spec in H as [[H | [H _]] | ->]; lia.
Qed.

Lemma every_step_members (d : date) (first last step : Z) (dt : datetime) :
  0 < step ->
  dt ∈ (if first <=? last
        then every_step d first step (Z.to_nat ((last - first) / step + 1))
        else []) <->
  exists k, dt = at_minute d (first + step * k) /\
            0 <= k /\ first + step * k <= last.
Proof.
  intros Hstep. destruct (Z.leb_spec first last) as [Hle|Hgt].
  - assert (0 <= (last - first) / step) by (apply Z.div_pos; lia).
    unfold every_step. rewrite list_elem_of_fmap. split.
    + intros [k [-> Hk]]. apply list_elem_of_In, in_seq in Hk.
      exists (Z.of_nat k). split; [reflexivity|]. split; [lia|].
      assert (Hq : Z.of_nat k <= (last - first) / step) by lia.
      pose proof (Z.mul_div_le (last - first) step Hstep).
      assert (step * Z.of_nat k <= step * ((last - first) / step))
        by (apply Z.mul_le_mono_nonneg_l; lia).
      lia.
    + intros (k & -> & Hk0 & Hk). exists (Z.to_nat k).
      split; [f_equal; lia|]. apply list_elem_of_In, in_seq.
      assert (k <= (last - first) / step)
        by (apply Z.div_le_lower_bound; lia).
      lia.
  - split; [intros H; now apply elem_of_nil in H|].
    intros (k & _ & Hk0 & Hk). exfalso.
    assert (0 <= step * k) by (apply Z.mul_nonneg_nonneg; lia). lia.
Qed.

Lemma expand_days_members (last_day : date) (sh sm eh em step : Z) :
  valid_date last_day = true -> dyear last_day < 9999 ->
  valid_time sh sm -> valid_time eh em -> 0 < step ->
  forall (n : nat) (cur_day : date),
    valid_date cur_day = true ->
    toordinal last_day - toordinal cur_day + 1 <= Z.of_nat n ->
    exists l,
      expand_days n cur_day last_day sh sm eh em step = Ok l /\
      forall dt, dt ∈ l <->
        exists d k,
          dt = at_minute d (sh * 60 + sm + step * k) /\
          valid_date d = true /\
          toordinal cur_day <= toordinal d <= toordinal last_day /\
          0 <= k /\ sh * 60 + sm + step * k <= eh * 60 + em.
Proof.
  intros Hlast Hy Hs He Hstep.
  induction n as [|n IH]; intros cur Hcur Hn; cbn [expand_days].
  - exists []. split; [reflexivity|]. intros dt. split.
    + intros H. now apply elem_of_nil in H.
    + intros (d & k & _ & _ & Hord & _). lia.
  - destruct (date_leb cur last_day) eqn:Hle.
    + pose proof (date_leb_year _ _ Hle) as Hyc.
      rewrite expand_day_closed by (assumption || lia). cbn [rbind].
      destruct (next_day_ok cur ltac:(lia)) as [tomorrow Hnext].
      rewrite Hnext. cbn [rbind].
      destruct (next_day_spec cur tomorrow Hcur Hnext) as [Hv Hord].
      destruct (IH tomorrow Hv ltac:(lia)) as (later & Heq & Hlater).
      rewrite Heq. cbn [rbind]. eexists. split; [reflexivity|].
      intros dt. rewrite elem_of_app, every_step_members, Hlater by assumption.
      apply date_leb_toordinal in Hle; [|assumption|assumption].
      split.
      * intros [(k & -> & Hk0 & Hk) | (d & k & -> & Hd & Ho & Hk0 & Hk)].
        -- exists cur, k. repeat split; (assumption || lia).
        -- exists d, k. repeat split; (assumption || lia).
      * intros (d & k & -> & Hd & Ho & Hk0 & Hk).
        destruct (Z.eq_dec (toordinal d) (toordinal cur)) as [Heqo | Hne].
        -- left. apply toordinal_inj in Heqo; [|assumption|assumption].
           subst d. exists k. repeat split; assumption.
        -- right. exists d, k. repeat split; (assumption || lia).
    + exists []. split; [reflexivity|]. intros dt. split.
      * intros H. now apply elem_of_nil in H.
      * intros (d & k & _ & Hd & Hord & _). exfalso.
        assert (date_leb cur last_day = true)
          by (apply date_leb_toordinal; [assumption | assumption | lia]).
        congruence.
Qed.

Lemma wanted_dt_list_spec (start_dt end_dt : datetime) (sh sm eh em step : Z) :
  valid_date (date_of start_dt) = true ->
  valid_date (date_of end_dt) = true -> year end_dt < 9999 ->
  valid_time sh sm -> valid_time eh em -> 0 < step ->
  exists l,
    wanted_dt_list start_dt end_dt sh sm eh em step = Ok l /\
    forall dt, dt ∈ l <->
      exists d k,
        dt = at_minute d (sh * 60 + sm + step * k) /\
        valid_date d = true /\
        toordinal (date_of start_dt) <= toordinal d <= toordinal (date_of end_dt) /\
        0 <= k /\ sh * 60 + sm + step * k <= eh * 60 + em.
Proof.
  intros Hsd Hed Hy Hs He Hstep. unfold wanted_dt_list.
  apply expand_days_members; try assumption. lia.
Qed.



(** ** Runs that do nothing, runs that raise *)

Lemma connect_loop_events (E : env) (host user passwd : string)
    (port retries delay : Z) (todo : nat) :
  forall (attempt : Z) (last_exc : option exn) (w : world),
    exists evs,
      trace (snd (connect_loop E host user passwd port retries delay todo
                    attempt last_exc w)) = evs ++ trace w /\
      Forall connect_event evs.
Proof.
  induction todo as [|todo IH]; intros attempt last_exc w; cbn [connect_loop].
  - exists []. split; [reflexivity | constructor].
  - assert (Hone : exists r t,
      connect_once E host user passwd port attempt w =
        (r, mk_world t (files w) (EvConnect attempt :: trace w))).
    { unfold connect_once, bind, emit, ask, lift_error, ret, raise. cbn.
      destruct (connect_at E (now w) host port); cbn; [eauto|].
      destruct (login_at E (S (now w)) user passwd); cbn; eauto. }
    destruct Hone as (r & t & Hone). unfold try_catch. rewrite Hone.
    destruct r as [ftp|e].
    + exists [EvConnect attempt]. split; [reflexivity|].
      constructor; [left; eauto | constructor].
    + rewrite bind_emit.
      match goal with |- context [connect_loop _ _ _ _ _ _ _ _ ?a ?l ?w1] =>
        destruct (IH a l w1) as (evs & Heq & Hevs) end.
      exists (evs ++ [EvSleep delay; EvConnect attempt]). split.
      * rewrite Heq. cbn [trace]. now rewrite <- app_assoc.
      * apply Forall_app. split; [exact Hevs|].
        constructor; [right; eauto|]. constructor; [left; eauto | constructor].
Qed.

(** The two loops never raise, and each attempt adds one entry to the two
    collections taken together, from whatever state they start. *)
Lemma file_loop_counts (E : env) (rq : request) (ftp : FTP) (dt : datetime)
    (remote_path : string) (fnames : list string) :
  forall (downloaded failed : list string) (w : world),
    exists downloaded' failed' w',
      file_loop E rq ftp dt remote_path fnames (downloaded, failed) w
        = (Ok (downloaded', failed'), w') /\
      (length downloaded' + length failed' + length (attempts (trace w))
       = length downloaded + length failed + length (attempts (trace w')))%nat.
Proof.
  induction fnames as [|fname rest IH]; intros downloaded failed w;
    cbn [file_loop].
  { exists downloaded, failed, w. now split. }
  unfold bind at 1, cancel_requested at 1, ask at 1. cbn beta iota.
  set (w1 := mk_world (S (now w)) (files w) (trace w)).
  destruct (cancel_at E (now w)).
  { exists downloaded, failed, w1. now split. }
  destruct (negb _); [apply (IH downloaded failed w1)|].
  destruct (attempt_file_outcome E rq ftp dt remote_path (basename fname)
              downloaded failed w1) as (r & w2 & Heq & Hr & Hatt).
  unfold bind at 1. rewrite Heq.
  destruct Hr as [-> | ->].
  - destruct (IH (downloaded ++ [att_local_path
       (mk_attempt remote_path (basename fname)
          (local_path_of rq dt (basename fname)))]) failed w2)
      as (d' & f' & w' & Heq' & Hlen).
    exists d', f', w'. split; [exact Heq'|].
    rewrite Hatt, !length_app in Hlen. cbn in Hlen. cbn [w1 trace]. cbn in *. lia.
  - destruct (IH downloaded (failed ++ [att_remote_id
       (mk_attempt remote_path (basename fname)
          (local_path_of rq dt (basename fname)))]) w2)
      as (d' & f' & w' & Heq' & Hlen).
    exists d', f', w'. split; [exact Heq'|].
    rewrite Hatt, !length_app in Hlen. cbn in Hlen. cbn in *. lia.
Qed.

Lemma main_loop_counts (E : env) (rq : request) (ftp : FTP)
    (wanted : list datetime) :
  forall (dates_seen : gset (Z * Z * Z)) (downloaded failed : list string)
         (w : world),
    exists downloaded' failed' w',
      main_loop E rq ftp wanted dates_seen (downloaded, failed) w
        = (Ok (downloaded', failed'), w') /\
      (length downloaded' + length failed' + length (attempts (trace w))
       = length downloaded + length failed + length (attempts (trace w')))%nat.
Proof.
  induction wanted as [|dt rest IH]; intros seen downloaded failed w;
    cbn [main_loop].
  { exists downloaded, failed, w. now split. }
  unfold bind at 1, cancel_requested at 1, ask at 1. cbn beta iota.
  set (w1 := mk_world (S (now w)) (files w) (trace w)).
  destruct (cancel_at E (now w)).
  { exists downloaded, failed, w1. now split. }
  destruct (decide (date_key dt ∈ seen)); [apply (IH seen downloaded failed w1)|].
  destruct (find_existing_remote_path_ok E ftp (remote_dir_base rq) dt w1)
    as [found Hf].
  pose proof (attempts_unchanged nowhere net_or_day
                (find_existing_remote_path E ftp (remote_dir_base rq) dt) w1
                ltac:(now intros [])
                (confined_find_existing_remote_path E ftp (remote_dir_base rq) dt))
    as Hatt2.
  unfold bind at 1. rewrite Hf.
  set (w2 := snd (find_existing_remote_path E ftp (remote_dir_base rq) dt w1)) in *.
  assert (Hsame : forall seen' : gset (Z * Z * Z),
    exists downloaded' failed' w',
      main_loop E rq ftp rest seen' (downloaded, failed) w2
        = (Ok (downloaded', failed'), w') /\
      (length downloaded' + length failed' + length (attempts (trace w))
       = length downloaded + length failed + length (attempts (trace w')))%nat).
  { intros seen'. destruct (IH seen' downloaded failed w2)
      as (d' & f' & w' & Heq' & Hlen).
    exists d', f', w'. split; [exact Heq'|]. rewrite Hatt2 in Hlen. exact Hlen. }
  destruct found as [[|c remote_path]|]; [apply Hsame | | apply Hsame].
  destruct (list_folder_ok E dt (String c remote_path) w2) as [fnames Hl].
  pose proof (attempts_unchanged nowhere net_or_day
                (list_folder E dt (String c remote_path)) w2
                ltac:(now intros [])
                (confined_list_folder E dt (String c remote_path))) as Hatt3.
  unfold bind at 1. rewrite Hl.
  set (w3 := snd (list_folder E dt (String c remote_path) w2)) in *.
  destruct (file_loop_counts E rq ftp dt (String c remote_path) fnames
              downloaded failed w3) as (d4 & f4 & w4 & Heq4 & Hlen4).
  unfold bind at 1. rewrite Heq4.
  destruct (IH ({[date_key dt]} ∪ seen) d4 f4 w4) as (d' & f' & w' & Heq' & Hlen).
  exists d', f', w'. split; [exact Heq'|].
  rewrite Hatt3, Hatt2 in Hlen4. cbn [w1 trace] in Hlen4. lia.
Qed.

Lemma download_files_by_prefix_unfold (E : env) (rq : request) (w : world)
    (ftp : FTP) (w0 : world) :
  ftp_connect E (host rq) (user rq) (passwd rq) (port rq) (retries rq) 2 w
    = (Ok ftp, w0) ->
  download_files_by_prefix E rq w =
    match wanted_dt_list (start_dt rq) (end_dt rq) (start_hour rq) (start_min rq)
            (end_hour rq) (end_min rq) (step_minutes rq) with
    | Raise e => (Raise e, w0)
    | Ok [] =>
        (Ok ([], []), mk_world (S (now w0)) (files w0) (EvQuit :: trace w0))
    | Ok (dt :: rest) =>
        (r <- main_loop E rq ftp (dt :: rest) ∅ ([], []) ;;
         quit_quietly E ;;; ret r) w0
    end.
Proof.
  intros Hc. unfold download_files_by_prefix. unfold bind at 1. rewrite Hc.
  unfold bind at 1, lift_result at 1.
  destruct (wanted_dt_list _ _ _ _ _ _ _) as [[|dt rest]|e]; try reflexivity.
  unfold bind, ret. now rewrite quit_quietly_world.
Qed.

(** X11. A window without timestamps: when the start date is after the end
    date, or when the start time of day is after the end time of day, the
    run connects, quits and returns two empty collections; no folder is
    resolved or listed and no local file is touched. *)
Theorem empty_window_only_quits (E : env) (rq : request) (w : world)
    (ftp : FTP) (w0 : world) :
  ftp_connect E (host rq) (user rq) (passwd rq) (port rq) (retries rq) 2 w
    = (Ok ftp, w0) ->
  date_leb (date_of (start_dt rq)) (date_of (end_dt rq)) = false \/
  (valid_date (date_of (start_dt rq)) = true /\
   valid_date (date_of (end_dt rq)) = true /\ year (end_dt rq) < 9999 /\
   valid_time (start_hour rq) (start_min rq) /\
   valid_time (end_hour rq) (end_min rq) /\ 0 < step_minutes rq /\
   end_hour rq * 60 + end_min rq < start_hour rq * 60 + start_min rq) ->
  download_files_by_prefix E rq w =
    (Ok ([], []), mk_world (S (now w0)) (files w) (EvQuit :: trace w0)).
Proof.
  intros Hc Hempty.
  pose proof (files_unchanged _ _ w
                (confined_ftp_connect E (host rq) (user rq) (passwd rq)
                   (port rq) (retries rq) 2)) as Hfs.
  rewrite Hc in Hfs. cbn [snd] in Hfs.
  rewrite (download_files_by_prefix_unfold E rq w ftp w0 Hc), Hfs.
  assert (Hw : wanted_dt_list (start_dt rq) (end_dt rq) (start_hour rq)
                 (start_min rq) (end_hour rq) (end_min rq) (step_minutes rq)
               = Ok []).
  { destruct Hempty as [Hlt | (Hsd & Hed & Hy & Hs & He & Hstep & Hlt)].
    - unfold wanted_dt_list. destruct (Z.to_nat _); cbn [expand_days];
        [reflexivity | now rewrite Hlt].
    - destruct (wanted_dt_list_spec (start_dt rq) (end_dt rq) _ _ _ _ _
                  Hsd Hed Hy Hs He Hstep) as (l & -> & Hl).
      destruct l as [|dt l]; [reflexivity|]. exfalso.
      destruct (proj1 (Hl dt) ltac:(left)) as (d & k & _ & _ & _ & Hk0 & Hk).
      assert (0 <= step_minutes rq * k) by (apply Z.mul_nonneg_nonneg; lia).
      lia. }
  now rewrite Hw.
Qed.

Lemma empty_window_only_quits_witness :
  download_files_by_prefix example_env
    (mk_request "ftp.example" "user" "secret" "/data" "RTU12"
       (mk_datetime 2023 9 6 0 0) (mk_datetime 2023 9 5 0 0)
       0 0 23 55 15 "downloads" "KL" 21 false 3) (init_world ∅) =
    (Ok ([], []), mk_world 3 ∅ [EvQuit; EvConnect 1]).
Proof.
  exact (empty_window_only_quits example_env
           (mk_request "ftp.example" "user" "secret" "/data" "RTU12"
              (mk_datetime 2023 9 6 0 0) (mk_datetime 2023 9 5 0 0)
              0 0 23 55 15 "downloads" "KL" 21 false 3) (init_world ∅)
           (mk_FTP true) (mk_world 2 ∅ [EvConnect 1]) eq_refl
           (or_introl eq_refl)).
Defined.

(** X12. A time of day that [datetime] rejects (an hour of 24, a minute of
    60, a negative value) is found only after the connection is made: for
    a window of at least one day, the run raises [ValueError] in the state
    the connection left, so nothing is resolved and the connection is not
    closed. *)
Theorem invalid_time_of_day_raises (E : env) (rq : request) (w : world)
    (ftp : FTP) (w0 : world) :
  ftp_connect E (host rq) (user rq) (passwd rq) (port rq) (retries rq) 2 w
    = (Ok ftp, w0) ->
  valid_date (date_of (start_dt rq)) = true ->
  valid_date (date_of (end_dt rq)) = true ->
  date_leb (date_of (start_dt rq)) (date_of (end_dt rq)) = true ->
  ~ valid_time (start_hour rq) (start_min rq) \/
  ~ valid_time (end_hour rq) (end_min rq) ->
  download_files_by_prefix E rq w =
    (Raise (ValueError "value is out of range"), w0).
Proof.
  intros Hc Hsd Hed Hle Hbad.
  rewrite (download_files_by_prefix_unfold E rq w ftp w0 Hc).
  assert (Hw : wanted_dt_list (start_dt rq) (end_dt rq) (start_hour rq)
                 (start_min rq) (end_hour rq) (end_min rq) (step_minutes rq)
               = Raise (ValueError "value is out of range")).
  { unfold wanted_dt_list.
    pose proof (proj1 (date_leb_toordinal _ _ Hsd Hed) Hle) as Hord.
    destruct (Z.to_nat _) as [|n] eqn:Hn; [lia|].
    cbn [expand_days]. rewrite Hle. unfold expand_day.
    destruct Hbad as [Hbad | Hbad].
    - now rewrite (datetime_new_bad _ _ _ _ _ Hbad).
    - rewrite (datetime_new_bad _ _ _ (end_hour rq) (end_min rq) Hbad).
      destruct (datetime_new _ _ _ (start_hour rq) (start_min rq)) as [sd|e] eqn:Hs;
        [reflexivity|].
      unfold datetime_new in Hs. destruct (valid_datetime _); [discriminate|].
      injection Hs as <-. reflexivity. }
  now rewrite Hw.
Qed.

Lemma invalid_time_of_day_raises_witness :
  download_files_by_prefix example_env
    (mk_request "ftp.example" "user" "secret" "/data" "RTU12"
       example_day example_day 0 0 24 0 15 "downloads" "KL" 21 false 3)
    (init_world ∅) =
    (Raise (ValueError "value is out of range"), mk_world 2 ∅ [EvConnect 1]).
Proof.
  refine (invalid_time_of_day_raises example_env
           (mk_request "ftp.example" "user" "secret" "/data" "RTU12"
              example_day example_day 0 0 24 0 15 "downloads" "KL" 21 false 3)
           (init_world ∅) (mk_FTP true) (mk_world 2 ∅ [EvConnect 1])
           eq_refl eq_refl eq_refl eq_refl (or_intror _)).
  unfold valid_time. cbn. lia.
Defined.

(** X13. The connection is closed exactly when the run returns. A run
    that returns has [quit] as its last action, whatever happened before
    (days not found, failed transfers, a cancel request). A run that
    raises has done nothing but try to connect: either no connection was
    made, or the window could not be expanded and the connection made is
    left without a [quit]. *)
Theorem run_quits_when_it_returns (E : env) (rq : request) (w : world) :
  let run := download_files_by_prefix E rq w in
  match fst run with
  | Ok _ => head (trace (snd run)) = Some EvQuit
  | Raise _ =>
      exists evs, trace (snd run) = evs ++ trace w /\ Forall connect_event evs
  end.
Proof.
  cbn zeta.
  destruct (connect_loop_events E (host rq) (user rq) (passwd rq) (port rq)
              (retries rq) 2 (Z.to_nat (retries rq)) 1 None w)
    as (evs & Hevs & Hall).
  fold (ftp_connect E (host rq) (user rq) (passwd rq) (port rq) (retries rq) 2)
    in Hevs.
  destruct (download_files_by_prefix E rq w) as [r w'] eqn:Hrun.
  apply download_files_by_prefix_run in Hrun. cbn [fst snd].
  destruct Hrun as [e w0 Hc | ftp w0 e Hc Hw | ftp w0 Hc Hw
                   | ftp w0 wanted e w1 Hc Hw Hml | ftp w0 wanted acc w1 Hc Hw Hml];
    rewrite Hc in Hevs; cbn [snd] in Hevs.
  - now exists evs.
  - now exists evs.
  - now rewrite quit_quietly_world.
  - destruct (main_loop_counts E rq ftp wanted ∅ [] [] w0)
      as (d & f & w2 & Heq & _).
    rewrite Hml in Heq. discriminate.
  - now rewrite quit_quietly_world.
Qed.

(** X14. A cancel request that is already there when the connection is
    made: the run reads it at the head of its first pass, resolves no
    folder, makes no attempt, quits and returns two empty collections.
    The request does not prevent the connection itself, which is made
    before the first reading. *)
Theorem cancelled_run_only_quits (E : env) (rq : request) (w : world)
    (ftp : FTP) (w0 : world) (wanted : list datetime) :
  ftp_connect E (host rq) (user rq) (passwd rq) (port rq) (retries rq) 2 w
    = (Ok ftp, w0) ->
  wanted_dt_list (start_dt rq) (end_dt rq) (start_hour rq) (start_min rq)
    (end_hour rq) (end_min rq) (step_minutes rq) = Ok wanted ->
  cancel_at E (now w0) = true ->
  exists w',
    download_files_by_prefix E rq w = (Ok ([], []), w') /\
    trace w' = EvQuit :: trace w0 /\ files w' = files w.
Proof.
  intros Hc Hw Hcancel.
  pose proof (files_unchanged _ _ w
                (confined_ftp_connect E (host rq) (user rq) (passwd rq)
                   (port rq) (retries rq) 2)) as Hfs.
  rewrite Hc in Hfs. cbn [snd] in Hfs.
  rewrite (download_files_by_prefix_unfold E rq w ftp w0 Hc), Hw.
  destruct wanted as [|dt rest]; [eexists; repeat split; exact Hfs|].
  cbn [main_loop]. unfold bind at 1, bind at 1, cancel_requested at 1, ask at 1.
  cbn beta iota. rewrite Hcancel. unfold ret at 1. cbn beta iota.
  unfold bind, ret. rewrite quit_quietly_world. cbn [now files trace].
  eexists. repeat split. exact Hfs.
Qed.

Lemma cancelled_run_only_quits_witness :
  exists w',
    download_files_by_prefix
      (mk_env (fun _ => true) (fun _ => false)
         (fun _ _ _ => None) (fun _ _ _ => None)
         (fun _ _ => None) (fun _ => Ok "/") (fun _ _ => Ok ["RTU12_0600.txt"])
         (fun _ _ => Ok None) (fun _ _ => mk_retr [] None)
         (fun _ _ => None) (fun _ _ => None) (fun _ _ => None)
         (fun _ => None))
      example_request (init_world ∅) = (Ok ([], []), w') /\
    trace w' = [EvQuit; EvConnect 1] /\ files w' = ∅.
Proof.
  exact (cancelled_run_only_quits
           (mk_env (fun _ => true) (fun _ => false)
              (fun _ _ _ => None) (fun _ _ _ => None)
              (fun _ _ => None) (fun _ => Ok "/") (fun _ _ => Ok ["RTU12_0600.txt"])
              (fun _ _ => Ok None) (fun _ _ => mk_retr [] None)
              (fun _ _ => None) (fun _ _ => None) (fun _ _ => None)
              (fun _ => None))
           example_request (init_world ∅) (mk_FTP true)
           (mk_world 2 ∅ [EvConnect 1]) [example_day]
           eq_refl eq_refl eq_refl).
Defined.

(** X15. The two [break]s chain. When a cancel request is there from some
    instant on, the loop over the files of a day that reaches its next
    pass stops there, and the loop over the days that follows it stops at
    its next pass too: from that instant the rest of the run resolves
    nothing, lists nothing, attempts nothing and touches no file; the
    collections are returned as they were. *)
Theorem cancel_stops_both_loops (E : env) (rq : request) (ftp : FTP)
    (dt : datetime) (remote_path : string) (fnames : list string)
    (rest : list datetime) (dates_seen : gset (Z * Z * Z))
    (acc : list string * list string) (w : world) :
  (forall t, (now w <= t)%nat -> cancel_at E t = true) ->
  exists w',
    (acc' <- file_loop E rq ftp dt remote_path fnames acc ;;
     main_loop E rq ftp rest dates_seen acc') w = (Ok acc, w') /\
    trace w' = trace w /\ files w' = files w.
Proof.
  intros Hcancel.
  assert (Hfile : exists w1,
    file_loop E rq ftp dt remote_path fnames acc w = (Ok acc, w1) /\
    trace w1 = trace w /\ files w1 = files w /\ (now w <= now w1)%nat).
  { destruct fnames as [|fname fnames']; cbn [file_loop].
    - exists w. auto.
    - unfold bind, cancel_requested, ask. rewrite (Hcancel (now w)) by lia.
      eexists. unfold ret. split; [reflexivity|]. cbn. auto. }
  destruct Hfile as (w1 & Hf & Htr & Hfs & Hnow).
  unfold bind at 1. rewrite Hf.
  destruct rest as [|dt' rest']; cbn [main_loop].
  - exists w1. auto.
  - unfold bind, cancel_requested, ask. rewrite (Hcancel (now w1)) by lia.
    eexists. unfold ret. split; [reflexivity|]. cbn. auto.
Qed.

Lemma cancel_stops_both_loops_witness :
  exists w',
    (acc' <- file_loop
               (mk_env (fun _ => true) (fun _ => false)
                  (fun _ _ _ => None) (fun _ _ _ => None)
                  (fun _ _ => None) (fun _ => Ok "/") (fun _ _ => Ok [])
                  (fun _ _ => Ok None) (fun _ _ => mk_retr [] None)
                  (fun _ _ => None) (fun _ _ => None) (fun _ _ => None)
                  (fun _ => None))
               example_request FTP_new example_day "/data/2023/09/05"
               ["RTU12_0600.txt"] (["a"], ["b"]) ;;
     main_loop
       (mk_env (fun _ => true) (fun _ => false)
          (fun _ _ _ => None) (fun _ _ _ => None)
          (fun _ _ => None) (fun _ => Ok "/") (fun _ _ => Ok [])
          (fun _ _ => Ok None) (fun _ _ => mk_retr [] None)
          (fun _ _ => None) (fun _ _ => None) (fun _ _ => None)
          (fun _ => None))
       example_request FTP_new [mk_datetime 2023 9 6 0 0] ∅ acc')
      (init_world ∅) = (Ok (["a"], ["b"]), w') /\
    trace w' = [] /\ files w' = ∅.
Proof.
  exact (cancel_stops_both_loops
           (mk_env (fun _ => true) (fun _ => false)
              (fun _ _ _ => None) (fun _ _ _ => None)
              (fun _ _ => None) (fun _ => Ok "/") (fun _ _ => Ok [])
              (fun _ _ => Ok None) (fun _ _ => mk_retr [] None)
              (fun _ _ => None) (fun _ _ => None) (fun _ _ => None)
              (fun _ => None))
           example_request FTP_new example_day "/data/2023/09/05"
           ["RTU12_0600.txt"] [mk_datetime 2023 9 6 0 0] ∅ (["a"], ["b"])
           (init_world ∅) (fun _ _ => eq_refl)).
Defined.

(** ** Only the days of the window *)

Lemma main_loop_days_within (E : env) (rq : request) (ftp : FTP)
    (wanted : list datetime) :
  forall (dates_seen : gset (Z * Z * Z)) (acc : list string * list string)
         (w : world) (r : result (list string * list string)) (w' : world),
    main_loop E rq ftp wanted dates_seen acc w = (r, w') ->
    (forall k, k ∈ resolved_days (trace w') ->
       k ∈ resolved_days (trace w) \/ exists dt, dt ∈ wanted /\ k = date_key dt) /\
    (forall k, k ∈ listed_days (trace w') ->
       k ∈ listed_days (trace w) \/ exists dt, dt ∈ wanted /\ k = date_key dt).
Proof.
  induction wanted as [|dt rest IH]; intros seen acc w r w' Hrun;
    cbn [main_loop] in Hrun.
  { injection Hrun as _ <-. split; intros k Hk; left; exact Hk. }
  assert (Hnew : forall (l0 l1 : list (Z * Z * Z)) k,
    l1 = l0 ++ [date_key dt] \/ l1 = l0 -> k ∈ l1 ->
    k ∈ l0 \/ exists d, d ∈ dt :: rest /\ k = date_key d).
  { intros l0 l1 k [-> | ->] Hk; [|now left].
    apply elem_of_app in Hk as [Hk | Hk]; [now left|].
    apply list_elem_of_singleton in Hk as ->. right. exists dt.
    split; [left | reflexivity]. }
  assert (Hrest : forall seen' acc' w1,
    resolved_days (trace w1) = resolved_days (trace w) ++ [date_key dt] \/
    resolved_days (trace w1) = resolved_days (trace w) ->
    listed_days (trace w1) = listed_days (trace w) ++ [date_key dt] \/
    listed_days (trace w1) = listed_days (trace w) ->
    main_loop E rq ftp rest seen' acc' w1 = (r, w') ->
    (forall k, k ∈ resolved_days (trace w') ->
       k ∈ resolved_days (trace w) \/
       exists d, d ∈ dt :: rest /\ k = date_key d) /\
    (forall k, k ∈ listed_days (trace w') ->
       k ∈ listed_days (trace w) \/
       exists d, d ∈ dt :: rest /\ k = date_key d)).
  { intros seen' acc' w1 Hres Hlis Hrun1.
    destruct (IH seen' acc' w1 r w' Hrun1) as [Hr Hl]. split; intros k Hk.
    - destruct (Hr k Hk) as [Hold | (d & Hd & ->)]; [now apply (Hnew _ _ k Hres)|].
      right. exists d. split; [now right | reflexivity].
    - destruct (Hl k Hk) as [Hold | (d & Hd & ->)]; [now apply (Hnew _ _ k Hlis)|].
      right. exists d. split; [now right | reflexivity]. }
  unfold bind at 1, cancel_requested at 1, ask at 1 in Hrun.
  cbn beta iota in Hrun.
  set (w1 := mk_world (S (now w)) (files w) (trace w)) in Hrun.
  destruct (cancel_at E (now w)).
  { injection Hrun as _ <-. split; intros k Hk; left; exact Hk. }
  destruct (decide (date_key dt ∈ seen)).
  { apply (Hrest seen acc w1); [now right | now right | exact Hrun]. }
  pose proof (find_existing_remote_path_days E ftp (remote_dir_base rq) dt w1)
    as [Hres Hlis]. cbn zeta in Hres, Hlis.
  unfold bind at 1 in Hrun.
  destruct (find_existing_remote_path E ftp (remote_dir_base rq) dt w1)
    as [[found|e] w2]; cbn [snd] in Hres, Hlis.
  2:{ injection Hrun as _ <-. split; intros k Hk.
      - apply (Hnew _ _ k (or_introl Hres) Hk).
      - apply (Hnew _ _ k (or_intror Hlis) Hk). }
  destruct found as [[|c remote_path]|].
  - eapply Hrest; [| | exact Hrun]; [now left | now right].
  - pose proof (list_folder_days E dt (String c remote_path) w2) as [Hres3 Hlis3].
    cbn zeta in Hres3, Hlis3. unfold bind at 1 in Hrun.
    destruct (list_folder E dt (String c remote_path) w2) as [[fnames|e] w3];
      cbn [snd] in Hres3, Hlis3.
    2:{ injection Hrun as _ <-. rewrite Hres in Hres3. split; intros k Hk.
        - apply (Hnew _ _ k (or_introl Hres3) Hk).
        - rewrite Hlis in Hlis3. apply (Hnew _ _ k (or_introl Hlis3) Hk). }
    destruct (days_unchanged anywhere not_day
                (file_loop E rq ftp dt (String c remote_path) fnames acc) w3)
      as [Hres4 Hlis4]; [auto | apply confined_file_loop |].
    unfold bind at 1 in Hrun.
    destruct (file_loop E rq ftp dt (String c remote_path) fnames acc w3)
      as [[acc'|e] w4]; cbn [snd] in Hres4, Hlis4.
    2:{ injection Hrun as _ <-. rewrite Hres3, Hres in Hres4.
        rewrite Hlis3, Hlis in Hlis4. split; intros k Hk.
        - apply (Hnew _ _ k (or_introl Hres4) Hk).
        - apply (Hnew _ _ k (or_introl Hlis4) Hk). }
    eapply Hrest; [| | exact Hrun]; left.
    + now rewrite Hres4, Hres3, Hres.
    + now rewrite Hlis4, Hlis3, Hlis.
  - eapply Hrest; [| | exact Hrun]; [now left | now right].
Qed.

(** X16. A run looks only at the days of its window: every folder it
    resolves and every folder it lists is the one of the day of a wanted
    timestamp, in every run, whether it returns, is cancelled or raises. *)
Theorem run_resolves_only_wanted_days (E : env) (rq : request) (w : world) :
  let w' := snd (download_files_by_prefix E rq w) in
  forall k,
    (k ∈ resolved_days (trace w') /\ k ∉ resolved_days (trace w)) \/
    (k ∈ listed_days (trace w') /\ k ∉ listed_days (trace w)) ->
    exists wanted dt,
      wanted_dt_list (start_dt rq) (end_dt rq) (start_hour rq) (start_min rq)
        (end_hour rq) (end_min rq) (step_minutes rq) = Ok wanted /\
      dt ∈ wanted /\ k = date_key dt.
Proof.
  cbn zeta.
  assert (Hconn : forall r0 w0,
    ftp_connect E (host rq) (user rq) (passwd rq) (port rq) (retries rq) 2 w
      = (r0, w0) ->
    resolved_days (trace w0) = resolved_days (trace w) /\
    listed_days (trace w0) = listed_days (trace w)).
  { intros r0 w0 Hc.
    pose proof (days_unchanged nowhere net_only
                  (ftp_connect E (host rq) (user rq) (passwd rq) (port rq)
                     (retries rq) 2) w) as H.
    rewrite Hc in H. apply H; [now intros [] | apply confined_ftp_connect]. }
  assert (Hquit : forall w1,
    resolved_days (trace (snd (quit_quietly E w1))) = resolved_days (trace w1) /\
    listed_days (trace (snd (quit_quietly E w1))) = listed_days (trace w1)).
  { intros w1. apply (days_unchanged nowhere net_only); [now intros []|].
    apply confined_quit_quietly. }
  destruct (download_files_by_prefix E rq w) as [r w'] eqn:Hrun.
  apply download_files_by_prefix_run in Hrun. cbn [snd].
  destruct Hrun as [e w0 Hc | ftp w0 e Hc Hw | ftp w0 Hc Hw
                   | ftp w0 wanted e w1 Hc Hw Hml | ftp w0 wanted acc w1 Hc Hw Hml];
    destruct (Hconn _ _ Hc) as [Hr0 Hl0]; intros k Hk.
  - rewrite Hr0, Hl0 in Hk. tauto.
  - rewrite Hr0, Hl0 in Hk. tauto.
  - destruct (Hquit w0) as [Hq1 Hq2]. rewrite Hq1, Hq2, Hr0, Hl0 in Hk. tauto.
  - destruct (main_loop_days_within E rq ftp wanted ∅ ([], []) w0 _ _ Hml)
      as [Hr Hl].
    rewrite Hr0 in Hr. rewrite Hl0 in Hl.
    exists wanted.
    destruct Hk as [[Hin Hout] | [Hin Hout]];
      [destruct (Hr k Hin) as [? | (dt & ? & ?)]
      | destruct (Hl k Hin) as [? | (dt & ? & ?)]]; try tauto; eauto.
  - destruct (Hquit w1) as [Hq1 Hq2]. rewrite Hq1, Hq2 in Hk.
    destruct (main_loop_days_within E rq ftp wanted ∅ ([], []) w0 _ _ Hml)
      as [Hr Hl].
    rewrite Hr0 in Hr. rewrite Hl0 in Hl.
    exists wanted.
    destruct Hk as [[Hin Hout] | [Hin Hout]];
      [destruct (Hr k Hin) as [? | (dt & ? & ?)]
      | destruct (Hl k Hin) as [? | (dt & ? & ?)]]; try tauto; eauto.
Qed.

Lemma run_resolves_only_wanted_days_witness :
  let w' := snd (download_files_by_prefix example_env example_request
                   (init_world ∅)) in
  ((2023, 9, 5) ∈ resolved_days (trace w') /\
   (2023, 9, 5) ∉ resolved_days (trace (init_world ∅))) /\
  exists wanted dt,
    wanted_dt_list example_day example_day 0 0 0 0 15 = Ok wanted /\
    dt ∈ wanted /\ (2023, 9, 5) = date_key dt.
Proof.
  cbn zeta.
  assert (H : (2023, 9, 5) ∈ resolved_days (trace (snd
                (download_files_by_prefix example_env example_request
                   (init_world ∅)))) /\
              (2023, 9, 5) ∉ resolved_days (trace (init_world ∅))).
  { split.
    - replace (resolved_days _) with [(2023, 9, 5)] by (vm_compute; reflexivity).
      left.
    - cbn. apply not_elem_of_nil. }
  split; [exact H|].
  exact (run_resolves_only_wanted_days example_env example_request
           (init_world ∅) (2023, 9, 5) (or_introl H)).
Defined.

(** ** The worker *)

Lemma keeping_station_loop (E : env) (cfg : server_cfg) (prm : params)
    (stations : list string) (totals : Z * Z) :
  keeping (station_loop E cfg prm stations totals).
Proof.
  revert totals. induction stations as [|station rest IH]; intros totals;
    cbn [station_loop]; [apply keeping_ret|].
  apply keeping_bind; [apply (keeping_confined net_only), confined_ask | intros c].
  destruct c; [apply keeping_ret|].
  destruct (station_window prm) as [[s e]|ex].
  - apply keeping_bind; [apply keeping_download_files_by_prefix | intros r].
    apply keeping_bind; [|intros; apply IH].
    apply (keeping_confined (fun _ => true)), confined_emit. reflexivity.
  - apply keeping_bind; [|intros; apply IH].
    apply (keeping_confined (fun _ => true)), confined_emit. reflexivity.
Qed.


(** X18. One station without a connection ends the whole run of the
    worker. When no connection can be made for a station (three attempts,
    the default of the downloader), the loop over the stations raises at
    that station, with the totals of the stations before it lost; the
    worker reports [Error] and the stations after it are not tried. *)
Theorem worker_stops_at_failed_connection (E : env) (cfg : server_cfg)
    (prm : params) (station : string) (rest : list string) (totals : Z * Z)
    (w : world) (e : exn) (w2 : world) :
  cancel_event_at E (now w) = false ->
  is_ok (station_window prm) = true ->
  ftp_connect E (cfg_host cfg) (cfg_user cfg) (cfg_pass cfg) (cfg_port cfg) 3 2
    (mk_world (S (now w)) (files w) (trace w)) = (Raise e, w2) ->
  station_loop E cfg prm (station :: rest) totals w = (Raise e, w2) /\
  _worker E cfg prm (station :: rest) w =
    (Ok None, mk_world (now w2) (files w2) (EvError e :: trace w2)).
Proof.
  intros Hcancel Hwin Hconn.
  assert (Hloop : forall totals',
    station_loop E cfg prm (station :: rest) totals' w = (Raise e, w2)).
  { intros totals'. cbn [station_loop]. unfold bind at 1, ask at 1.
    cbn beta iota. rewrite Hcancel.
    destruct (station_window prm) as [[s e']|ex]; [|discriminate].
    unfold bind at 1. unfold download_files_by_prefix. unfold bind at 1.
    cbn [worker_request host user passwd port retries]. now rewrite Hconn. }
  split; [apply Hloop|].
  unfold _worker, try_catch. unfold bind at 1. rewrite Hloop.
  reflexivity.
Qed.

Lemma worker_stops_at_failed_connection_witness :
  _worker (flaky_env 6) example_cfg
    (whole_day_params example_day example_day "downloads" "KL" "")
    ["RTU12"; "RTU13"] (init_world ∅) =
    (Ok None,
     mk_world 4 ∅
       [EvError (ConnectionError 3 (Some (OSError "timed out")));
        EvSleep 2; EvConnect 3; EvSleep 2; EvConnect 2; EvSleep 2; EvConnect 1]).
Proof.
  exact (proj2 (worker_stops_at_failed_connection (flaky_env 6) example_cfg
           (whole_day_params example_day example_day "downloads" "KL" "")
           "RTU12" ["RTU13"] (0, 0) (init_world ∅)
           (ConnectionError 3 (Some (OSError "timed out")))
           (mk_world 4 ∅ [EvSleep 2; EvConnect 3; EvSleep 2; EvConnect 2;
                          EvSleep 2; EvConnect 1])
           eq_refl eq_refl eq_refl)).
Defined.

Lemma download_files_by_prefix_counts (E : env) (rq : request) (w : world)
    (downloaded failed : list string) (w' : world) :
  download_files_by_prefix E rq w = (Ok (downloaded, failed), w') ->
  (length downloaded + length failed + length (attempts (trace w))
   = length (attempts (trace w')))%nat.
Proof.
  intros Hrun. apply download_files_by_prefix_run in Hrun.
  assert (Hconn : forall (r0 : result FTP) w0,
    ftp_connect E (host rq) (user rq) (passwd rq) (port rq) (retries rq) 2 w
      = (r0, w0) ->
    attempts (trace w0) = attempts (trace w)).
  { intros r0 w0 Hc.
    pose proof (attempts_unchanged nowhere net_only
                  (ftp_connect E (host rq) (user rq) (passwd rq) (port rq)
                               (retries rq) 2) w) as H.
    rewrite Hc in H. apply H; [now intros [] | apply confined_ftp_connect]. }
  assert (Hquit : forall w1,
    attempts (trace (snd (quit_quietly E w1))) = attempts (trace w1)).
  { intros w1. apply (attempts_unchanged nowhere net_only); [now intros []|].
    apply confined_quit_quietly. }
  inversion Hrun as [e w0 Hc | ftp w0 e Hc Hw | ftp w0 Hc Hw
                    | ftp w0 wanted e w1 Hc Hw Hml
                    | ftp w0 wanted acc w1 Hc Hw Hml]; subst.
  - rewrite Hquit, (Hconn _ _ Hc). reflexivity.
  - rewrite Hquit.
    destruct (main_loop_counts E rq ftp wanted ∅ [] [] w0)
      as (d' & f' & w2 & Heq & Hlen).
    rewrite Hml in Heq. injection Heq as <- <- <-.
    rewrite (Hconn _ _ Hc) in Hlen. cbn in Hlen. lia.
Qed.

Lemma station_loop_counts (E : env) (cfg : server_cfg) (prm : params)
    (stations : list string) :
  forall (totals : Z * Z) (w : world) (r : Z * Z) (w' : world),
    station_loop E cfg prm stations totals w = (Ok r, w') ->
    fst totals <= fst r /\ snd totals <= snd r /\
    fst r + snd r + Z.of_nat (length (attempts (trace w)))
    = fst totals + snd totals + Z.of_nat (length (attempts (trace w'))).
Proof.
  induction stations as [|station rest IH]; intros totals w r w' Hrun;
    cbn [station_loop] in Hrun.
  { injection Hrun as <- <-. lia. }
  unfold bind at 1, ask at 1 in Hrun. cbn beta iota in Hrun.
  destruct (cancel_event_at E (now w)).
  { injection Hrun as <- <-. cbn. lia. }
  destruct (station_window prm) as [[s e]|ex].
  - unfold bind at 1 in Hrun.
    match type of Hrun with context [download_files_by_prefix E ?rq ?w1] =>
      destruct (download_files_by_prefix E rq w1) as [[[d f]|e0] w2] eqn:Hd;
        [|discriminate];
      apply download_files_by_prefix_counts in Hd end.
    rewrite bind_emit in Hrun. apply IH in Hrun. cbn in Hrun, Hd. cbn.
    rewrite app_nil_r in Hrun. lia.
  - rewrite bind_emit in Hrun. apply IH in Hrun. cbn in Hrun.
    rewrite app_nil_r in Hrun. exact Hrun.
Qed.

(** X19. The totals of the worker are counts of attempted files. When the
    worker completes, [Completed: ok, failed] adds up to the number of
    files attempted over all its stations: every attempt of every station
    is counted once, as a success or as a failure. *)
Theorem worker_totals_count_attempts (E : env) (cfg : server_cfg)
    (prm : params) (stations : list string) (w : world) (ok ko : Z)
    (w' : world) :
  _worker E cfg prm stations w = (Ok (Some (ok, ko)), w') ->
  0 <= ok /\ 0 <= ko /\
  ok + ko + Z.of_nat (length (attempts (trace w)))
  = Z.of_nat (length (attempts (trace w'))).
Proof.
  unfold _worker, try_catch. unfold bind at 1.
  destruct (station_loop E cfg prm stations (0, 0) w) as [[totals|e] w1] eqn:Hs.
  - unfold bind, emit, ret. cbn. intros H. injection H as -> <-.
    apply station_loop_counts in Hs. cbn in *. rewrite app_nil_r. lia.
  - unfold bind, emit, ret. cbn. discriminate.
Qed.

Lemma worker_totals_count_attempts_witness :
  exists w',
    _worker example_env example_cfg
      (whole_day_params example_day example_day "downloads" "KL" "")
      ["RTU12"; "other"] (init_world ∅) = (Ok (Some (2, 0)), w') /\
    0 <= 2 /\ 0 <= 0 /\
    2 + 0 + Z.of_nat (length (attempts (trace (init_world ∅))))
    = Z.of_nat (length (attempts (trace w'))).
Proof.
  assert (H : _worker example_env example_cfg
                (whole_day_params example_day example_day "downloads" "KL" "")
                ["RTU12"; "other"] (init_world ∅) =
              (Ok (Some (2, 0)),
               snd (_worker example_env example_cfg
                      (whole_day_params example_day example_day "downloads" "KL" "")
                      ["RTU12"; "other"] (init_world ∅))))
    by (vm_compute; reflexivity).
  eexists. split; [exact H|].
  exact (worker_totals_count_attempts _ _ _ _ _ _ _ _ H).
Defined.

(** X20. The nightly job. With the parameters [_scheduled_job] builds, the
    window of every station is the day before, from midnight to midnight;
    the run of a station wants the 96 quarters of an hour of that day,
    from 00:00 to 23:45, and every one of them has the key of that day:
    the job looks at one folder per station, that of yesterday. *)
Theorem scheduled_job_window (yesterday : date) (local_folder state : string)
    (cfg : server_cfg) (station : string) :
  valid_date yesterday = true -> dyear yesterday < 9999 ->
  let prm := scheduled_params yesterday local_folder state in
  let rq := worker_request cfg prm station (midnight yesterday)
              (midnight yesterday) in
  station_window prm = Ok (midnight yesterday, midnight yesterday) /\
  wanted_dt_list (start_dt rq) (end_dt rq) (start_hour rq) (start_min rq)
    (end_hour rq) (end_min rq) (step_minutes rq)
    = Ok (every_step yesterday 0 15 96) /\
  last (every_step yesterday 0 15 96) = Some (at_minute yesterday (23 * 60 + 45)) /\
  forall dt, dt ∈ every_step yesterday 0 15 96 ->
             date_key dt = (dyear yesterday, dmonth yesterday, dday yesterday).
Proof.
  intros Hv Hy. cbn zeta. split; [reflexivity|]. split; [|split].
  - cbn [worker_request scheduled_params whole_day_params start_dt end_dt
         start_hour start_min end_hour end_min step_minutes p_start_hour
         p_start_min p_end_hour p_end_min p_step_minutes].
    unfold wanted_dt_list. 
    change (date_of (midnight yesterday)) with
      (mk_date (dyear yesterday) (dmonth yesterday) (dday yesterday)).
    replace (mk_date (dyear yesterday) (dmonth yesterday) (dday yesterday))
      with yesterday by (now destruct yesterday).
    replace (Z.to_nat (toordinal yesterday - toordinal yesterday + 1))
      with 1%nat by lia.
    cbn [expand_days].
    assert (Hle : date_leb yesterday yesterday = true)
      by (apply date_leb_spec; now right).
    rewrite Hle.
    rewrite expand_day_closed by (unfold valid_time; (assumption || lia)).
    destruct (next_day_ok yesterday Hy) as [tomorrow ->].
    cbn [rbind]. now rewrite app_nil_r.
  - reflexivity.
  - intros dt Hdt. unfold every_step in Hdt.
    apply list_elem_of_fmap in Hdt as (k & -> & _). reflexivity.
Qed.

Lemma scheduled_job_window_witness :
  wanted_dt_list (midnight (mk_date 2023 9 5)) (midnight (mk_date 2023 9 5))
    0 0 23 55 15 = Ok (every_step (mk_date 2023 9 5) 0 15 96).
Proof.
  refine (proj1 (proj2 (scheduled_job_window (mk_date 2023 9 5) "downloads" "KL"
                          example_cfg "RTU12" eq_refl _))).
  cbn. lia.
Defined.

(** ** The probes of a resolution *)

Lemma probe_candidates_trace (E : env) (candidates : list string) :
  forall w : world,
    exists found tried untried w',
      probe_candidates E candidates w = (Ok found, w') /\
      candidates = tried ++ untried /\
      trace w' = map EvCwd (reverse tried) ++ trace w /\
      files w' = files w /\
      match found with
      | Some c => last tried = Some c
      | None => untried = []
      end.
Proof.
  induction candidates as [|c rest IH]; intros w; cbn [probe_candidates].
  { exists None, [], [], w. repeat split. }
  destruct (cwd_at E (now w) c) as [e|] eqn:Hcwd.
  - erewrite try_raise;
      [|erewrite bind_raise; [reflexivity | apply ftp_cwd_raise; exact Hcwd]].
    destruct (IH (mk_world (S (now w)) (files w) (EvCwd c :: trace w)))
      as (found & tried & untried & w' & Heq & -> & Htr & Hfs & Hfound).
    exists found, (c :: tried), untried, w'.
    split; [exact Heq|]. split; [reflexivity|]. split; [|split; [exact Hfs|]].
    + rewrite Htr, reverse_cons, map_app. cbn. now rewrite <- app_assoc.
    + destruct found as [c'|]; [|exact Hfound].
      destruct tried as [|t tried']; [discriminate|]. exact Hfound.
  - exists (Some c), [c], rest.
    eexists. split.
    { erewrite try_ok; [reflexivity|].
      erewrite bind_ok; [|apply ftp_cwd_ok; exact Hcwd].
      unfold ftp_pwd, bind, try_catch, ask, lift_result, ret. cbn.
      destruct (pwd_at E (S (now w))); reflexivity. }
    repeat split.
Qed.


(** ** What is attempted *)

Lemma probe_candidates_member (E : env) (candidates : list string) (w : world)
    (c : string) (w' : world) :
  probe_candidates E candidates w = (Ok (Some c), w') -> c ∈ candidates.
Proof.
  intros Heq.
  destruct (probe_candidates_trace E candidates w)
    as (found & tried & untried & w1 & Heq1 & -> & _ & _ & Hfound).
  rewrite Heq in Heq1. injection Heq1 as <- <-.
  apply elem_of_app. left. apply last_Some in Hfound as [l' ->].
  apply elem_of_app. right. now left.
Qed.

Lemma file_loop_attempts (E : env) (rq : request) (ftp : FTP) (dt : datetime)
    (remote_path : string) (fnames : list string) :
  forall (acc : list string * list string) (w : world)
         (r : result (list string * list string)) (w' : world),
    file_loop E rq ftp dt remote_path fnames acc w = (r, w') ->
    exists atts,
      attempts (trace w') = attempts (trace w) ++ atts /\
      Forall (fun a =>
        att_remote_path a = remote_path /\
        matches_station_file (att_base_fname a) (station_id rq) = true /\
        has_slash (att_base_fname a) = false /\
        att_local_path a = local_path_of rq dt (att_base_fname a)) atts.
Proof.
  induction fnames as [|fname rest IH]; intros acc w r w' Hrun;
    cbn [file_loop] in Hrun.
  { injection Hrun as _ <-. exists []. now rewrite app_nil_r. }
  unfold bind at 1, cancel_requested at 1, ask at 1 in Hrun.
  cbn beta iota in Hrun.
  set (w1 := mk_world (S (now w)) (files w) (trace w)) in Hrun.
  destruct (cancel_at E (now w)).
  { injection Hrun as _ <-. exists []. now rewrite app_nil_r. }
  destruct (matches_station_file (basename fname) (station_id rq)) eqn:Hm;
    cbn [negb] in Hrun.
  2:{ apply (IH acc w1 r w' Hrun). }
  destruct acc as [downloaded failed].
  destruct (attempt_file_outcome E rq ftp dt remote_path (basename fname)
              downloaded failed w1) as (r1 & w2 & Heq & _ & Hatt).
  unfold bind at 1 in Hrun. rewrite Heq in Hrun.
  destruct (IH r1 w2 r w' Hrun) as (atts & Htr & Hall).
  eexists (_ :: atts). split.
  - rewrite Htr, Hatt. cbn [w1 trace]. now rewrite <- app_assoc.
  - constructor; [|exact Hall]. cbn. repeat split; [exact Hm|].
    apply basename_no_slash.
Qed.

Lemma main_loop_attempts (E : env) (rq : request) (ftp : FTP)
    (wanted : list datetime) :
  forall (dates_seen : gset (Z * Z * Z)) (acc : list string * list string)
         (w : world) (r : result (list string * list string)) (w' : world),
    main_loop E rq ftp wanted dates_seen acc w = (r, w') ->
    exists atts,
      attempts (trace w') = attempts (trace w) ++ atts /\
      Forall (proper_attempt rq wanted) atts.
Proof.
  induction wanted as [|dt rest IH]; intros seen acc w r w' Hrun;
    cbn [main_loop] in Hrun.
  { injection Hrun as _ <-. exists []. now rewrite app_nil_r. }
  assert (Hweak : forall atts,
    Forall (proper_attempt rq rest) atts ->
    Forall (proper_attempt rq (dt :: rest)) atts).
  { intros atts Hatts. eapply Forall_impl; [exact Hatts|].
    intros a (Hm & Hs & d & Hd & Hp & Hl). repeat split; try assumption.
    exists d. repeat split; try assumption. now right. }
  assert (Hrest : forall seen' acc' w1,
    attempts (trace w1) = attempts (trace w) ->
    main_loop E rq ftp rest seen' acc' w1 = (r, w') ->
    exists atts,
      attempts (trace w') = attempts (trace w) ++ atts /\
      Forall (proper_attempt rq (dt :: rest)) atts).
  { intros seen' acc' w1 Hsame Hrun1.
    destruct (IH seen' acc' w1 r w' Hrun1) as (atts & Htr & Hall).
    exists atts. rewrite Htr, Hsame. split; [reflexivity | now apply Hweak]. }
  unfold bind at 1, cancel_requested at 1, ask at 1 in Hrun.
  cbn beta iota in Hrun.
  set (w1 := mk_world (S (now w)) (files w) (trace w)) in Hrun.
  destruct (cancel_at E (now w)).
  { injection Hrun as _ <-. exists []. now rewrite app_nil_r. }
  destruct (decide (date_key dt ∈ seen)).
  { eapply Hrest; [|exact Hrun]. reflexivity. }
  pose proof (attempts_unchanged nowhere net_or_day
                (find_existing_remote_path E ftp (remote_dir_base rq) dt) w1
                ltac:(now intros [])
                (confined_find_existing_remote_path E ftp (remote_dir_base rq) dt))
    as Hatt2.
  unfold bind at 1 in Hrun.
  destruct (find_existing_remote_path E ftp (remote_dir_base rq) dt w1)
    as [[found|e] w2] eqn:Hfind; cbn [snd] in Hatt2.
  2:{ injection Hrun as _ <-. exists []. now rewrite app_nil_r, Hatt2. }
  destruct found as [[|c remote_path]|].
  - eapply Hrest; [|exact Hrun]. exact Hatt2.
  - assert (Hcand : String c remote_path
                    ∈ build_possible_paths (remote_dir_base rq) dt).
    { unfold find_existing_remote_path in Hfind. rewrite bind_emit in Hfind.
      eapply probe_candidates_member. exact Hfind. }
    pose proof (attempts_unchanged nowhere net_or_day
                  (list_folder E dt (String c remote_path)) w2
                  ltac:(now intros [])
                  (confined_list_folder E dt (String c remote_path))) as Hatt3.
    unfold bind at 1 in Hrun.
    destruct (list_folder E dt (String c remote_path) w2) as [[fnames|e] w3];
      cbn [snd] in Hatt3.
    2:{ injection Hrun as _ <-. exists []. now rewrite app_nil_r, Hatt3, Hatt2. }
    unfold bind at 1 in Hrun.
    destruct (file_loop E rq ftp dt (String c remote_path) fnames acc w3)
      as [r4 w4] eqn:Hfl.
    destruct (file_loop_attempts E rq ftp dt (String c remote_path) fnames
                acc w3 r4 w4 Hfl) as (atts4 & Htr4 & Hall4).
    assert (Hall4' : Forall (proper_attempt rq (dt :: rest)) atts4).
    { eapply Forall_impl; [exact Hall4|].
      intros a (Hp & Hm & Hs & Hl). repeat split; try assumption.
      exists dt. repeat split; [left | now rewrite Hp | exact Hl]. }
    destruct r4 as [acc4|e].
    2:{ injection Hrun as _ <-. exists atts4.
        rewrite Htr4, Hatt3, Hatt2. split; [reflexivity | exact Hall4']. }
    destruct (IH _ acc4 w4 r w' Hrun) as (atts & Htr & Hall).
    exists (atts4 ++ atts). split.
    + rewrite Htr, Htr4, Hatt3, Hatt2. cbn [w1 trace]. now rewrite <- app_assoc.
    + apply Forall_app. split; [exact Hall4' | now apply Hweak].
  - eapply Hrest; [|exact Hrun]. exact Hatt2.
Qed.

(** X22. Only matching files are attempted, and only where they belong.
    In every run, each file for which a local path is computed has a base
    name that matches the station id (it starts with the id and ends with
    [.txt] in any case) and holds no slash; it was listed in a candidate
    folder of a wanted day, and its local path is the one of that name
    and that day. No local path is computed for a name that does not
    match. *)
Theorem attempts_are_matching_files (E : env) (rq : request) (w : world) :
  exists atts,
    attempts (trace (snd (download_files_by_prefix E rq w)))
      = attempts (trace w) ++ atts /\
    forall a, a ∈ atts ->
      exists wanted,
        wanted_dt_list (start_dt rq) (end_dt rq) (start_hour rq) (start_min rq)
          (end_hour rq) (end_min rq) (step_minutes rq) = Ok wanted /\
        proper_attempt rq wanted a.
Proof.
  assert (Hconn : forall (r0 : result FTP) w0,
    ftp_connect E (host rq) (user rq) (passwd rq) (port rq) (retries rq) 2 w
      = (r0, w0) ->
    attempts (trace w0) = attempts (trace w)).
  { intros r0 w0 Hc.
    pose proof (attempts_unchanged nowhere net_only
                  (ftp_connect E (host rq) (user rq) (passwd rq) (port rq)
                               (retries rq) 2) w) as H.
    rewrite Hc in H. apply H; [now intros [] | apply confined_ftp_connect]. }
  assert (Hquit : forall w1,
    attempts (trace (snd (quit_quietly E w1))) = attempts (trace w1)).
  { intros w1. apply (attempts_unchanged nowhere net_only); [now intros []|].
    apply confined_quit_quietly. }
  destruct (download_files_by_prefix E rq w) as [r w'] eqn:Hrun.
  apply download_files_by_prefix_run in Hrun. cbn [snd].
  destruct Hrun as [e w0 Hc | ftp w0 e Hc Hw | ftp w0 Hc Hw
                   | ftp w0 wanted e w1 Hc Hw Hml | ftp w0 wanted acc w1 Hc Hw Hml].
  - exists []. rewrite app_nil_r, (Hconn _ _ Hc). split; [reflexivity|].
    intros a Ha. now apply elem_of_nil in Ha.
  - exists []. rewrite app_nil_r, (Hconn _ _ Hc). split; [reflexivity|].
    intros a Ha. now apply elem_of_nil in Ha.
  - exists []. rewrite app_nil_r, Hquit, (Hconn _ _ Hc). split; [reflexivity|].
    intros a Ha. now apply elem_of_nil in Ha.
  - destruct (main_loop_attempts E rq ftp wanted ∅ ([], []) w0 _ _ Hml)
      as (atts & Htr & Hall).
    exists atts. rewrite Htr, (Hconn _ _ Hc). split; [reflexivity|].
    intros a Ha. exists wanted. split; [exact Hw|].
    rewrite Forall_forall in Hall. now apply Hall.
  - destruct (main_loop_attempts E rq ftp wanted ∅ ([], []) w0 _ _ Hml)
      as (atts & Htr & Hall).
    exists atts. rewrite Hquit, Htr, (Hconn _ _ Hc). split; [reflexivity|].
    intros a Ha. exists wanted. split; [exact Hw|].
    rewrite Forall_forall in Hall. now apply Hall.
Qed.

(** ** Test mode *)

Lemma adds_only_refl (P : event -> Prop) (w : world) : adds_only P w w.
Proof. exists []. split; [reflexivity | constructor]. Qed.

Lemma adds_only_trans (P : event -> Prop) (w1 w2 w3 : world) :
  adds_only P w1 w2 -> adds_only P w2 w3 -> adds_only P w1 w3.
Proof.
  intros (evs1 & H1 & Hall1) (evs2 & H2 & Hall2). exists (evs2 ++ evs1). split.
  - now rewrite H2, H1, app_assoc.
  - apply Forall_app. now split.
Qed.

Lemma adding_ret {A} (P : event -> Prop) (a : A) : adding P (ret a).
Proof. intros w. apply adds_only_refl. Qed.

Lemma adding_emit (P : event -> Prop) (e : event) : P e -> adding P (emit e).
Proof.
  intros He w. exists [e]. split; [reflexivity|]. constructor; [exact He | constructor].
Qed.

Lemma adding_bind {A B} (P : event -> Prop) (m : M A) (k : A -> M B) :
  adding P m -> (forall a, adding P (k a)) -> adding P (bind m k).
Proof.
  intros Hm Hk w. unfold bind. specialize (Hm w).
  destruct (m w) as [[a|e] w1]; cbn in *; [|assumption].
  eapply adds_only_trans; [exact Hm | apply Hk].
Qed.

Lemma adding_try_catch {A} (P : event -> Prop) (m : M A) (h : exn -> M A) :
  adding P m -> (forall e, adding P (h e)) -> adding P (try_catch m h).
Proof.
  intros Hm Hh w. unfold try_catch. specialize (Hm w).
  destruct (m w) as [[a|e] w1]; cbn in *; [assumption|].
  eapply adds_only_trans; [exact Hm | apply Hh].
Qed.

(** Computations without a write event add only events of a dry run. *)
Lemma adding_confined {A} (S : string -> Prop) (K : kind -> bool) (m : M A) :
  (forall k, K k = true -> not_write k = true) ->
  confined S K m -> adding dry_event m.
Proof.
  intros HK Hm w. destruct (Hm w) as [_ (evs & Htr & Hall)].
  exists evs. split; [exact Htr|]. eapply Forall_impl; [exact Hall|].
  intros e He. apply HK in He. destruct e; cbn in He; try discriminate; exact I.
Qed.

Lemma adding_write_dummy (E : env) (local_path base_fname : string) :
  adding dry_event (write_dummy E local_path base_fname).
Proof.
  unfold write_dummy.
  apply adding_bind; [apply adding_emit; exact I | intros _].
  apply (adding_confined anywhere net_only); [now intros []|].
  confined_tac.
Qed.

Lemma adding_attempt_file_test (E : env) (rq : request) (ftp : FTP)
    (dt : datetime) (remote_path base_fname : string)
    (acc : list string * list string) :
  test_mode rq = true ->
  adding dry_event (attempt_file E rq ftp dt remote_path base_fname acc).
Proof.
  intros Ht. unfold attempt_file. destruct acc as [downloaded failed].
  rewrite Ht.
  apply adding_bind; [apply adding_emit; exact I | intros _].
  apply adding_bind;
    [apply (adding_confined nowhere net_only);
       [now intros [] | apply confined_path_exists]
    | intros ex].
  destruct ex; [apply adding_ret|].
  apply adding_try_catch; [|intros; apply adding_ret].
  apply adding_bind; [apply adding_write_dummy | intros; apply adding_ret].
Qed.

Lemma adding_file_loop_test (E : env) (rq : request) (ftp : FTP) (dt : datetime)
    (remote_path : string) (fnames : list string)
    (acc : list string * list string) :
  test_mode rq = true ->
  adding dry_event (file_loop E rq ftp dt remote_path fnames acc).
Proof.
  intros Ht. revert acc. induction fnames as [|fname rest IH]; intros acc;
    cbn [file_loop]; [apply adding_ret|].
  apply adding_bind;
    [apply (adding_confined nowhere net_only);
       [now intros [] | apply confined_cancel_requested]
    | intros c].
  destruct c; [apply adding_ret|].
  destruct (negb _); [apply IH|].
  apply adding_bind; [now apply adding_attempt_file_test | intros; apply IH].
Qed.

Lemma adding_main_loop_test (E : env) (rq : request) (ftp : FTP)
    (wanted : list datetime) (dates_seen : gset (Z * Z * Z))
    (acc : list string * list string) :
  test_mode rq = true ->
  adding dry_event (main_loop E rq ftp wanted dates_seen acc).
Proof.
  intros Ht. revert dates_seen acc.
  induction wanted as [|dt rest IH]; intros seen acc;
    cbn [main_loop]; [apply adding_ret|].
  apply adding_bind;
    [apply (adding_confined nowhere net_only);
       [now intros [] | apply confined_cancel_requested]
    | intros c].
  destruct c; [apply adding_ret|].
  destruct (decide _); [apply IH|].
  apply adding_bind;
    [apply (adding_confined nowhere net_or_day);
       [now intros [] | apply confined_find_existing_remote_path]
    | intros found].
  destruct found as [[|c remote_path]|]; [apply IH | | apply IH].
  apply adding_bind;
    [apply (adding_confined nowhere net_or_day);
       [now intros [] | apply confined_list_folder]
    | intros fnames].
  apply adding_bind; [now apply adding_file_loop_test | intros; apply IH].
Qed.

(** X23. Test mode asks the server for no file. With [test_mode] set, a
    run still connects, resolves and lists the folders and computes the
    local paths, but among all it does there is no transfer and no
    removal of a local file: the only writes are those of the dummy
    files. *)
Theorem test_mode_never_transfers (E : env) (rq : request) (w : world) :
  test_mode rq = true ->
  exists evs,
    trace (snd (download_files_by_prefix E rq w)) = evs ++ trace w /\
    Forall dry_event evs /\
    Forall (fun e => exists local_path, e = EvTestWrite local_path) (writes evs).
Proof.
  intros Ht.
  assert (Hrun : adding dry_event (download_files_by_prefix E rq)).
  { unfold download_files_by_prefix.
    apply adding_bind;
      [apply (adding_confined nowhere net_only);
         [now intros [] | apply confined_ftp_connect]
      | intros ftp].
    apply adding_bind;
      [apply (adding_confined nowhere net_only);
         [now intros [] | apply confined_lift_result]
      | intros wanted].
    assert (Hquit : forall r : list string * list string,
              adding dry_event (quit_quietly E ;;; ret r)).
    { intros r. apply adding_bind; [|intros; apply adding_ret].
      apply (adding_confined nowhere net_only);
        [now intros [] | apply confined_quit_quietly]. }
    destruct wanted as [|dt rest]; [apply Hquit|].
    apply adding_bind; [now apply adding_main_loop_test | apply Hquit]. }
  destruct (Hrun w) as (evs & Htr & Hall). exists evs.
  split; [exact Htr|]. split; [exact Hall|].
  clear Htr. induction Hall as [|e evs He _ IH]; [constructor|].
  unfold writes in *. cbn [List.filter].
  destruct e; cbn; try exact IH; try contradiction.
  constructor; [eauto | exact IH].
Qed.

Lemma test_mode_never_transfers_witness :
  exists evs,
    trace (snd (download_files_by_prefix example_env
                  (mk_request "ftp.example" "user" "secret" "/data" "RTU12"
                     example_day example_day 0 0 0 0 15 "downloads" "KL" 21
                     true 3) (init_world ∅))) = evs ++ [] /\
    Forall dry_event evs /\
    Forall (fun e => exists local_path, e = EvTestWrite local_path) (writes evs).
Proof.
  exact (test_mode_never_transfers example_env
           (mk_request "ftp.example" "user" "secret" "/data" "RTU12"
              example_day example_day 0 0 0 0 15 "downloads" "KL" 21 true 3)
           (init_world ∅) eq_refl).
Defined.

(** ** The port of the settings tab *)

Lemma uint_val_pos (u : Decimal.uint) :
  forall p : positive, uint_val u (Z.pos p) = Z.pos (Pos.of_uint_acc u p).
Proof.
  induction u as [|l IH|l IH|l IH|l IH|l IH|l IH|l IH|l IH|l IH|l IH]; intros p;
    cbn [uint_val Pos.of_uint_acc]; [reflexivity|..];
    rewrite <- IH; f_equal; lia.
Qed.

Lemma uint_val_0 (u : Decimal.uint) : uint_val u 0 = Z.of_N (Pos.of_uint u).
Proof.
  induction u as [|l IH|l IH|l IH|l IH|l IH|l IH|l IH|l IH|l IH|l IH];
    cbn [uint_val Pos.of_uint]; [reflexivity | exact IH |..];
    match goal with |- uint_val ?l (10 * 0 + ?d) = _ =>
      change (10 * 0 + d) with d end;
    now rewrite uint_val_pos.
Qed.

Ltac digit_step :=
  match goal with |- context [digit_val ?c] =>
    let v := eval vm_compute in (digit_val c) in change (digit_val c) with v
  end; cbn beta iota.

Lemma digits_val_uint (u : Decimal.uint) :
  forall acc : Z,
    digits_val (DecimalString.NilEmpty.string_of_uint u) acc true
    = Some (uint_val u acc).
Proof.
  induction u as [|l IH|l IH|l IH|l IH|l IH|l IH|l IH|l IH|l IH|l IH]; intros acc;
    cbn [DecimalString.NilEmpty.string_of_uint digits_val uint_val];
    [reflexivity|..]; digit_step; apply IH.
Qed.

Lemma digits_val_uint_first (u : Decimal.uint) (acc : Z) :
  u <> Decimal.Nil ->
  digits_val (DecimalString.NilEmpty.string_of_uint u) acc false
  = Some (uint_val u acc).
Proof.
  intros Hu. destruct u; [congruence|..];
    cbn [DecimalString.NilEmpty.string_of_uint digits_val uint_val];
    digit_step; apply digits_val_uint.
Qed.

Lemma no_space_uint (u : Decimal.uint) :
  no_space (DecimalString.NilEmpty.string_of_uint u) = true.
Proof.
  unfold no_space.
  induction u as [|l IH|l IH|l IH|l IH|l IH|l IH|l IH|l IH|l IH|l IH];
    cbn [DecimalString.NilEmpty.string_of_uint list_ascii_of_string forallb];
    [reflexivity|..]; rewrite IH; reflexivity.
Qed.

Lemma rstrip_no_space (s : string) : no_space s = true -> rstrip s = s.
Proof.
  unfold no_space. induction s as [|c r IH]; [reflexivity|].
  cbn [list_ascii_of_string forallb rstrip]. intros H.
  apply andb_true_iff in H as [Hc Hr]. rewrite (IH Hr).
  apply negb_true_iff in Hc. rewrite Hc. now destruct r.
Qed.

Lemma strip_no_space (s : string) : no_space s = true -> strip s = s.
Proof.
  intros H. unfold strip.
  assert (Hl : lstrip s = s).
  { destruct s as [|c r]; [reflexivity|]. unfold no_space in H.
    cbn [list_ascii_of_string forallb] in H.
    apply andb_true_iff in H as [Hc _]. apply negb_true_iff in Hc.
    cbn [lstrip]. now rewrite Hc. }
  rewrite Hl. now apply rstrip_no_space.
Qed.

Lemma py_int_uint (u : Decimal.uint) :
  u <> Decimal.Nil ->
  py_int (DecimalString.NilEmpty.string_of_uint u) = Ok (Z.of_N (Pos.of_uint u)) /\
  py_int (String "-" (DecimalString.NilEmpty.string_of_uint u))
    = Ok (- Z.of_N (Pos.of_uint u)).
Proof.
  intros Hu. split.
  - unfold py_int. rewrite (strip_no_space _ (no_space_uint u)).
    pose proof (digits_val_uint_first u 0 Hu) as Hd.
    destruct u; [congruence|..];
      cbn [DecimalString.NilEmpty.string_of_uint] in *;
      cbn [Ascii.eqb Bool.eqb]; rewrite Hd, uint_val_0; reflexivity.
  - unfold py_int. rewrite strip_no_space.
    + cbn [Ascii.eqb Bool.eqb]. rewrite (digits_val_uint_first u 0 Hu), uint_val_0.
      reflexivity.
    + unfold no_space. cbn [list_ascii_of_string forallb].
      pose proof (no_space_uint u) as H. unfold no_space in H. rewrite H.
      reflexivity.
Qed.

Lemma py_int_py_str_int (n : Z) : py_int (py_str_int n) = Ok n.
Proof.
  unfold py_str_int. destruct n as [|p|p]; [reflexivity|..];
    cbn [Z.to_int DecimalString.NilZero.string_of_int];
    pose proof (DecimalPos.Unsigned.to_uint_nonnil p) as Hnn;
    destruct (py_int_uint (Pos.to_uint p) Hnn) as [Hpos Hneg];
    rewrite DecimalPos.Unsigned.of_to in Hpos, Hneg;
    unfold DecimalString.NilZero.string_of_uint;
    destruct (Pos.to_uint p); (congruence || assumption).
Qed.

Lemma py_str_int_no_space (n : Z) :
  no_space (py_str_int n) = true /\ py_str_int n <> "".
Proof.
  unfold py_str_int. destruct n as [|p|p]; [split; [reflexivity | discriminate]|..];
    cbn [Z.to_int DecimalString.NilZero.string_of_int];
    pose proof (DecimalPos.Unsigned.to_uint_nonnil p) as Hnn;
    pose proof (no_space_uint (Pos.to_uint p)) as Hs;
    unfold DecimalString.NilZero.string_of_uint;
    destruct (Pos.to_uint p); try congruence;
    (split; [first [exact Hs | unfold no_space in *;
                    cbn [list_ascii_of_string forallb] in *; exact Hs]
            | cbn [DecimalString.NilEmpty.string_of_uint]; discriminate]).
Qed.



(** ** What is reported as downloaded *)

Lemma all_present_keeps (paths : list string) (w w' : world) :
  keeps_files w w' -> all_present paths w -> all_present paths w'.
Proof.
  intros Hk Hp p Hin. destruct (Hp p Hin) as [c Hc]. exists c. now apply Hk.
Qed.

Lemma all_present_snoc (paths : list string) (p : string) (w : world) :
  all_present paths w -> is_Some (files w !! p) -> all_present (paths ++ [p]) w.
Proof.
  intros Hp Hnew q Hq. apply elem_of_app in Hq as [Hq | Hq]; [now apply Hp|].
  apply list_elem_of_singleton in Hq as ->. exact Hnew.
Qed.

Lemma write_dummy_present (E : env) (local_path base_fname : string)
    (w w' : world) :
  write_dummy E local_path base_fname w = (Ok tt, w') ->
  is_Some (files w' !! local_path).
Proof.
  unfold write_dummy, bind, emit, ask, lift_error, set_file, append_file, ret, raise.
  cbn. destruct (open_at E (now w) local_path); cbn; [discriminate|].
  destruct (write_at E (S (now w)) local_path); cbn; [discriminate|].
  intros H. injection H as <-. cbn. rewrite lookup_insert_eq. eauto.
Qed.

Lemma transfer_present (E : env) (ftp : FTP)
    (remote_path base_fname local_path : string) (w : world) :
  exists (ok : bool) (w' : world),
    try_catch
      (ftp_cwd E remote_path ;;;
       download_file_with_progress E ftp base_fname local_path)
      (fun _ =>
         download_file_with_progress E ftp
           (rstrip_slash remote_path +:+ "/" +:+ base_fname) local_path) w
      = (Ok ok, w') /\
    (ok = true -> is_Some (files w' !! local_path)).
Proof.
  destruct (cwd_at E (now w) remote_path) as [e|] eqn:Hcwd.
  - erewrite try_raise;
      [|erewrite bind_raise; [reflexivity | apply ftp_cwd_raise; exact Hcwd]].
    match goal with |- context [download_file_with_progress E ftp ?f ?l ?w1] =>
      destruct (download_file_with_progress_outcome E ftp f l w1)
        as (ok & w' & Heq & _ & Hyes & _) end.
    exists ok, w'. split; [exact Heq|]. intros Hok. rewrite (Hyes Hok). eauto.
  - match goal with |- context [try_catch ?m _ w] =>
      assert (Hm : exists ok w', m w = (Ok ok, w') /\
                     (ok = true -> is_Some (files w' !! local_path))) end.
    { erewrite bind_ok; [|apply ftp_cwd_ok; exact Hcwd].
      match goal with |- context [download_file_with_progress E ftp ?f ?l ?w1] =>
        destruct (download_file_with_progress_outcome E ftp f l w1)
          as (ok & w' & Heq & _ & Hyes & _) end.
      exists ok, w'. split; [exact Heq|]. intros Hok. rewrite (Hyes Hok). eauto. }
    destruct Hm as (ok & w' & Heq & Hyes). exists ok, w'.
    split; [now apply try_ok | exact Hyes].
Qed.

Lemma attempt_file_present (E : env) (rq : request) (ftp : FTP) (dt : datetime)
    (remote_path base_fname : string) (downloaded failed : list string)
    (w : world) (r : result (list string * list string)) (w' : world) :
  attempt_file E rq ftp dt remote_path base_fname (downloaded, failed) w
    = (r, w') ->
  all_present downloaded w ->
  exists downloaded' failed',
    r = Ok (downloaded', failed') /\ all_present downloaded' w'.
Proof.
  intros Hrun Hd.
  pose proof (keeping_attempt_file E rq ftp dt remote_path base_fname
                (downloaded, failed) w) as Hk.
  rewrite Hrun in Hk. cbn [snd] in Hk.
  pose proof (all_present_keeps _ _ _ Hk Hd) as Hd'.
  unfold attempt_file in Hrun. rewrite bind_emit in Hrun.
  unfold bind at 1, path_exists at 1 in Hrun. cbn beta iota in Hrun.
  cbn [files] in Hrun.
  case_bool_decide as Hex.
  - injection Hrun as <- <-. do 2 eexists. split; [reflexivity|].
    apply all_present_snoc; [exact Hd | exact Hex].
  - destruct (test_mode rq).
    + unfold try_catch in Hrun. unfold bind at 1 in Hrun.
      match type of Hrun with context [write_dummy E ?l ?b ?w0] =>
        destruct (write_dummy E l b w0) as [[[]|e] w1] eqn:Hwd end.
      * injection Hrun as <- <-. do 2 eexists. split; [reflexivity|].
        apply all_present_snoc; [exact Hd'|].
        eapply write_dummy_present. exact Hwd.
      * injection Hrun as <- <-. do 2 eexists. split; [reflexivity | exact Hd'].
    + unfold try_catch at 1 in Hrun. unfold bind at 1 in Hrun.
      match type of Hrun with context [try_catch ?m ?h ?w0] =>
        destruct (transfer_present E ftp remote_path base_fname
                    (local_path_of rq dt base_fname) w0)
          as (ok & w1 & Heq & Hyes) end.
      rewrite Heq in Hrun. destruct ok.
      * injection Hrun as <- <-. do 2 eexists. split; [reflexivity|].
        apply all_present_snoc; [exact Hd' | now apply Hyes].
      * injection Hrun as <- <-. do 2 eexists. split; [reflexivity | exact Hd'].
Qed.

Lemma file_loop_present (E : env) (rq : request) (ftp : FTP) (dt : datetime)
    (remote_path : string) (fnames : list string) :
  forall (downloaded failed : list string) (w : world)
         (r : result (list string * list string)) (w' : world),
    file_loop E rq ftp dt remote_path fnames (downloaded, failed) w = (r, w') ->
    all_present downloaded w ->
    exists downloaded' failed',
      r = Ok (downloaded', failed') /\ all_present downloaded' w'.
Proof.
  induction fnames as [|fname rest IH]; intros downloaded failed w r w' Hrun Hd;
    cbn [file_loop] in Hrun.
  { injection Hrun as <- <-. eauto. }
  unfold bind at 1, cancel_requested at 1, ask at 1 in Hrun.
  cbn beta iota in Hrun.
  destruct (cancel_at E (now w)).
  { injection Hrun as <- <-. eauto. }
  destruct (negb _); [eapply IH; [exact Hrun | exact Hd]|].
  unfold bind at 1 in Hrun.
  match type of Hrun with context [attempt_file E rq ftp dt ?rp ?b ?acc ?w1] =>
    destruct (attempt_file E rq ftp dt rp b acc w1) as [r1 w2] eqn:Ha;
    destruct (attempt_file_present E rq ftp dt rp b downloaded failed w1 r1 w2
                Ha Hd) as (d1 & f1 & -> & Hd1) end.
  eapply IH; [exact Hrun | exact Hd1].
Qed.

Lemma main_loop_present (E : env) (rq : request) (ftp : FTP)
    (wanted : list datetime) :
  forall (dates_seen : gset (Z * Z * Z)) (downloaded failed : list string)
         (w : world) (r : result (list string * list string)) (w' : world),
    main_loop E rq ftp wanted dates_seen (downloaded, failed) w = (r, w') ->
    all_present downloaded w ->
    exists downloaded' failed',
      r = Ok (downloaded', failed') /\ all_present downloaded' w'.
Proof.
  induction wanted as [|dt rest IH];
    intros seen downloaded failed w r w' Hrun Hd; cbn [main_loop] in Hrun.
  { injection Hrun as <- <-. eauto. }
  unfold bind at 1, cancel_requested at 1, ask at 1 in Hrun.
  cbn beta iota in Hrun.
  destruct (cancel_at E (now w)).
  { injection Hrun as <- <-. eauto. }
  destruct (decide (date_key dt ∈ seen)); [eapply IH; [exact Hrun | exact Hd]|].
  destruct (find_existing_remote_path_ok E ftp (remote_dir_base rq) dt
              (mk_world (S (now w)) (files w) (trace w))) as [found Hf].
  pose proof (files_unchanged net_or_day
                (find_existing_remote_path E ftp (remote_dir_base rq) dt)
                (mk_world (S (now w)) (files w) (trace w))
                (confined_find_existing_remote_path E ftp (remote_dir_base rq) dt))
    as Hfs2.
  unfold bind at 1 in Hrun. rewrite Hf in Hrun.
  set (w2 := snd (find_existing_remote_path E ftp (remote_dir_base rq) dt _)) in *.
  cbn [files] in Hfs2.
  assert (Hd2 : all_present downloaded w2).
  { intros p Hp. rewrite Hfs2. now apply Hd. }
  destruct found as [[|c remote_path]|];
    [eapply IH; [exact Hrun | exact Hd2] | | eapply IH; [exact Hrun | exact Hd2]].
  destruct (list_folder_ok E dt (String c remote_path) w2) as [fnames Hl].
  pose proof (files_unchanged net_or_day
                (list_folder E dt (String c remote_path)) w2
                (confined_list_folder E dt (String c remote_path))) as Hfs3.
  unfold bind at 1 in Hrun. rewrite Hl in Hrun.
  set (w3 := snd (list_folder E dt (String c remote_path) w2)) in *.
  assert (Hd3 : all_present downloaded w3).
  { intros p Hp. rewrite Hfs3. now apply Hd2. }
  unfold bind at 1 in Hrun.
  destruct (file_loop E rq ftp dt (String c remote_path) fnames
              (downloaded, failed) w3) as [r4 w4] eqn:Hfl.
  destruct (file_loop_present E rq ftp dt (String c remote_path) fnames
              downloaded failed w3 r4 w4 Hfl Hd3) as (d4 & f4 & -> & Hd4).
  eapply IH; [exact Hrun | exact Hd4].
Qed.

(** X25. What a run reports as downloaded is there. When the run returns,
    every local path of its first collection names a local file at the end
    of the run: one that was already there, a dummy of test mode, or a
    file transferred in full. *)
Theorem downloaded_files_exist (E : env) (rq : request) (w : world)
    (downloaded failed : list string) :
  fst (download_files_by_prefix E rq w) = Ok (downloaded, failed) ->
  all_present downloaded (snd (download_files_by_prefix E rq w)).
Proof.
  destruct (download_files_by_prefix E rq w) as [r w'] eqn:Hrun.
  apply download_files_by_prefix_run in Hrun. cbn [fst snd]. intros ->.
  inversion Hrun as [e w0 Hc | ftp w0 e Hc Hw | ftp w0 Hc Hw
                    | ftp w0 wanted e w1 Hc Hw Hml
                    | ftp w0 wanted acc w1 Hc Hw Hml]; subst.
  - intros p Hp. now apply elem_of_nil in Hp.
  - destruct (main_loop_present E rq ftp wanted ∅ [] [] w0 _ _ Hml)
      as (d & f & Heq & Hd).
    { intros p Hp. now apply elem_of_nil in Hp. }
    injection Heq as <- <-. rewrite quit_quietly_world. exact Hd.
Qed.

Lemma downloaded_files_exist_witness :
  let run := download_files_by_prefix example_env example_request
               (init_world ∅) in
  fst run = Ok ([example_local_path], []) /\
  all_present [example_local_path] (snd run).
Proof.
  cbn zeta.
  assert (H : fst (download_files_by_prefix example_env example_request
                     (init_world ∅)) = Ok ([example_local_path], []))
    by (vm_compute; reflexivity).
  split; [exact H|].
  exact (downloaded_files_exist example_env example_request (init_world ∅)
           [example_local_path] [] H).
Defined.
